(** * autotunchi: the deployment pipeline, embedded and checked

    A shallow embedding of the TypeScript sources of the orchestration
    pipeline (webhook verification and parsing, the deployment routers, the
    image builder, the deployment worker and the resource-quantity parser),
    followed by the properties the specification states about them.

    Conventions of the embedding.
    - A JavaScript string is held as the [string] of its UTF-8 bytes, the
      form in which [createHmac(..).update] hashes it and in which it
      reaches the database and a child process.  [substring] counts UTF-16
      code units on it: see [substring0].
    - A call that can throw returns an [Outcome]; [try]/[catch]/[finally]
      are the combinators [try_catch], [catch] and [finally].
    - Code that reads and writes the database or the file system is a
      function from the state before to a [Completion] and the state
      after: a thrown exception keeps the writes made before it, as in the
      source, where no transaction is opened.
    - The answers of external collaborators (GitHub, docker, pulumi, the DNS
      provider, the clock, the UUID source, the file system's verdicts) are
      read from a [World] record: one record describes what the environment
      answers during one invocation. *)

From Stdlib Require Import String Ascii List Bool Arith ZArith NArith QArith Lia.
From Stdlib.Strings Require Import Byte.
Import ListNotations.

Set Warnings "-register-all".

Close Scope Q_scope.
Local Open Scope list_scope.
Local Open Scope string_scope.

(* ====================================================================== *)
(** ** JavaScript values, exceptions and strings                          *)
(* ====================================================================== *)

Module Js.

(** The exceptions the modelled code throws or meets. *)
Inductive TRPCCode := NOT_FOUND | BAD_REQUEST | UNAUTHORIZED.

Inductive Exn :=
| Error (message : string)                 (* new Error(message) *)
| TypeError (message : string)             (* property of null, not a function *)
| RangeError (message : string)            (* timingSafeEqual on unequal lengths *)
| SyntaxError (message : string)           (* JSON.parse *)
| DbError (message : string)               (* constraint violation, driver error *)
| TRPCError (code : TRPCCode) (message : option string).

(** [error instanceof Error ? error.message : "Unknown error"]: every
    exception of the model is an [Error] instance; a TRPCError built without
    a message carries its code as message. *)
Definition code_name (c : TRPCCode) : string :=
  match c with
  | NOT_FOUND => "NOT_FOUND"
  | BAD_REQUEST => "BAD_REQUEST"
  | UNAUTHORIZED => "UNAUTHORIZED"
  end.

Definition message_of (e : Exn) : string :=
  match e with
  | Error m | TypeError m | RangeError m | SyntaxError m | DbError m => m
  | TRPCError c None => code_name c
  | TRPCError _ (Some m) => m
  end.

Inductive Outcome (A : Type) :=
| Returned (a : A)
| Thrown (e : Exn).
Arguments Returned {A} a.
Arguments Thrown {A} e.

Definition obind {A B} (m : Outcome A) (k : A -> Outcome B) : Outcome B :=
  match m with
  | Returned a => k a
  | Thrown e => Thrown e
  end.

(** [try { m } catch (e) { h e }] for code without state. *)
Definition try_catch {A} (m : Outcome A) (h : Exn -> Outcome A) : Outcome A :=
  match m with
  | Returned a => Returned a
  | Thrown e => h e
  end.

(** *** Strings *)

(** The UTF-16 code units a byte of UTF-8 stands for: a character of one,
    two or three bytes is one code unit and a character of four bytes (one
    outside the Basic Multilingual Plane) is a surrogate pair, two code
    units; the units are counted on the byte that starts the character, and
    the bytes 10xxxxxx that continue it count nothing. *)
Definition code_units (c : ascii) : nat :=
  let n := nat_of_ascii c in
  if (n <? 128)%nat then 1
  else if (n <? 192)%nat then 0
  else if (n <? 240)%nat then 1
  else 2.

(** [s.length]. *)
Fixpoint utf16_length (s : string) : nat :=
  match s with
  | EmptyString => 0
  | String c s' => code_units c + utf16_length s'
  end.

(** U+FFFD in UTF-8. *)
Definition replacement_character : string :=
  String (ascii_of_nat 239) (String (ascii_of_nat 191)
    (String (ascii_of_nat 189) EmptyString)).

(** [s.substring(0, n)]: the first [n] code units, or all of [s] when it
    has no more.  A character is kept with all its bytes.  When the cut
    falls between the two units of a surrogate pair the source keeps the
    first of them alone; a lone surrogate is written U+FFFD when the string
    is encoded, and that is how it is held here. *)
Fixpoint substring0 (n : nat) (s : string) : string :=
  match s with
  | EmptyString => EmptyString
  | String c s' =>
      match code_units c, n with
      | O, _ => String c (substring0 n s')
      | _, O => EmptyString
      | S O, S n' => String c (substring0 n' s')
      | _, S O => replacement_character
      | _, S (S n'') => String c (substring0 n'' s')
      end
  end.

(** [s.split(sep)] for a one-character separator: the pieces between the
    occurrences of [sep]; never an empty list. *)
Fixpoint split (sep : ascii) (s : string) : list string :=
  match s with
  | EmptyString => [EmptyString]
  | String c s' =>
      if Ascii.eqb c sep then EmptyString :: split sep s'
      else match split sep s' with
           | piece :: pieces => String c piece :: pieces
           | [] => [String c EmptyString]
           end
  end.

Fixpoint string_rev_acc (s acc : string) : string :=
  match s with
  | EmptyString => acc
  | String c s' => string_rev_acc s' (String c acc)
  end.

Definition string_rev (s : string) : string := string_rev_acc s EmptyString.

(** [s.endsWith(suffix)]. *)
Definition endsWith (s suffix : string) : bool :=
  String.prefix (string_rev suffix) (string_rev s).

(** [s.slice(0, -1)]: all but the last code unit.  The callers apply it to
    a string that ends in an ASCII letter, which is one byte. *)
Fixpoint slice_but_last (s : string) : string :=
  match s with
  | EmptyString => EmptyString
  | String c EmptyString => EmptyString
  | String c s' => String c (slice_but_last s')
  end.

Definition string_forallb (p : ascii -> bool) (s : string) : bool :=
  forallb p (list_ascii_of_string s).

Definition string_existsb (p : ascii -> bool) (s : string) : bool :=
  existsb p (list_ascii_of_string s).

Definition is_digit (c : ascii) : bool :=
  let n := nat_of_ascii c in (48 <=? n)%nat && (n <=? 57)%nat.

Definition is_letter (c : ascii) : bool :=
  let n := nat_of_ascii c in
  ((65 <=? n)%nat && (n <=? 90)%nat) || ((97 <=? n)%nat && (n <=? 122)%nat).

(** White space that [parseInt] skips, StrWhiteSpaceChar.  In one byte:
    TAB, LF, VT, FF, CR, SP. *)
Definition is_space (c : ascii) : bool :=
  let n := nat_of_ascii c in
  ((9 <=? n)%nat && (n <=? 13)%nat) || (n =? 32)%nat.

(** In two bytes: U+00A0. *)
Definition is_space2 (a b : ascii) : bool :=
  (nat_of_ascii a =? 194)%nat && (nat_of_ascii b =? 160)%nat.

(** In three bytes: U+1680, U+2000 to U+200A, U+2028, U+2029, U+202F,
    U+205F, U+3000 and U+FEFF. *)
Definition is_space3 (a b c : ascii) : bool :=
  let x := nat_of_ascii a in
  let y := nat_of_ascii b in
  let z := nat_of_ascii c in
  ((x =? 225) && (y =? 154) && (z =? 128))%nat
  || ((x =? 226) && (y =? 128)
      && (((128 <=? z) && (z <=? 138)) || (z =? 168) || (z =? 169) || (z =? 175)))%nat
  || ((x =? 226) && (y =? 129) && (z =? 159))%nat
  || ((x =? 227) && (y =? 128) && (z =? 128))%nat
  || ((x =? 239) && (y =? 187) && (z =? 191))%nat.

Definition digit_value (c : ascii) : Z := Z.of_nat (nat_of_ascii c - 48).

(** The decimal digits at the front of [s], accumulated left to right. *)
Fixpoint digits_prefix (s : string) (acc : option Z) : option Z :=
  match s with
  | String c s' =>
      if is_digit c
      then digits_prefix s' (Some (10 * match acc with Some a => a | None => 0 end
                                   + digit_value c)%Z)
      else acc
  | EmptyString => acc
  end.

Fixpoint skip_spaces (s : string) : string :=
  match s with
  | String a s1 =>
      if is_space a then skip_spaces s1
      else match s1 with
           | String b s2 =>
               if is_space2 a b then skip_spaces s2
               else match s2 with
                    | String c s3 => if is_space3 a b c then skip_spaces s3 else s
                    | EmptyString => s
                    end
           | EmptyString => s
           end
  | EmptyString => s
  end.

(** [parseInt(s, 10)]: leading white space, an optional sign, then the
    longest run of decimal digits; [None] is NaN (no digit).  The result is
    the exact integer, which is what the double holds below 2^53. *)
Definition parseInt (s : string) : option Z :=
  match skip_spaces s with
  | String "-" s' => option_map Z.opp (digits_prefix s' None)
  | String "+" s' => digits_prefix s' None
  | s' => digits_prefix s' None
  end.

(** Decimal rendering of a natural number, as a template literal prints
    it. *)
Fixpoint nat_digits (fuel n : nat) (acc : string) : string :=
  match fuel with
  | O => acc
  | S fuel' =>
      let acc' := String (ascii_of_nat (48 + n mod 10)) acc in
      if (n <? 10)%nat then acc' else nat_digits fuel' (n / 10) acc'
  end.

Definition string_of_nat (n : nat) : string := nat_digits (S n) n EmptyString.

End Js.
Export Js.

Declare Scope outcome_scope.
Delimit Scope outcome_scope with outcome.
Notation "'let!' x ':=' m 'in' k" := (obind m (fun x => k))
  (at level 10, x name, m at level 100, k at level 200) : outcome_scope.

(* ====================================================================== *)
(** ** node:crypto and Buffer                                             *)
(* ====================================================================== *)

Module Crypto.

Local Open Scope N_scope.

(** SHA-256 (FIPS 180-4) on 32-bit words held in [N]. *)
Definition w32 (x : N) : N := N.land x 0xFFFFFFFF.
Definition add32 (x y : N) : N := w32 (x + y).
Definition rotr (n x : N) : N := N.lor (N.shiftr x n) (w32 (N.shiftl x (32 - n))).
Definition not32 (x : N) : N := N.lxor x 0xFFFFFFFF.

Definition Ch (x y z : N) := N.lxor (N.land x y) (N.land (not32 x) z).
Definition Maj (x y z : N) := N.lxor (N.lxor (N.land x y) (N.land x z)) (N.land y z).
Definition Sigma0 x := N.lxor (N.lxor (rotr 2 x) (rotr 13 x)) (rotr 22 x).
Definition Sigma1 x := N.lxor (N.lxor (rotr 6 x) (rotr 11 x)) (rotr 25 x).
Definition sigma0 x := N.lxor (N.lxor (rotr 7 x) (rotr 18 x)) (N.shiftr x 3).
Definition sigma1 x := N.lxor (N.lxor (rotr 17 x) (rotr 19 x)) (N.shiftr x 10).

(** The constants of the standard, from their definition: the first 32
    bits of the fractional parts of the cube roots of the first 64 primes,
    and of the square roots of the first 8. *)
Definition is_prime (n : nat) : bool :=
  forallb (fun d => negb (n mod d =? 0)%nat) (seq 2 (n - 2)).

Definition primes_below (bound : nat) : list N :=
  map N.of_nat (filter is_prime (seq 2 (bound - 2))).

(** The integer cube root, one bit at a time from [2^bit] down. *)
Fixpoint cube_root (bit : nat) (acc x : N) : N :=
  match bit with
  | O => acc
  | S bit' =>
      let candidate := acc + N.shiftl 1 (N.of_nat bit') in
      if candidate * candidate * candidate <=? x
      then cube_root bit' candidate x
      else cube_root bit' acc x
  end.

Definition K256 : list N :=
  map (fun p => w32 (cube_root 36 0 (N.shiftl p 96))) (primes_below 312).

Definition H256 : list N :=
  map (fun p => w32 (N.sqrt (N.shiftl p 64))) (primes_below 20).

(** Message padding: 0x80, zeros up to 56 mod 64, the bit length on 8
    bytes, big endian. *)
Definition be_bytes (width : nat) (x : N) : list N :=
  map (fun i => N.land (N.shiftr x (8 * N.of_nat (width - 1 - i))) 0xFF) (seq 0 width).

Definition pad (msg : list N) : list N :=
  let len := length msg in
  let zeros := ((64 - ((len + 9) mod 64)) mod 64)%nat in
  (msg ++ [0x80] ++ repeat 0 zeros ++ be_bytes 8 (8 * N.of_nat len))%list.

Fixpoint words_of_bytes (bs : list N) : list N :=
  match bs with
  | a :: b :: c :: d :: rest =>
      (N.shiftl a 24 + N.shiftl b 16 + N.shiftl c 8 + d) :: words_of_bytes rest
  | _ => []
  end.

Fixpoint chunks (fuel : nat) (size : nat) (l : list N) : list (list N) :=
  match fuel with
  | O => []
  | S fuel' =>
      match l with
      | [] => []
      | _ => firstn size l :: chunks fuel' size (skipn size l)
      end
  end.

(** The message schedule, kept newest first: [w] holds W(t-1), W(t-2), ... *)
Fixpoint schedule (n : nat) (w : list N) : list N :=
  match n with
  | O => w
  | S n' =>
      let wt := add32 (add32 (sigma1 (nth 1 w 0)) (nth 6 w 0))
                      (add32 (sigma0 (nth 14 w 0)) (nth 15 w 0)) in
      schedule n' (wt :: w)
  end.

Definition round (st : list N) (kw : N * N) : list N :=
  match st with
  | [a; b; c; d; e; f; g; h] =>
      let t1 := add32 (add32 (add32 h (Sigma1 e)) (add32 (Ch e f g) (fst kw))) (snd kw) in
      let t2 := add32 (Sigma0 a) (Maj a b c) in
      [add32 t1 t2; a; b; c; add32 d t1; e; f; g]
  | _ => st
  end.

Definition compress (st : list N) (block : list N) : list N :=
  let w := rev (schedule 48 (rev (words_of_bytes block))) in
  let st' := fold_left round (combine K256 w) st in
  map (fun p => add32 (fst p) (snd p)) (combine st st').

Definition sha256 (msg : list N) : list N :=
  let padded := pad msg in
  let st := fold_left compress (chunks (length padded) 64 padded) H256 in
  flat_map (be_bytes 4) st.

(** HMAC (RFC 2104) with SHA-256: block size 64. *)
Definition hmac_sha256 (key data : list N) : list N :=
  let k0 := if (64 <? length key)%nat then sha256 key else key in
  let k := (k0 ++ repeat 0 (64 - length k0))%list in
  let ipad := map (N.lxor 0x36) k in
  let opad := map (N.lxor 0x5c) k in
  sha256 (opad ++ sha256 (ipad ++ data))%list.

Local Close Scope N_scope.

Definition bytes_of_string (s : string) : list N :=
  map N_of_ascii (list_ascii_of_string s).

Definition byte_of_N (n : N) : byte :=
  match Byte.of_N n with Some b => b | None => x00 end.

(** [createHmac("sha256", secret).update(payload)]: the digest bytes. *)
Definition createHmac_sha256 (secret payload : string) : list byte :=
  map byte_of_N (hmac_sha256 (bytes_of_string secret) (bytes_of_string payload)).

(** [.digest("hex")]: two lower-case hexadecimal digits per byte. *)
Definition hex_digit (n : N) : ascii :=
  if (n <? 10)%N then ascii_of_N (48 + n) else ascii_of_N (87 + n).

Fixpoint digest_hex (bs : list byte) : string :=
  match bs with
  | [] => EmptyString
  | b :: bs' =>
      let n := Byte.to_N b in
      String (hex_digit (n / 16)) (String (hex_digit (n mod 16)) (digest_hex bs'))
  end.

(** Node's [unhex]: the value of a hexadecimal digit, upper or lower case. *)
Definition unhex (c : ascii) : option N :=
  let n := N_of_ascii c in
  if ((48 <=? n) && (n <=? 57))%N then Some (n - 48)%N
  else if ((97 <=? n) && (n <=? 102))%N then Some (n - 87)%N
  else if ((65 <=? n) && (n <=? 70))%N then Some (n - 55)%N
  else None.

(** [Buffer.from(s, "hex")]: decodes pairs of hexadecimal digits and stops
    at the first pair that is not one; a trailing single character is
    dropped. *)
Fixpoint Buffer_from_hex (s : string) : list byte :=
  match s with
  | String a (String b rest) =>
      match unhex a, unhex b with
      | Some hi, Some lo => byte_of_N (16 * hi + lo) :: Buffer_from_hex rest
      | _, _ => []
      end
  | _ => []
  end.

Definition bytes_eqb (a b : list byte) : bool :=
  if list_eq_dec Byte.byte_eq_dec a b then true else false.

(** [timingSafeEqual(a, b)]: throws when the byte lengths differ. *)
Definition timingSafeEqual (a b : list byte) : Outcome bool :=
  if (length a =? length b)%nat then Returned (bytes_eqb a b)
  else Thrown (RangeError "Input buffers must have the same byte length").

End Crypto.

Export Crypto.

(* ====================================================================== *)
(** ** lib/github/webhooks: signature check and push-event parsing        *)
(* ====================================================================== *)

Module Webhooks.

(** A decoded JSON document.  An object is the list of its own properties,
    each key once. *)
Inductive Json :=
| JNull
| JBool (b : bool)
| JNumber (q : Q)
| JString (s : string)
| JArray (items : list Json)
| JObject (fields : list (string * Json)).

(** A JavaScript value as the parser meets it: [undefined] or a JSON
    value. *)
Inductive JsVal :=
| Undefined
| J (j : Json).

(** ToBoolean. *)
Definition truthy (v : JsVal) : bool :=
  match v with
  | Undefined | J JNull => false
  | J (JBool b) => b
  | J (JNumber q) => negb (Qeq_bool q 0)
  | J (JString s) => negb (String.eqb s "")
  | J (JArray _) | J (JObject _) => true
  end.

Fixpoint lookup (k : string) (fields : list (string * Json)) : JsVal :=
  match fields with
  | [] => Undefined
  | (k', v) :: rest => if String.eqb k k' then J v else lookup k rest
  end.

(** [v.k] for the property names the parser reads (ref, after, repository,
    full_name, head_commit, id, message, pusher, name, email): none of them
    is a built-in property of a string, number, boolean or array, so only an
    object can answer; [undefined] and [null] throw. *)
Definition prop (v : JsVal) (k : string) : Outcome JsVal :=
  match v with
  | Undefined =>
      Thrown (TypeError ("Cannot read properties of undefined (reading '" ++ k ++ "')"))
  | J JNull =>
      Thrown (TypeError ("Cannot read properties of null (reading '" ++ k ++ "')"))
  | J (JObject fields) => Returned (lookup k fields)
  | J _ => Returned Undefined
  end.

(** [interface PushEvent].  The casts [as string] do nothing at run time,
    so a field holds whatever the payload held. *)
Record HeadCommit := { hc_id : JsVal; hc_message : JsVal }.
Record Pusher := { pusher_name : JsVal; pusher_email : JsVal }.
Record PushEvent := {
  ref : JsVal;
  after : JsVal;
  repository_full_name : JsVal;
  head_commit : option HeadCommit;
  pusher : Pusher
}.

Local Open Scope outcome_scope.

Definition verifyWebhookSignature
    (payload : string) (signature : option string) (secret : string) : Outcome bool :=
  match signature with
  | None => Returned false
  | Some sig =>
      if String.eqb sig "" then Returned false
      else
        let parts := split "=" sig in
        if negb (length parts =? 2)%nat || negb (String.eqb (nth 0 parts "") "sha256")
        then Returned false
        else
          let expectedSignature := digest_hex (createHmac_sha256 secret payload) in
          let providedSignature := nth 1 parts "" in
          try_catch
            (timingSafeEqual (Buffer_from_hex expectedSignature)
                             (Buffer_from_hex providedSignature))
            (fun _ => Returned false)
  end.

Definition is_object (v : JsVal) : bool :=
  match v with
  | J (JArray _) | J (JObject _) => true
  | _ => false
  end.

Definition parsePushEvent (payload : JsVal) : Outcome (option PushEvent) :=
  if negb (truthy payload) || negb (is_object payload) then Returned None
  else
    let! e_ref := prop payload "ref" in
    let! e_after := prop payload "after" in
    let! e_repository := prop payload "repository" in
    if negb (truthy e_ref) || negb (truthy e_after) || negb (truthy e_repository)
    then Returned None
    else
      let! full_name := prop e_repository "full_name" in
      let! e_head_commit := prop payload "head_commit" in
      let! hc :=
        (if truthy e_head_commit
         then let! i := prop e_head_commit "id" in
              let! m := prop e_head_commit "message" in
              Returned (Some {| hc_id := i; hc_message := m |})
         else Returned None) in
      let! e_pusher := prop payload "pusher" in
      let! p_name := prop e_pusher "name" in
      let! e_pusher' := prop payload "pusher" in
      let! p_email := prop e_pusher' "email" in
      Returned (Some {| ref := e_ref; after := e_after;
                        repository_full_name := full_name;
                        head_commit := hc;
                        pusher := {| pusher_name := p_name; pusher_email := p_email |} |}).

(** [.] of a regular expression matches any character but a line
    terminator: LF and CR, one byte each, and U+2028 and U+2029, three
    bytes each. *)
Definition is_line_terminator (c : ascii) : bool :=
  let n := nat_of_ascii c in (n =? 10)%nat || (n =? 13)%nat.

Definition is_line_separator (a b c : ascii) : bool :=
  ((nat_of_ascii a =? 226) && (nat_of_ascii b =? 128)
   && ((nat_of_ascii c =? 168) || (nat_of_ascii c =? 169)))%nat.

Fixpoint has_line_terminator (s : string) : bool :=
  match s with
  | EmptyString => false
  | String a s1 =>
      is_line_terminator a
      || match s1 with
         | String b (String c _) => is_line_separator a b c
         | _ => false
         end
      || has_line_terminator s1
  end.

Fixpoint strip_prefix (p s : string) : option string :=
  match p, s with
  | EmptyString, _ => Some s
  | String a p', String b s' => if Ascii.eqb a b then strip_prefix p' s' else None
  | String _ _, EmptyString => None
  end.

(** [ref.match(/^refs\/heads\/(.+)$/)]: the rest after the prefix, not
    empty and without line terminator.  A [ref] that is not a string has no
    [match] method. *)
Definition extractBranchFromRef (r : JsVal) : Outcome (option string) :=
  match r with
  | J (JString s) =>
      match strip_prefix "refs/heads/" s with
      | Some branch =>
          if negb (String.eqb branch "")
             && negb (has_line_terminator branch)
          then Returned (Some branch) else Returned None
      | None => Returned None
      end
  | Undefined => Thrown (TypeError "Cannot read properties of undefined (reading 'match')")
  | J JNull => Thrown (TypeError "Cannot read properties of null (reading 'match')")
  | J _ => Thrown (TypeError "ref.match is not a function")
  end.

End Webhooks.
Export Webhooks.

(* ====================================================================== *)
(** ** lib/kubernetes/metrics: resource quantities                        *)
(* ====================================================================== *)

Module Metrics.

(** A JavaScript number: NaN or an exact rational.  The doubles of the
    source hold the same values wherever the result is an integer below
    2^53 in magnitude, which covers the quantities of a cluster node; a
    larger product, and the quotient of the nanocore case, are rounded by
    the source and exact here. *)
Inductive JsNumber :=
| NaN
| Num (q : Q).

Definition of_parseInt (r : option Z) : JsNumber :=
  match r with
  | Some z => Num (inject_Z z)
  | None => NaN
  end.

Definition times (x : JsNumber) (k : Z) : JsNumber :=
  match x with
  | Num q => Num (Qred (q * inject_Z k))
  | NaN => NaN
  end.

Definition divided_by (x : JsNumber) (k : positive) : JsNumber :=
  match x with
  | Num q => Num (Qred (q / inject_Z (Zpos k)))
  | NaN => NaN
  end.

Definition isNaN (x : JsNumber) : bool :=
  match x with NaN => true | Num _ => false end.

Definition lt_num (x : JsNumber) (k : Z) : bool :=
  match x with
  | Num q => match Qlt_le_dec q (inject_Z k) with left _ => true | right _ => false end
  | NaN => false
  end.

(** [x || 0]. *)
Definition or_zero (x : JsNumber) : JsNumber :=
  match x with
  | NaN => Num 0
  | Num q => if Qeq_bool q 0 then Num 0 else Num q
  end.

Definition parseResourceValue (value : string) : JsNumber :=
  if String.eqb value "" then Num 0
  else if endsWith value "m" then of_parseInt (parseInt (slice_but_last value))
  else if endsWith value "n"
       then divided_by (of_parseInt (parseInt (slice_but_last value))) 1000000
  else
    let numValue := of_parseInt (parseInt value) in
    if endsWith value "Ki" then times numValue 1024
    else if endsWith value "Mi" then times (times numValue 1024) 1024
    else if endsWith value "Gi" then times (times (times numValue 1024) 1024) 1024
    else if endsWith value "Ti"
         then times (times (times (times numValue 1024) 1024) 1024) 1024
    else if negb (isNaN numValue) && negb (string_existsb is_letter value)
         then if lt_num numValue 1000 then times numValue 1000 else numValue
    else or_zero numValue.

End Metrics.
Export Metrics.

(* ====================================================================== *)
(** ** lib/db/schema: the tables                                          *)
(* ====================================================================== *)

(** The [status] column is text; the schema lists its five values and the
    code writes no other. *)
Inductive Status := pending | building | deploying | live | failed.

Definition status_eqb (a b : Status) : bool :=
  match a, b with
  | pending, pending | building, building | deploying, deploying
  | live, live | failed, failed => true
  | _, _ => false
  end.

Module User.
Record row := {
  id : string;
  cloudflareToken : option string;
  cloudflareZone : option string
}.
End User.

Module Project.
Record row := {
  id : string;
  name : string;
  slug : string;
  repoFullName : string;
  branch : string;
  buildCommand : option string;
  port : nat;
  envVars : list (string * string);
  nodeAffinity : option string;
  cpuLimit : string;
  cpuRequest : string;
  memoryLimit : string;
  memoryRequest : string;
  replicas : nat;
  subdomain : string;
  customDomain : option string;
  webhookSecret : string;
  userId : string
}.
End Project.

Module Deployment.
Record row := {
  id : string;
  projectId : string;
  commitSha : string;
  commitMsg : option string;
  status : Status;
  logs : option string;
  buildLogs : option string;
  imageTag : option string;
  error : option string;
  createdAt : Z;
  finishedAt : option Z
}.

(** The column sets written by the [update] calls of the sources. *)
Definition set_status (v : Status) (d : row) : row :=
  {| id := id d; projectId := projectId d; commitSha := commitSha d;
     commitMsg := commitMsg d; status := v; logs := logs d;
     buildLogs := buildLogs d; imageTag := imageTag d; error := error d;
     createdAt := createdAt d; finishedAt := finishedAt d |}.

Definition set_buildLogs (v : string) (d : row) : row :=
  {| id := id d; projectId := projectId d; commitSha := commitSha d;
     commitMsg := commitMsg d; status := status d; logs := logs d;
     buildLogs := Some v; imageTag := imageTag d; error := error d;
     createdAt := createdAt d; finishedAt := finishedAt d |}.

Definition set_imageTag (v : string) (d : row) : row :=
  {| id := id d; projectId := projectId d; commitSha := commitSha d;
     commitMsg := commitMsg d; status := status d; logs := logs d;
     buildLogs := buildLogs d; imageTag := Some v; error := error d;
     createdAt := createdAt d; finishedAt := finishedAt d |}.

Definition set_error (v : string) (d : row) : row :=
  {| id := id d; projectId := projectId d; commitSha := commitSha d;
     commitMsg := commitMsg d; status := status d; logs := logs d;
     buildLogs := buildLogs d; imageTag := imageTag d; error := Some v;
     createdAt := createdAt d; finishedAt := finishedAt d |}.

Definition set_finishedAt (v : Z) (d : row) : row :=
  {| id := id d; projectId := projectId d; commitSha := commitSha d;
     commitMsg := commitMsg d; status := status d; logs := logs d;
     buildLogs := buildLogs d; imageTag := imageTag d; error := error d;
     createdAt := createdAt d; finishedAt := Some v |}.
End Deployment.

Record Database := {
  users : list User.row;
  projects : list Project.row;
  deployments : list Deployment.row
}.

(** How a Deployment row came to be; kept in the history only. *)
Inductive Origin := ByPush | ByTrigger | ByRollback (source : string).

(** The history of one system: what happened, oldest first.  No modelled
    code reads it; it exists so that statements about order and about what a
    record went through can be written down. *)
Inductive Event :=
| EvParsed                                       (* parsePushEvent returned an event *)
| EvSignature (ok : bool)                       (* verifyWebhookSignature returned *)
| EvInserted (id : string) (origin : Origin)    (* a Deployment row was inserted *)
| EvBuild (id : string) (success : bool)        (* buildProject returned to the worker *)
| EvProvision (id : string) (success : bool)    (* deployProject returned to the worker *)
| EvDnsFailed (id : string).                    (* setupProjectDns threw *)

Record State := {
  db : Database;
  fs : list string;          (* the paths that exist *)
  journal : list Event
}.

(* ====================================================================== *)
(** ** State and exceptions                                               *)
(* ====================================================================== *)

Module Run.

(** How an asynchronous function ends.  Its promise settles, with a value
    or with an exception that a [catch] or [finally] around the [await]
    sees; or an exception is raised where no handler of the function can
    reach it (an [error] event that nobody listens to is thrown by the
    event loop, not by the awaited promise): the promise then never
    settles, and nothing that was to follow runs, neither the rest of the
    function nor a [catch] or [finally] block around it, in this function
    or in its callers. *)
Inductive Completion (A : Type) :=
| Settled (o : Outcome A)
| Uncaught (e : Exn).
Arguments Settled {A} o.
Arguments Uncaught {A} e.

Coercion Settled : Outcome >-> Completion.

Definition M (A : Type) : Type := State -> Completion A * State.

Definition ret {A} (a : A) : M A := fun s => (Settled (Returned a), s).

Definition throw {A} (e : Exn) : M A := fun s => (Settled (Thrown e), s).

Definition uncaught {A} (e : Exn) : M A := fun s => (Uncaught e, s).

Definition bind {A B} (m : M A) (k : A -> M B) : M B :=
  fun s =>
    match m s with
    | (Settled (Returned a), s') => k a s'
    | (Settled (Thrown e), s') => (Settled (Thrown e), s')
    | (Uncaught e, s') => (Uncaught e, s')
    end.

Definition lift {A} (o : Outcome A) : M A := fun s => (Settled o, s).

(** [try { m } catch (e) { h e }]: the handler starts from the state the
    throw left. *)
Definition catch {A} (m : M A) (h : Exn -> M A) : M A :=
  fun s =>
    match m s with
    | (Settled (Returned a), s') => (Settled (Returned a), s')
    | (Settled (Thrown e), s') => h e s'
    | (Uncaught e, s') => (Uncaught e, s')
    end.

(** [try { m } finally { c }]: [c] runs on both exits of [m]; its own
    exception, if any, replaces the outcome of [m]. *)
Definition finally {A} (m : M A) (c : M unit) : M A :=
  fun s =>
    match m s with
    | (Settled r, s') =>
        match c s' with
        | (Settled (Returned _), s'') => (Settled r, s'')
        | (Settled (Thrown e), s'') => (Settled (Thrown e), s'')
        | (Uncaught e, s'') => (Uncaught e, s'')
        end
    | (Uncaught e, s') => (Uncaught e, s')
    end.

Definition get : M State := fun s => (Settled (Returned s), s).

Definition modify (f : State -> State) : M unit :=
  fun s => (Settled (Returned tt), f s).

(** History annotation. *)
Definition emit (e : Event) : M unit :=
  modify (fun s => {| db := db s; fs := fs s; journal := (journal s ++ [e])%list |}).

End Run.
Export Run.

Declare Scope run_scope.
Delimit Scope run_scope with run.
Notation "x <- m ;; k" := (bind m (fun x => k))
  (at level 61, m at next level, right associativity) : run_scope.
Notation "m ;;; k" := (bind m (fun _ => k))
  (at level 61, right associativity) : run_scope.

(* ====================================================================== *)
(** ** The environment of one invocation                                  *)
(* ====================================================================== *)

Module Env.

(** [getLatestCommit]'s answer. *)
Record Commit := { sha : string; message : string }.

(** How a spawned process ends: the [close] event with its exit code, or
    the [error] event; [output] is what stdout and stderr delivered. *)
Inductive ProcResult :=
| Exited (code : Z) (output : string)
| SpawnFailed (output : string) (message : string).

(** [interface DeploymentConfig] and [DeployResult] of lib/pulumi. *)
Record DeploymentConfig := {
  cfg_projectSlug : string;
  cfg_imageTag : string;
  cfg_port : nat;
  cfg_replicas : nat;
  cfg_cpuRequest : string;
  cfg_cpuLimit : string;
  cfg_memoryRequest : string;
  cfg_memoryLimit : string;
  cfg_nodeAffinity : option string;
  cfg_envVars : list (string * string);
  cfg_subdomain : string;
  cfg_customDomain : option string;
  cfg_platformDomain : option string;
  cfg_ingressClass : string
}.

Record DeployResult := { deploy_success : bool; deploy_error : option string }.

Record World := {
  now : Z;                                             (* new Date(), defaultNow() *)
  randomUUID : string;                                 (* crypto.randomUUID() *)
  process_env : string -> option string;               (* process.env *)
  JSON_parse : string -> Outcome Json;                 (* JSON.parse *)
  (* lib/auth and lib/github/client *)
  getGitHubAccessToken : string -> Outcome (option string);
  getLatestCommit : string -> string -> option string -> string -> Outcome Commit;
  downloadRepository : string -> string -> option string -> string -> Outcome nat;
  hasDockerfile : string -> string -> option string -> string -> Outcome bool;
  (* fs/promises and child_process: the verdicts *)
  mkdir : string -> Outcome unit;
  writeFile : string -> Outcome unit;
  rm : string -> Outcome unit;
  spawn : string -> list string -> string -> ProcResult;
  (* lib/db: how the driver writes a number, a boolean, an array or an
     object that is bound to a text parameter *)
  text_of_value : Json -> string;
  (* lib/crypto, lib/pulumi/automation, lib/cloudflare/dns *)
  decryptJson : list (string * string) -> Outcome (list (string * string));
  deployProject : DeploymentConfig -> DeployResult;
  setupProjectDns : string -> string -> string -> string -> Outcome unit
}.

End Env.
Export Env.

(** Small JavaScript idioms on optional strings. *)
Definition nl : string := String (ascii_of_nat 10) EmptyString.

(** ToBoolean of [string | null | undefined]. *)
Definition present (o : option string) : bool :=
  match o with
  | Some s => negb (String.eqb s "")
  | None => false
  end.

(** [o || undefined]. *)
Definition or_undefined (o : option string) : option string :=
  if present o then o else None.

(** [o || fallback]. *)
Definition or_else (o : option string) (fallback : string) : string :=
  match o with
  | Some s => if String.eqb s "" then fallback else s
  | None => fallback
  end.

(** A [string | undefined] inside a template literal. *)
Definition render (o : option string) : string :=
  match o with
  | Some s => s
  | None => "undefined"
  end.

(* ====================================================================== *)
(** ** Queries                                                            *)
(* ====================================================================== *)

Module Query.

Local Open Scope run_scope.

Definition find_deployment (i : string) (d : Database) : option Deployment.row :=
  find (fun r => String.eqb (Deployment.id r) i) (deployments d).

Definition find_project (i : string) (d : Database) : option Project.row :=
  find (fun r => String.eqb (Project.id r) i) (projects d).

Definition find_user (i : string) (d : Database) : option User.row :=
  find (fun r => String.eqb (User.id r) i) (users d).

(** [update(deployments).set(..).where(eq(deployments.id, i))]. *)
Definition patch_rows (i : string) (f : Deployment.row -> Deployment.row)
    (rows : list Deployment.row) : list Deployment.row :=
  map (fun r => if String.eqb (Deployment.id r) i then f r else r) rows.

Definition update_deployment (i : string) (f : Deployment.row -> Deployment.row)
    : M unit :=
  modify (fun s =>
    {| db := {| users := users (db s); projects := projects (db s);
                deployments := patch_rows i f (deployments (db s)) |};
       fs := fs s; journal := journal s |}).

(** [insert(deployments).values(r).returning()]: the primary key and the
    foreign key of the schema are checked by the database. *)
Definition insert_deployment (r : Deployment.row) : M Deployment.row :=
  s <- get ;;
  match find_deployment (Deployment.id r) (db s) with
  | Some _ => throw (DbError "duplicate key value violates unique constraint")
  | None =>
      match find_project (Deployment.projectId r) (db s) with
      | None => throw (DbError "insert violates foreign key constraint")
      | Some _ =>
          modify (fun s =>
            {| db := {| users := users (db s); projects := projects (db s);
                        deployments := (deployments (db s) ++ [r])%list |};
               fs := fs s; journal := journal s |}) ;;;
          ret r
      end
  end.

(** A new row as the schema's defaults fill it. *)
Definition new_deployment (w : World) (project commit : string)
    (msg : option string) (tag : option string) : Deployment.row :=
  {| Deployment.id := randomUUID w;
     Deployment.projectId := project;
     Deployment.commitSha := commit;
     Deployment.commitMsg := msg;
     Deployment.status := pending;
     Deployment.logs := None;
     Deployment.buildLogs := None;
     Deployment.imageTag := tag;
     Deployment.error := None;
     Deployment.createdAt := now w;
     Deployment.finishedAt := None |}.

(** A JavaScript value bound to a text parameter; [None] is NULL.  The
    sources type these values as strings, and nothing checks it at run
    time: [undefined] and [null] are sent as NULL, a string as it is, and
    any other value as the text the driver writes for it. *)
Definition sql_text (w : World) (v : JsVal) : option string :=
  match v with
  | Undefined | J JNull => None
  | J (JString s) => Some s
  | J j => Some (text_of_value w j)
  end.

End Query.
Export Query.

(* ====================================================================== *)
(** ** lib/builder: the image builder                                     *)
(* ====================================================================== *)

Module Builder.

Local Open Scope run_scope.
Local Open Scope string_scope.

Record BuildResult := {
  success : bool;
  imageTag : string;
  logs : string;
  error : option string
}.

Record BuildOptions := {
  accessToken : string;
  owner : string;
  repo : option string;
  branch : string;
  commitSha : string;
  projectSlug : string;
  registryUrl : option string;
  registryUsername : option string;
  registryPassword : option string;
  buildCommand : option string
}.

(** The file system: a path is under [dir] when it is [dir] or below it. *)
Definition under (dir p : string) : bool :=
  String.eqb p dir || String.prefix (dir ++ "/") p.

Definition exists_path (p : string) (paths : list string) : bool :=
  existsb (String.eqb p) paths.

Definition add_path (p : string) (paths : list string) : list string :=
  if exists_path p paths then paths else p :: paths.

Definition remove_tree (dir : string) (paths : list string) : list string :=
  filter (fun p => negb (under dir p)) paths.

Definition set_fs (f : list string -> list string) : M unit :=
  modify (fun s => {| db := db s; fs := f (fs s); journal := journal s |}).

(** [mkdir(dir, { recursive: true })]. *)
Definition do_mkdir (w : World) (dir : string) : M unit :=
  _ <- lift (mkdir w dir) ;; set_fs (add_path dir).

Definition do_writeFile (w : World) (p : string) : M unit :=
  _ <- lift (writeFile w p) ;; set_fs (add_path p).

(** [rm(dir, { recursive: true, force: true })]: when it succeeds the tree
    is gone; when it throws, nothing is known to have been removed. *)
Definition do_rm (w : World) (dir : string) : M unit :=
  _ <- lift (rm w dir) ;; set_fs (remove_tree dir).

(** [extractTarball]: the promise resolves when tar closes with exit code
    0 and rejects when it closes with any other, with what tar wrote to
    stderr (the [output] of the process here).  The source listens to no
    [error] event of tar ([runCommand] below does): when tar cannot be
    started, the event is thrown past the promise, which never settles. *)
Definition extractTarball (w : World) (destDir : string) : M string :=
  let tarPath := destDir ++ "/repo.tar.gz" in
  do_writeFile w tarPath ;;;
  match spawn w "tar" ["-xzf"; tarPath; "-C"; destDir; "--strip-components=1"] destDir with
  | Exited 0 _ => ret destDir
  | Exited _ err => throw (Error ("Failed to extract tarball: " ++ err))
  | SpawnFailed _ message => uncaught (Error message)
  end.

(** [runCommand]: never rejects; the environment variables it passes on
    are part of what the [spawn] of the environment answers. *)
Definition runCommand (w : World) (command : string) (args : list string)
    (cwd : string) : bool * string :=
  match spawn w command args cwd with
  | Exited code out => (Z.eqb code 0, out)
  | SpawnFailed out msg => (false, out ++ nl ++ "Error: " ++ msg)
  end.

Definition buildWithDockerfile (w : World) (sourceDir imageTag : string)
    (registryUrl registryUsername registryPassword : option string)
    : bool * string :=
  let logs := "" in
  let login :=
    if present registryUsername && present registryPassword
    then
      let loginResult :=
        runCommand w "docker"
          ["login"; render registryUrl; "-u"; render registryUsername; "--password-stdin"]
          sourceDir in
      (fst loginResult, logs ++ "=== Docker Login ===" ++ nl ++ snd loginResult ++ nl)
    else (true, logs ++ "=== Skipping Docker Login (no credentials) ===" ++ nl) in
  if negb (fst login) then (false, snd login)
  else
    let logs := snd login in
    let buildResult := runCommand w "docker" ["build"; "-t"; imageTag; "."] sourceDir in
    let logs := logs ++ nl ++ "=== Docker Build ===" ++ nl ++ snd buildResult ++ nl in
    if negb (fst buildResult) then (false, logs)
    else
      let pushResult := runCommand w "docker" ["push"; imageTag] sourceDir in
      let logs := logs ++ nl ++ "=== Docker Push ===" ++ nl ++ snd pushResult ++ nl in
      (fst pushResult, logs).

(** The function returns [packResult] itself: the header it adds to its
    local [logs] is not in what it returns. *)
Definition buildWithBuildpacks (w : World) (sourceDir imageTag : string)
    (registryUrl registryUsername registryPassword : option string)
    : bool * string :=
  runCommand w "pack"
    ["build"; imageTag; "--builder"; "paketobuildpacks/builder-jammy-full:latest";
     "--publish"]
    sourceDir.

(** One statement of a [try] block: run [m]; an exception goes to the
    [catch] clause [h], a value to the rest of the block. *)
Definition attempt {A B} (m : M A) (h : Exn -> M B) (k : A -> M B) : M B :=
  fun s =>
    match m s with
    | (Settled (Returned a), s') => k a s'
    | (Settled (Thrown e), s') => h e s'
    | (Uncaught e, s') => (Uncaught e, s')
    end.

Definition workDir_of (w : World) : string :=
  "/tmp/autotunchi-builds/" ++ randomUUID w.

Definition imageTag_of (options : BuildOptions) : string :=
  render (registryUrl options) ++ "/" ++ projectSlug options ++ ":"
    ++ substring0 7 (commitSha options).

Definition buildProject (w : World) (options : BuildOptions) : M BuildResult :=
  let workDir := workDir_of w in
  let imageTag := imageTag_of options in
  let logs := "" in
  let on_error (logs : string) (e : Exn) : M BuildResult :=
    let errorMessage := message_of e in
    let logs := logs ++ nl ++ "=== Error ===" ++ nl ++ errorMessage ++ nl in
    ret {| success := false; imageTag := imageTag; logs := logs;
           error := Some errorMessage |} in
  finally
    (attempt (do_mkdir w workDir) (on_error logs) (fun _ =>
     let logs := logs ++ "=== Downloading source ===" ++ nl in
     attempt (lift (downloadRepository w (accessToken options) (owner options)
                      (repo options) (commitSha options)))
             (on_error logs) (fun byteLength =>
     let logs := logs ++ "Downloaded " ++ string_of_nat byteLength ++ " bytes" ++ nl in
     attempt (extractTarball w workDir) (on_error logs) (fun _ =>
     let logs := logs ++ "Extracted to " ++ workDir ++ nl in
     attempt (lift (hasDockerfile w (accessToken options) (owner options)
                      (repo options) (branch options)))
             (on_error logs) (fun useDockerfile =>
     let logs := logs ++ nl ++ "=== Build Strategy: "
                   ++ (if useDockerfile then "Dockerfile" else "Buildpacks")
                   ++ " ===" ++ nl in
     let buildResult :=
       if useDockerfile
       then buildWithDockerfile w workDir imageTag (registryUrl options)
              (registryUsername options) (registryPassword options)
       else buildWithBuildpacks w workDir imageTag (registryUrl options)
              (registryUsername options) (registryPassword options) in
     let logs := logs ++ snd buildResult in
     ret {| success := fst buildResult; imageTag := imageTag; logs := logs;
            error := if fst buildResult then None else Some "Build failed" |})))))
    (catch (do_rm w workDir) (fun _ => ret tt)).

End Builder.

(* ====================================================================== *)
(** ** lib/deploy/worker: the orchestrator                                *)
(* ====================================================================== *)

Module Worker.

Local Open Scope run_scope.
Local Open Scope string_scope.

(** [findUnique({ where: { id }, include: { project: { include: { user } } } })].
    The relations are required by the schema; a missing parent shows as
    [None] in its place. *)
Definition find_with_project_user (i : string) (d : Database)
    : option (Deployment.row * option (Project.row * option User.row)) :=
  match find_deployment i d with
  | None => None
  | Some dep =>
      Some (dep,
            match find_project (Deployment.projectId dep) d with
            | None => None
            | Some p => Some (p, find_user (Project.userId p) d)
            end)
  end.

Definition build_options (project : Project.row) (deployment : Deployment.row)
    (w : World) (token : string) : Builder.BuildOptions :=
  let parts := split "/" (Project.repoFullName project) in
  {| Builder.accessToken := token;
     Builder.owner := nth 0 parts "";
     Builder.repo := nth_error parts 1;
     Builder.branch := Project.branch project;
     Builder.commitSha := Deployment.commitSha deployment;
     Builder.projectSlug := Project.slug project;
     Builder.registryUrl := process_env w "REGISTRY_URL";
     Builder.registryUsername := process_env w "REGISTRY_USERNAME";
     Builder.registryPassword := process_env w "REGISTRY_PASSWORD";
     Builder.buildCommand := or_undefined (Project.buildCommand project) |}.

Definition deployment_config (project : Project.row) (w : World)
    (tag : string) (vars : list (string * string)) : DeploymentConfig :=
  {| cfg_projectSlug := Project.slug project;
     cfg_imageTag := tag;
     cfg_port := Project.port project;
     cfg_replicas := Project.replicas project;
     cfg_cpuRequest := Project.cpuRequest project;
     cfg_cpuLimit := Project.cpuLimit project;
     cfg_memoryRequest := Project.memoryRequest project;
     cfg_memoryLimit := Project.memoryLimit project;
     cfg_nodeAffinity := or_undefined (Project.nodeAffinity project);
     cfg_envVars := vars;
     cfg_subdomain := Project.subdomain project;
     cfg_customDomain := or_undefined (Project.customDomain project);
     cfg_platformDomain := process_env w "PLATFORM_DOMAIN";
     cfg_ingressClass := or_else (process_env w "INGRESS_CLASS") "nginx" |}.

(** The block guarded by [project.user.cloudflareToken &&
    project.user.cloudflareZone], with its own [try]/[catch]. *)
Definition publish_dns (w : World) (deploymentId : string)
    (project : Project.row) (user : User.row) : M unit :=
  if present (User.cloudflareToken user) && present (User.cloudflareZone user)
  then
    catch
      (let ingressIp := or_else (process_env w "INGRESS_IP") "127.0.0.1" in
       let fullDomain :=
         Project.subdomain project ++ "." ++ render (process_env w "PLATFORM_DOMAIN") in
       _ <- lift (setupProjectDns w (render (User.cloudflareToken user))
                    (render (User.cloudflareZone user)) fullDomain ingressIp) ;;
       if present (Project.customDomain project)
       then lift (setupProjectDns w (render (User.cloudflareToken user))
                    (render (User.cloudflareZone user))
                    (render (Project.customDomain project)) ingressIp)
       else ret tt)
      (fun _ => emit (EvDnsFailed deploymentId))
  else ret tt.

Definition processDeployment (w : World) (deploymentId : string) : M unit :=
  s <- get ;;
  match find_with_project_user deploymentId (db s) with
  | None => ret tt
  | Some (_, None) =>
      throw (TypeError "Cannot read properties of null (reading 'repoFullName')")
  | Some (deployment, Some (project, user)) =>
      catch
        (update_deployment deploymentId (Deployment.set_status building) ;;;
         accessToken <- lift (getGitHubAccessToken w (Project.userId project)) ;;
         if negb (present accessToken)
         then throw (Error "GitHub access token not found")
         else
           buildResult <-
             Builder.buildProject w
               (build_options project deployment w (render accessToken)) ;;
           emit (EvBuild deploymentId (Builder.success buildResult)) ;;;
           update_deployment deploymentId
             (Deployment.set_buildLogs (Builder.logs buildResult)) ;;;
           if negb (Builder.success buildResult)
           then throw (Error (or_else (Builder.error buildResult) "Build failed"))
           else
             update_deployment deploymentId
               (fun d => Deployment.set_imageTag (Builder.imageTag buildResult)
                           (Deployment.set_status deploying d)) ;;;
             envVars <- lift (decryptJson w (Project.envVars project)) ;;
             let deployResult :=
               deployProject w
                 (deployment_config project w (Builder.imageTag buildResult) envVars) in
             emit (EvProvision deploymentId (deploy_success deployResult)) ;;;
             if negb (deploy_success deployResult)
             then throw (Error (or_else (deploy_error deployResult) "Deployment failed"))
             else
               match user with
               | None =>
                   throw (TypeError
                     "Cannot read properties of null (reading 'cloudflareToken')")
               | Some u =>
                   publish_dns w deploymentId project u ;;;
                   update_deployment deploymentId
                     (fun d => Deployment.set_finishedAt (now w)
                                 (Deployment.set_status live d))
               end)
        (fun e =>
           let errorMessage := message_of e in
           update_deployment deploymentId
             (fun d => Deployment.set_finishedAt (now w)
                         (Deployment.set_error errorMessage
                            (Deployment.set_status failed d))))
  end.

End Worker.

(* ====================================================================== *)
(** ** server/routers: deployments and projects                           *)
(* ====================================================================== *)

Module Routers.

Local Open Scope run_scope.
Local Open Scope string_scope.

(** [findUnique({ where: { id }, include: { project } })]. *)
Definition find_with_project (i : string) (d : Database)
    : option (Deployment.row * option Project.row) :=
  match find_deployment i d with
  | None => None
  | Some dep => Some (dep, find_project (Deployment.projectId dep) d)
  end.

(** The guard [!deployment || deployment.project.userId !== ctx.user.id]. *)
Definition owned (ctx_user_id : string) (found : option (Deployment.row * option Project.row))
    : M (Deployment.row * Project.row) :=
  match found with
  | None => throw (TRPCError NOT_FOUND None)
  | Some (_, None) => throw (TypeError "Cannot read properties of null (reading 'userId')")
  | Some (deployment, Some project) =>
      if negb (String.eqb (Project.userId project) ctx_user_id)
      then throw (TRPCError NOT_FOUND None)
      else ret (deployment, project)
  end.

Definition cancel (w : World) (ctx_user_id : string) (input_id : string)
    : M (option Deployment.row) :=
  s <- get ;;
  found <- owned ctx_user_id (find_with_project input_id (db s)) ;;
  let deployment := fst found in
  if negb (status_eqb (Deployment.status deployment) pending)
     && negb (status_eqb (Deployment.status deployment) building)
  then throw (TRPCError BAD_REQUEST (Some "Cannot cancel deployment in current state"))
  else
    update_deployment input_id
      (fun d => Deployment.set_finishedAt (now w)
                  (Deployment.set_error "Cancelled by user"
                     (Deployment.set_status failed d))) ;;;
    s' <- get ;;
    ret (find_deployment input_id (db s')).

Definition rollback (w : World) (ctx_user_id : string) (input_deploymentId : string)
    : M Deployment.row :=
  s <- get ;;
  found <- owned ctx_user_id (find_with_project input_deploymentId (db s)) ;;
  let deployment := fst found in
  if negb (status_eqb (Deployment.status deployment) live)
     || negb (present (Deployment.imageTag deployment))
  then throw (TRPCError BAD_REQUEST
                (Some "Can only rollback to successful deployments with an image"))
  else
    newDeployment <-
      insert_deployment
        (new_deployment w (Deployment.projectId deployment)
           (Deployment.commitSha deployment)
           (Some ("Rollback to " ++ substring0 7 (Deployment.commitSha deployment)))
           (Deployment.imageTag deployment)) ;;
    emit (EvInserted (Deployment.id newDeployment)
            (ByRollback (Deployment.id deployment))) ;;;
    ret newDeployment.

(** [projectsRouter.triggerDeploy]. *)
Definition triggerDeploy (w : World) (ctx_user_id : string) (input_projectId : string)
    : M Deployment.row :=
  s <- get ;;
  match find (fun p => String.eqb (Project.id p) input_projectId
                       && String.eqb (Project.userId p) ctx_user_id)
             (projects (db s)) with
  | None => throw (TRPCError NOT_FOUND None)
  | Some project =>
      token <- lift (getGitHubAccessToken w ctx_user_id) ;;
      if negb (present token)
      then throw (TRPCError UNAUTHORIZED (Some "GitHub account not connected"))
      else
        let parts := split "/" (Project.repoFullName project) in
        commit <- lift (getLatestCommit w (render token) (nth 0 parts "")
                          (nth_error parts 1) (Project.branch project)) ;;
        deployment <-
          insert_deployment
            (new_deployment w (Project.id project) (sha commit)
               (Some (substring0 500 (message commit))) None) ;;
        emit (EvInserted (Deployment.id deployment) ByTrigger) ;;;
        ret deployment
  end.

End Routers.

(* ====================================================================== *)
(** ** app/api/webhooks/github/route: the webhook endpoint                *)
(* ====================================================================== *)

Module Route.

Local Open Scope run_scope.
Local Open Scope string_scope.

Record Request := {
  body : string;                              (* await req.text() *)
  x_github_event : option string;
  x_hub_signature_256 : option string
}.

Inductive ResponseBody :=
| Message (message : string)
| ErrorBody (error : string)
| Triggered (message : string) (deploymentId : string).

Record Response := { status_code : nat; json : ResponseBody }.

Definition respond (b : ResponseBody) (code : nat) : M Response :=
  ret {| status_code := code; json := b |}.

(** [findFirst] on projects by repository and branch: the first row that
    has both.  A comparison with NULL holds of no row. *)
Definition find_project_for (w : World) (full_name : JsVal) (branch : string)
    : M (option Project.row) :=
  s <- get ;;
  ret (match sql_text w full_name with
       | Some repoFullName =>
           find (fun p => String.eqb (Project.repoFullName p) repoFullName
                          && String.eqb (Project.branch p) branch)
                (projects (db s))
       | None => None
       end).

(** [parsedEvent.head_commit?.message?.substring(0, 500) || null]. *)
Definition commit_message (e : PushEvent) : Outcome (option string) :=
  match head_commit e with
  | None => Returned None
  | Some hc =>
      match hc_message hc with
      | Undefined | J JNull => Returned None
      | J (JString m) =>
          let t := substring0 500 m in
          Returned (if String.eqb t "" then None else Some t)
      | J _ => Thrown (TypeError "parsedEvent.head_commit?.message?.substring is not a function")
      end
  end.

(** [parsedEvent.after.substring(0, 7)] in the message that is logged
    after the insertion: only a string has the method. *)
Definition short_sha (v : JsVal) : Outcome string :=
  match v with
  | J (JString s) => Returned (substring0 7 s)
  | Undefined =>
      Thrown (TypeError "Cannot read properties of undefined (reading 'substring')")
  | J JNull =>
      Thrown (TypeError "Cannot read properties of null (reading 'substring')")
  | J _ => Thrown (TypeError "parsedEvent.after.substring is not a function")
  end.

Definition POST (w : World) (req : Request) : M Response :=
  catch
    (let payload := body req in
     let event := x_github_event req in
     if negb (match event with Some e => String.eqb e "push" | None => false end)
     then respond (Message "Event ignored") 200
     else
       decoded <- lift (JSON_parse w payload) ;;
       parsed <- lift (parsePushEvent (J decoded)) ;;
       match parsed with
       | None => respond (ErrorBody "Invalid payload") 400
       | Some parsedEvent =>
           emit EvParsed ;;;
           extracted <- lift (extractBranchFromRef (ref parsedEvent)) ;;
           match extracted with
           | None => respond (Message "Not a branch push") 200
           | Some branch =>
               found <- find_project_for w (repository_full_name parsedEvent) branch ;;
               match found with
               | None => respond (Message "No matching project found") 200
               | Some project =>
                   let signature := x_hub_signature_256 req in
                   ok <- lift (verifyWebhookSignature payload signature
                                 (Project.webhookSecret project)) ;;
                   emit (EvSignature ok) ;;;
                   if negb ok
                   then respond (ErrorBody "Invalid signature") 401
                   else
                     commitMsg <- lift (commit_message parsedEvent) ;;
                     match sql_text w (after parsedEvent) with
                     | None =>
                         throw (DbError "null value in column commit_sha violates not-null constraint")
                     | Some commitSha =>
                         deployment <-
                           insert_deployment
                             (new_deployment w (Project.id project) commitSha
                                commitMsg None) ;;
                         emit (EvInserted (Deployment.id deployment) ByPush) ;;;
                         _ <- lift (short_sha (after parsedEvent)) ;;
                         respond (Triggered "Deployment triggered"
                                    (Deployment.id deployment)) 200
                     end
               end
           end
       end)
    (fun _ => respond (ErrorBody "Internal server error") 500).

End Route.

(* ====================================================================== *)
(** ** The system as a whole                                              *)
(* ====================================================================== *)

(** The operations that change a system, each with the environment that
    answers during it. *)
Inductive Operation :=
| OpWebhook (w : World) (req : Route.Request)
| OpTrigger (w : World) (user project : string)
| OpCancel (w : World) (user deployment : string)
| OpRollback (w : World) (user deployment : string)
| OpProcess (w : World) (deployment : string).

Definition run_operation (o : Operation) (s : State) : State :=
  match o with
  | OpWebhook w req => snd (Route.POST w req s)
  | OpTrigger w u p => snd (Routers.triggerDeploy w u p s)
  | OpCancel w u d => snd (Routers.cancel w u d s)
  | OpRollback w u d => snd (Routers.rollback w u d s)
  | OpProcess w d => snd (Worker.processDeployment w d s)
  end.

Definition run_operations (ops : list Operation) (s : State) : State :=
  fold_left (fun st o => run_operation o st) ops s.

(** A system is born with users and projects, no Deployment, no history. *)
Definition initial (us : list User.row) (ps : list Project.row) : State :=
  {| db := {| users := us; projects := ps; deployments := [] |};
     fs := []; journal := [] |}.

Inductive reachable : State -> Prop :=
| reachable_initial us ps : reachable (initial us ps)
| reachable_step o s : reachable s -> reachable (run_operation o s).

(** What the history says about one Deployment. *)
Definition build_succeeded (i : string) (h : list Event) : Prop :=
  In (EvBuild i true) h.

Definition rolled_back (i : string) (h : list Event) : Prop :=
  exists source, In (EvInserted i (ByRollback source)) h.

(** [build_succeeded], decided. *)
Definition has_build_success (i : string) (h : list Event) : bool :=
  existsb (fun e => match e with
                    | EvBuild j true => String.eqb j i
                    | _ => false
                    end) h.

(* ====================================================================== *)
(** ** Notions the statements use                                         *)
(* ====================================================================== *)

(** How the tar child of the build that [w] answers ends. *)
Definition tar_of_build (w : World) : ProcResult :=
  let workDir := Builder.workDir_of w in
  spawn w "tar"
    ["-xzf"; workDir ++ "/repo.tar.gz"; "-C"; workDir; "--strip-components=1"]
    workDir.

(** The child process could be started: it ends with an exit code. *)
Definition started (r : ProcResult) : Prop :=
  exists code output, r = Exited code output.

(** The number a string of decimal digits denotes. *)
Definition decimal_value (s : string) : Z :=
  fold_left (fun acc c => (10 * acc + digit_value c)%Z) (list_ascii_of_string s) 0%Z.

(** Whether a number is the integer [z]. *)
Definition is_integer (x : JsNumber) (z : Z) : bool :=
  match x with
  | Num (a # b) => Z.eqb a z && Pos.eqb b 1
  | NaN => false
  end.

(** A patch of a row that leaves its primary key alone. *)
Definition keeps_id (f : Deployment.row -> Deployment.row) : Prop :=
  forall r, Deployment.id (f r) = Deployment.id r.

(** A patch of a row that leaves alone what is written once: the key, the
    project, the commit, its message and the time of creation. *)
Definition keeps_identity (f : Deployment.row -> Deployment.row) : Prop :=
  forall r,
    Deployment.id (f r) = Deployment.id r
    /\ Deployment.projectId (f r) = Deployment.projectId r
    /\ Deployment.commitSha (f r) = Deployment.commitSha r
    /\ Deployment.commitMsg (f r) = Deployment.commitMsg r
    /\ Deployment.createdAt (f r) = Deployment.createdAt r.

(** The keys of the Deployment table are distinct and every row belongs
    to a project of the table. *)
Definition tables_consistent (s : State) : Prop :=
  NoDup (map Deployment.id (deployments (db s)))
  /\ forall row, In row (deployments (db s)) ->
       exists p, In p (projects (db s)) /\ Project.id p = Deployment.projectId row.

(** What a cancellation writes. *)
Definition cancelled (w : World) (d : Deployment.row) : Deployment.row :=
  Deployment.set_finishedAt (now w)
    (Deployment.set_error "Cancelled by user" (Deployment.set_status failed d)).

(** What a pipeline run that goes through writes, given the build's
    result. *)
Definition gone_live (w : World) (r : Builder.BuildResult) (d : Deployment.row)
    : Deployment.row :=
  Deployment.set_finishedAt (now w)
    (Deployment.set_status live
       (Deployment.set_imageTag (Builder.imageTag r)
          (Deployment.set_status deploying
             (Deployment.set_buildLogs (Builder.logs r)
                (Deployment.set_status building d))))).

(** The events a pipeline run for the Deployment [i] can add to the
    history. *)
Definition pipeline_event (i : string) (e : Event) : Prop :=
  (exists b, e = EvBuild i b) \/ (exists b, e = EvProvision i b) \/ e = EvDnsFailed i.

(** The invariant on [imageTag] as the specification words it, and the one
    the code keeps. *)
Definition imageTag_iff_build (s : State) : Prop :=
  forall row, In row (deployments (db s)) ->
    (Deployment.imageTag row <> None
     <-> build_succeeded (Deployment.id row) (journal s)).

Definition image_known (i : string) (h : list Event) : Prop :=
  build_succeeded i h \/ rolled_back i h.

Definition imageTag_iff_build_or_rollback (s : State) : Prop :=
  forall row, In row (deployments (db s)) ->
    (Deployment.imageTag row <> None
     <-> image_known (Deployment.id row) (journal s)).

(** Every Deployment the history speaks of has a row. *)
Definition history_has_rows (s : State) : Prop :=
  forall i, image_known i (journal s) ->
    exists row, In row (deployments (db s)) /\ Deployment.id row = i.

(** No stored commit message is longer than 500 characters (UTF-16 code
    units, as [length] counts them). *)
Definition messages_bounded (s : State) : Prop :=
  forall row m, In row (deployments (db s)) ->
    Deployment.commitMsg row = Some m -> utf16_length m <= 500.

(** A project that deploys the branch [branch] of the repository [name]. *)
Definition pushed_to (name branch : string) (p : Project.row) : bool :=
  String.eqb (Project.repoFullName p) name && String.eqb (Project.branch p) branch.

(** What a webhook request is about: the event its body parses to, the
    branch pushed to, and the project matched, which is the first row of
    the table that deploys this branch of the pushed repository. *)
Definition push_for (w : World) (req : Route.Request) (s : State)
    (event : PushEvent) (branch : string) (project : Project.row) : Prop :=
  Route.x_github_event req = Some "push"
  /\ (exists decoded,
        JSON_parse w (Route.body req) = Returned decoded
        /\ parsePushEvent (J decoded) = Returned (Some event))
  /\ extractBranchFromRef (ref event) = Returned (Some branch)
  /\ exists name,
       sql_text w (repository_full_name event) = Some name
       /\ find (pushed_to name branch) (projects (db s)) = Some project.

(** The response of the webhook endpoint to a signature that does not
    verify. *)
Definition unauthorized : Route.Response :=
  {| Route.status_code := 401; Route.json := Route.ErrorBody "Invalid signature" |}.

(** The events of the webhook endpoint that are about no Deployment. *)
Definition boundary_event (e : Event) : Prop :=
  e = EvParsed \/ exists ok, e = EvSignature ok.

(** The histories one webhook request can add: each step is there only
    after the steps before it. *)
Definition webhook_history (evs : list Event) : Prop :=
  evs = [] \/ evs = [EvParsed]
  \/ evs = [EvParsed; EvSignature false]
  \/ evs = [EvParsed; EvSignature true]
  \/ exists i, evs = [EvParsed; EvSignature true; EvInserted i ByPush].

(** [s'] is [s] with one more Deployment row and a longer history. *)
Definition grown (s s' : State) (row : Deployment.row) (evs : list Event) : Prop :=
  find_deployment (Deployment.id row) (db s) = None
  /\ s' = {| db := {| users := users (db s); projects := projects (db s);
                      deployments := (deployments (db s) ++ [row])%list |};
             fs := fs s; journal := (journal s ++ evs)%list |}.

(** [s'] is [s] with a longer history. *)
Definition told (s s' : State) (evs : list Event) : Prop :=
  s' = {| db := db s; fs := fs s; journal := (journal s ++ evs)%list |}.

(* ====================================================================== *)
(** ** Concrete systems used by the examples                              *)
(* ====================================================================== *)

Module Scenario.

Definition alice : User.row :=
  {| User.id := "u-alice";
     User.cloudflareToken := Some "cf-token";
     User.cloudflareZone := Some "zone-1" |}.

Definition app : Project.row :=
  {| Project.id := "p-app"; Project.name := "App"; Project.slug := "app";
     Project.repoFullName := "alice/app"; Project.branch := "main";
     Project.buildCommand := None; Project.port := 3000;
     Project.envVars := []; Project.nodeAffinity := None;
     Project.cpuLimit := "500m"; Project.cpuRequest := "100m";
     Project.memoryLimit := "512Mi"; Project.memoryRequest := "128Mi";
     Project.replicas := 1; Project.subdomain := "app";
     Project.customDomain := None; Project.webhookSecret := "s3cret";
     Project.userId := "u-alice" |}.

Definition variables (k : string) : option string :=
  if String.eqb k "REGISTRY_URL" then Some "registry"
  else if String.eqb k "PLATFORM_DOMAIN" then Some "example.dev"
  else None.

Definition quote (s : string) : string :=
  String (ascii_of_nat 34) s ++ String (ascii_of_nat 34) "".

(** A push to alice/app on main, as text and decoded. *)
Definition push_body : string :=
  "{" ++ quote "ref" ++ ":" ++ quote "refs/heads/main" ++ ","
      ++ quote "after" ++ ":" ++ quote "abc1234def" ++ ","
      ++ quote "repository" ++ ":{" ++ quote "full_name" ++ ":" ++ quote "alice/app" ++ "},"
      ++ quote "head_commit" ++ ":{" ++ quote "id" ++ ":" ++ quote "abc1234def" ++ ","
      ++ quote "message" ++ ":" ++ quote "Fix the build" ++ "},"
      ++ quote "pusher" ++ ":{" ++ quote "name" ++ ":" ++ quote "alice" ++ ","
      ++ quote "email" ++ ":" ++ quote "alice@example.dev" ++ "}}".

Definition push_json : Json :=
  JObject [("ref", JString "refs/heads/main");
           ("after", JString "abc1234def");
           ("repository", JObject [("full_name", JString "alice/app")]);
           ("head_commit", JObject [("id", JString "abc1234def");
                                    ("message", JString "Fix the build")]);
           ("pusher", JObject [("name", JString "alice");
                               ("email", JString "alice@example.dev")])].

(** The same push with a number where the commit is expected. *)
Definition numbered_body : string :=
  "{" ++ quote "ref" ++ ":" ++ quote "refs/heads/main" ++ ","
      ++ quote "after" ++ ":1234567,"
      ++ quote "repository" ++ ":{" ++ quote "full_name" ++ ":" ++ quote "alice/app" ++ "},"
      ++ quote "pusher" ++ ":{" ++ quote "name" ++ ":" ++ quote "alice" ++ ","
      ++ quote "email" ++ ":" ++ quote "alice@example.dev" ++ "}}".

Definition numbered_json : Json :=
  JObject [("ref", JString "refs/heads/main");
           ("after", JNumber (inject_Z 1234567));
           ("repository", JObject [("full_name", JString "alice/app")]);
           ("pusher", JObject [("name", JString "alice");
                               ("email", JString "alice@example.dev")])].

(** A push whose repository has no name. *)
Definition nameless_body : string :=
  "{" ++ quote "ref" ++ ":" ++ quote "refs/heads/main" ++ ","
      ++ quote "after" ++ ":" ++ quote "abc1234def" ++ ","
      ++ quote "repository" ++ ":{},"
      ++ quote "pusher" ++ ":{" ++ quote "name" ++ ":" ++ quote "alice" ++ ","
      ++ quote "email" ++ ":" ++ quote "alice@example.dev" ++ "}}".

Definition nameless_json : Json :=
  JObject [("ref", JString "refs/heads/main");
           ("after", JString "abc1234def");
           ("repository", JObject []);
           ("pusher", JObject [("name", JString "alice");
                               ("email", JString "alice@example.dev")])].

(** [JSON.parse] on the bodies the examples send. *)
Definition decode (text : string) : Outcome Json :=
  if String.eqb text "{}" then Returned (JObject [])
  else if String.eqb text push_body then Returned push_json
  else if String.eqb text numbered_body then Returned numbered_json
  else if String.eqb text nameless_body then Returned nameless_json
  else Thrown (SyntaxError "Unexpected token").

(** The text of a value that is no string, for the values the examples
    send. *)
Definition printed (j : Json) : string :=
  match j with
  | JNumber q => if Qeq_bool q (inject_Z 1234567) then "1234567" else "0"
  | JBool true => "true"
  | JBool false => "false"
  | _ => "{}"
  end.

(** An environment in which everything works, but for the verdicts given
    as arguments. *)
Definition world (uuid : string) (download : Outcome nat)
    (removal dns : Outcome unit) : World :=
  {| now := 1700000000;
     randomUUID := uuid;
     process_env := variables;
     JSON_parse := decode;
     getGitHubAccessToken := fun _ => Returned (Some "gho_token");
     getLatestCommit := fun _ _ _ _ =>
       Returned {| sha := "abc1234def"; message := "Fix the build" |};
     downloadRepository := fun _ _ _ _ => download;
     hasDockerfile := fun _ _ _ _ => Returned true;
     mkdir := fun _ => Returned tt;
     writeFile := fun _ => Returned tt;
     rm := fun _ => removal;
     spawn := fun _ _ _ => Exited 0 "ok";
     text_of_value := printed;
     decryptJson := fun vars => Returned vars;
     deployProject := fun _ => {| deploy_success := true; deploy_error := None |};
     setupProjectDns := fun _ _ _ _ => dns |}.

Definition fine (uuid : string) : World :=
  world uuid (Returned 2048) (Returned tt) (Returned tt).

Definition start : State := initial [alice] [app].

(** A manual deployment that goes live, then a rollback to it. *)
Definition deployed : State :=
  run_operations [OpTrigger (fine "d-1") "u-alice" "p-app";
                  OpProcess (fine "b-1") "d-1"] start.

Definition rolled : State :=
  run_operation (OpRollback (fine "d-2") "u-alice" "d-1") deployed.

(** The worker picks up the rollback record while GitHub is unreachable. *)
Definition offline : World :=
  world "b-2" (Thrown (Error "getaddrinfo ENOTFOUND api.github.com"))
        (Returned tt) (Returned tt).

(** A pending record, processed while the DNS provider refuses. *)
Definition triggered : State :=
  run_operation (OpTrigger (fine "d-1") "u-alice" "p-app") start.

Definition dns_down : World :=
  world "b-1" (Returned 2048) (Returned tt)
        (Thrown (Error "Cloudflare API error: Authentication error")).

(** The removal of the work directory fails. *)
Definition rm_denied : World :=
  world "b-9" (Returned 2048)
        (Thrown (Error "EACCES: permission denied, rmdir")) (Returned tt).

(** tar is not installed on the host: the child cannot be started. *)
Definition tar_missing : World :=
  {| now := 1700000000;
     randomUUID := "b-7";
     process_env := variables;
     JSON_parse := decode;
     getGitHubAccessToken := fun _ => Returned (Some "gho_token");
     getLatestCommit := fun _ _ _ _ =>
       Returned {| sha := "abc1234def"; message := "Fix the build" |};
     downloadRepository := fun _ _ _ _ => Returned 2048;
     hasDockerfile := fun _ _ _ _ => Returned true;
     mkdir := fun _ => Returned tt;
     writeFile := fun _ => Returned tt;
     rm := fun _ => Returned tt;
     spawn := fun command _ _ =>
       if String.eqb command "tar" then SpawnFailed "" "spawn tar ENOENT"
       else Exited 0 "ok";
     text_of_value := printed;
     decryptJson := fun vars => Returned vars;
     deployProject := fun _ => {| deploy_success := true; deploy_error := None |};
     setupProjectDns := fun _ _ _ _ => Returned tt |}.

(** The environment [w], but for what the token store answers. *)
Definition with_token (w : World) (answer : Outcome (option string)) : World :=
  {| now := now w;
     randomUUID := randomUUID w;
     process_env := process_env w;
     JSON_parse := JSON_parse w;
     getGitHubAccessToken := fun _ => answer;
     getLatestCommit := getLatestCommit w;
     downloadRepository := downloadRepository w;
     hasDockerfile := hasDockerfile w;
     mkdir := mkdir w;
     writeFile := writeFile w;
     rm := rm w;
     spawn := spawn w;
     text_of_value := text_of_value w;
     decryptJson := decryptJson w;
     deployProject := deployProject w;
     setupProjectDns := setupProjectDns w |}.

Definition options : Builder.BuildOptions :=
  Worker.build_options app
    (new_deployment (fine "d-1") "p-app" "abc1234def" None None)
    rm_denied "gho_token".

(** Two pushes nobody signed. *)
Definition unsigned_empty : Route.Request :=
  {| Route.body := "{}";
     Route.x_github_event := Some "push";
     Route.x_hub_signature_256 := None |}.

Definition unsigned_push : Route.Request :=
  {| Route.body := push_body;
     Route.x_github_event := Some "push";
     Route.x_hub_signature_256 := Some "sha256=00" |}.

Definition signed_push : Route.Request :=
  {| Route.body := push_body;
     Route.x_github_event := Some "push";
     Route.x_hub_signature_256 :=
       Some ("sha256=" ++ digest_hex (createHmac_sha256 "s3cret" push_body)) |}.

Definition signed (body : string) : Route.Request :=
  {| Route.body := body;
     Route.x_github_event := Some "push";
     Route.x_hub_signature_256 :=
       Some ("sha256=" ++ digest_hex (createHmac_sha256 "s3cret" body)) |}.

(** Text outside ASCII, in UTF-8: U+00E9, one code unit in two bytes, and
    U+1F600, two code units in four bytes. *)
Definition e_acute : string :=
  String (ascii_of_nat 195) (String (ascii_of_nat 169) "").

Definition grinning_face : string :=
  String (ascii_of_nat 240) (String (ascii_of_nat 159)
    (String (ascii_of_nat 152) (String (ascii_of_nat 128) ""))).

(** Decoded payloads for the event parser. *)
Definition payload_without_pusher : JsVal :=
  J (JObject [("ref", JString "refs/heads/main");
              ("after", JString "abc1234def");
              ("repository", JObject [("full_name", JString "alice/app")])]).

Definition payload_without_full_name : JsVal :=
  J (JObject [("ref", JString "refs/heads/main");
              ("after", JString "abc1234def");
              ("repository", JObject []);
              ("pusher", JObject [("name", JString "alice");
                                  ("email", JString "alice@example.dev")])]).

End Scenario.


(* ====================================================================== *)
(** * Properties                                                          *)
(* ====================================================================== *)

(** ** The signature verifier *)

(** The hash against its published test vectors: SHA-256 of "abc" (FIPS
    180-4) and the HMAC example of GitHub's webhook documentation. *)
Example sha256_abc :
  digest_hex (map byte_of_N (sha256 (bytes_of_string "abc")))
  = "ba7816bf8f01cfea414140de5dae2223b00361a396177a9cb410ff61f20015ad".
Proof. vm_compute. reflexivity. Qed.

Example hmac_github_documentation :
  digest_hex (createHmac_sha256 "It's a Secret to Everybody" "Hello, World!")
  = "757107ea0eb2509fc211221cce984b8a37570b6d7586c22c46f4379c8b043e17".
Proof. vm_compute. reflexivity. Qed.

Section HexRoundTrip.

Local Open Scope N_scope.

(** Both digits of a byte are hexadecimal digits that [unhex] reads back,
    and neither is the separator of the header. *)
Lemma hex_digits_of_byte (b : byte) :
  let n := Byte.to_N b in
  unhex (hex_digit (n / 16)) = Some (n / 16)
  /\ unhex (hex_digit (n mod 16)) = Some (n mod 16)
  /\ byte_of_N (16 * (n / 16) + n mod 16) = b
  /\ Ascii.eqb (hex_digit (n / 16)) "=" = false
  /\ Ascii.eqb (hex_digit (n mod 16)) "=" = false.
Proof.
  destruct b; vm_compute; repeat split; reflexivity.
Qed.

Lemma Buffer_from_hex_digest_hex (bs : list byte) :
  Buffer_from_hex (digest_hex bs) = bs.
Proof.
  induction bs as [| b bs IH]; [reflexivity |].
  destruct (hex_digits_of_byte b) as (Hhi & Hlo & Hb & _).
  cbn [digest_hex Buffer_from_hex].
  rewrite Hhi, Hlo, Hb, IH. reflexivity.
Qed.

Lemma split_digest_hex (bs : list byte) :
  split "=" (digest_hex bs) = [digest_hex bs].
Proof.
  induction bs as [| b bs IH]; [reflexivity |].
  destruct (hex_digits_of_byte b) as (_ & _ & _ & Hhi & Hlo).
  cbn [digest_hex split].
  rewrite Hhi, Hlo, IH. reflexivity.
Qed.

End HexRoundTrip.

Lemma bytes_eqb_refl (a : list byte) : bytes_eqb a a = true.
Proof.
  unfold bytes_eqb. destruct (list_eq_dec Byte.byte_eq_dec a a); congruence.
Qed.

Lemma bytes_eqb_neq (a b : list byte) : a <> b -> bytes_eqb a b = false.
Proof.
  unfold bytes_eqb. destruct (list_eq_dec Byte.byte_eq_dec a b); congruence.
Qed.

Lemma timingSafeEqual_refl (a : list byte) : timingSafeEqual a a = Returned true.
Proof.
  unfold timingSafeEqual. rewrite Nat.eqb_refl, bytes_eqb_refl. reflexivity.
Qed.

Lemma timingSafeEqual_neq (a b : list byte) :
  a <> b ->
  try_catch (timingSafeEqual a b) (fun _ => Returned false) = Returned false.
Proof.
  intros Hab. unfold timingSafeEqual.
  destruct (length a =? length b)%nat; cbn; [| reflexivity].
  now rewrite bytes_eqb_neq.
Qed.

Lemma verify_header_shape (payload sig secret : string) :
  (forall digest, split "=" sig <> ["sha256"; digest]) ->
  verifyWebhookSignature payload (Some sig) secret = Returned false.
Proof.
  intros Hshape. unfold verifyWebhookSignature.
  generalize (createHmac_sha256 secret payload) as mac. intros mac.
  destruct (String.eqb sig ""); [reflexivity |].
  destruct (split "=" sig) as [| tag [| digest [| x rest]]] eqn:Hparts; cbn;
    try reflexivity.
  destruct (String.eqb tag "sha256") eqn:Htag; [| reflexivity].
  apply String.eqb_eq in Htag. subst tag.
  exfalso. exact (Hshape digest eq_refl).
Qed.

(** At the level of the header text the comparison is looser than at the
    level of bytes: [Buffer.from(.., "hex")] reads upper-case digits and
    stops at the first character that is no hexadecimal digit, so a header
    with the right digest in another case, or followed by other text, is
    accepted as well. *)
Example verify_reads_header_as_hex :
  verifyWebhookSignature "Hello, World!"
    (Some "sha256=757107EA0EB2509FC211221CCE984B8A37570B6D7586C22C46F4379C8B043E17zz")
    "It's a Secret to Everybody"
  = Returned true.
Proof. vm_compute. reflexivity. Qed.

(** The verifier returns a boolean on every input. *)
Lemma verifyWebhookSignature_returns (payload : string) (signature : option string)
    (secret : string) :
  exists b, verifyWebhookSignature payload signature secret = Returned b.
Proof.
  destruct signature as [sig |]; [| now exists false].
  unfold verifyWebhookSignature.
  generalize (createHmac_sha256 secret payload) as mac. intros mac.
  destruct (String.eqb sig ""); [now exists false |].
  destruct (_ || _); [now exists false |].
  unfold timingSafeEqual.
  destruct (_ =? _)%nat; cbn; eauto.
Qed.

(** C1.  A header built from the HMAC of the body under the secret is
    accepted; the verifier never throws; it answers false when the header
    is missing, when the header is not exactly two parts around one [=]
    with first part sha256, and when the digest decoded from the header
    differs from the computed digest (in length or in some byte, that is,
    as a sequence of bytes). *)
Theorem verifyWebhookSignature_accepts_and_rejects :
  (forall secret payload,
      verifyWebhookSignature payload
        (Some ("sha256=" ++ digest_hex (createHmac_sha256 secret payload)))
        secret = Returned true)
  /\ (forall payload signature secret,
        exists b, verifyWebhookSignature payload signature secret = Returned b)
  /\ (forall payload secret,
        verifyWebhookSignature payload None secret = Returned false)
  /\ (forall payload sig secret,
        (forall digest, split "=" sig <> ["sha256"; digest]) ->
        verifyWebhookSignature payload (Some sig) secret = Returned false)
  /\ (forall payload sig digest secret,
        split "=" sig = ["sha256"; digest] ->
        Buffer_from_hex digest <> createHmac_sha256 secret payload ->
        verifyWebhookSignature payload (Some sig) secret = Returned false).
Proof.
  repeat split.
  - intros secret payload. unfold verifyWebhookSignature.
    generalize (createHmac_sha256 secret payload) as mac. intros mac.
    change (split "=" ("sha256=" ++ digest_hex mac))
      with ("sha256" :: split "=" (digest_hex mac)).
    rewrite split_digest_hex. cbn.
    now rewrite timingSafeEqual_refl.
  - exact verifyWebhookSignature_returns.
  - exact verify_header_shape.
  - intros payload sig digest secret Hparts Hneq.
    unfold verifyWebhookSignature.
    revert Hneq. generalize (createHmac_sha256 secret payload) as mac.
    intros mac Hneq.
    destruct (String.eqb sig ""); [reflexivity |].
    rewrite Hparts. cbn.
    rewrite Buffer_from_hex_digest_hex.
    apply timingSafeEqual_neq. intros E. apply Hneq. now symmetry.
Qed.

Lemma verifyWebhookSignature_rejects_witness :
  split "=" "sha256=deadbeef" = ["sha256"; "deadbeef"]
  /\ Buffer_from_hex "deadbeef" <> createHmac_sha256 "s3cret" "{}"
  /\ verifyWebhookSignature "{}" (Some "sha256=deadbeef") "s3cret" = Returned false.
Proof.
  assert (Hparts : split "=" "sha256=deadbeef" = ["sha256"; "deadbeef"])
    by reflexivity.
  assert (Hneq : Buffer_from_hex "deadbeef" <> createHmac_sha256 "s3cret" "{}")
    by (vm_compute; discriminate).
  split; [exact Hparts | split; [exact Hneq |]].
  exact (proj2 (proj2 (proj2 (proj2 verifyWebhookSignature_accepts_and_rejects)))
           "{}" "sha256=deadbeef" "deadbeef" "s3cret" Hparts Hneq).
Defined.

(** ** The resource-quantity parser *)

Lemma list_of_string_rev_acc (s acc : string) :
  list_ascii_of_string (string_rev_acc s acc)
  = (rev (list_ascii_of_string s) ++ list_ascii_of_string acc)%list.
Proof.
  revert acc. induction s as [| c s IH]; intros acc; [reflexivity |].
  cbn [string_rev_acc list_ascii_of_string rev].
  rewrite IH, <- app_assoc. reflexivity.
Qed.

Lemma existsb_rev {A} (p : A -> bool) (l : list A) :
  existsb p (rev l) = existsb p l.
Proof.
  induction l as [| a l IH]; [reflexivity |].
  cbn. rewrite existsb_app, IH. cbn. rewrite orb_false_r. apply orb_comm.
Qed.

Lemma existsb_string_rev (p : ascii -> bool) (s : string) :
  string_existsb p (string_rev s) = string_existsb p s.
Proof.
  unfold string_existsb, string_rev.
  rewrite list_of_string_rev_acc, app_nil_r, existsb_rev. reflexivity.
Qed.

(** A suffix that ends in a letter cannot end a string without letters. *)
Lemma endsWith_without_letters (s suffix : string) (c : ascii) (rest : string) :
  string_rev suffix = String c rest ->
  is_letter c = true ->
  string_existsb is_letter s = false ->
  endsWith s suffix = false.
Proof.
  intros Hsuf Hc Hs. unfold endsWith. rewrite Hsuf.
  rewrite <- existsb_string_rev in Hs.
  destruct (string_rev s) as [| a t]; [reflexivity |].
  cbn [String.prefix].
  destruct (ascii_dec c a) as [-> |]; [| reflexivity].
  unfold string_existsb in Hs. cbn in Hs.
  apply orb_false_iff in Hs. destruct Hs as [Ha _]. congruence.
Qed.

Lemma digit_is_plain (c : ascii) :
  is_digit c = true ->
  is_letter c = false /\ is_space c = false
  /\ Ascii.eqb c "-" = false /\ Ascii.eqb c "+" = false.
Proof.
  destruct c as [[|] [|] [|] [|] [|] [|] [|] [|]]; vm_compute;
    intros H; try discriminate H; repeat split; reflexivity.
Qed.

Lemma digits_have_no_letter (s : string) :
  string_forallb is_digit s = true -> string_existsb is_letter s = false.
Proof.
  unfold string_forallb, string_existsb.
  induction (list_ascii_of_string s) as [| c cs IH]; [reflexivity |].
  cbn. intros H. apply andb_true_iff in H. destruct H as [Hc Hcs].
  destruct (digit_is_plain c Hc) as (-> & _). now rewrite IH.
Qed.

Lemma digits_prefix_all_digits (s : string) (acc : option Z) :
  string_forallb is_digit s = true ->
  s <> "" ->
  digits_prefix s acc
  = Some (fold_left (fun a c => (10 * a + digit_value c)%Z) (list_ascii_of_string s)
            (match acc with Some a => a | None => 0%Z end)).
Proof.
  revert acc. induction s as [| c s IH]; intros acc Hall Hne; [congruence |].
  unfold string_forallb in Hall. cbn in Hall.
  apply andb_true_iff in Hall. destruct Hall as [Hc Hs].
  cbn [digits_prefix list_ascii_of_string fold_left]. rewrite Hc.
  destruct s as [| c' s']; [reflexivity |].
  rewrite IH; [reflexivity | exact Hs | discriminate].
Qed.

Lemma skip_spaces_digit (c : ascii) (s : string) :
  is_digit c = true -> skip_spaces (String c s) = String c s.
Proof.
  destruct c as [[|] [|] [|] [|] [|] [|] [|] [|]]; intros Hc;
    try discriminate Hc; destruct s as [| b [| c' s']]; reflexivity.
Qed.

Lemma parseInt_digits (s : string) :
  string_forallb is_digit s = true -> s <> "" ->
  parseInt s = Some (decimal_value s).
Proof.
  intros Hall Hne. destruct s as [| c s']; [congruence |].
  assert (Hc : is_digit c = true).
  { unfold string_forallb in Hall. cbn in Hall.
    now apply andb_true_iff in Hall. }
  destruct (digit_is_plain c Hc) as (_ & Hsp & Hminus & Hplus).
  unfold parseInt. rewrite (skip_spaces_digit c s' Hc).
  transitivity (digits_prefix (String c s') None).
  - destruct c as [[|] [|] [|] [|] [|] [|] [|] [|]];
      try reflexivity; discriminate.
  - now rewrite digits_prefix_all_digits.
Qed.

Lemma Qred_inject_Z (z : Z) : Qred (inject_Z z) = inject_Z z.
Proof.
  unfold Qred, inject_Z.
  pose proof (Z.ggcd_gcd z 1) as Hg.
  pose proof (Z.ggcd_correct_divisors z 1) as Hd.
  destruct (Z.ggcd z 1) as [g [aa bb]]. cbn [fst] in Hg.
  rewrite Z.gcd_1_r in Hg. subst g.
  destruct Hd as [Ha Hb]. rewrite Z.mul_1_l in Ha, Hb. subst. reflexivity.
Qed.

Lemma times_integer (v k : Z) :
  times (Num (inject_Z v)) k = Num (inject_Z (v * k)).
Proof.
  unfold times. f_equal.
  change (inject_Z v * inject_Z k)%Q with (inject_Z (v * k)).
  apply Qred_inject_Z.
Qed.

Lemma lt_num_integer (v k : Z) : (v < k)%Z -> lt_num (Num (inject_Z v)) k = true.
Proof.
  intros Hlt. unfold lt_num.
  destruct (Qlt_le_dec (inject_Z v) (inject_Z k)) as [| Hle]; [reflexivity |].
  rewrite <- Zle_Qle in Hle. lia.
Qed.

(** Without a letter and with an integer in front, a small value is read
    as whole cores. *)
Lemma parseResourceValue_unitless (s : string) (v : Z) :
  s <> "" ->
  string_existsb is_letter s = false ->
  parseInt s = Some v ->
  (v < 1000)%Z ->
  parseResourceValue s = Num (inject_Z (v * 1000)).
Proof.
  intros Hne Hletters Hparse Hsmall. unfold parseResourceValue.
  destruct (String.eqb_spec s "") as [| _]; [congruence |].
  rewrite (endsWith_without_letters s "m" "m" "" eq_refl eq_refl Hletters).
  rewrite (endsWith_without_letters s "n" "n" "" eq_refl eq_refl Hletters).
  rewrite (endsWith_without_letters s "Ki" "i" "K" eq_refl eq_refl Hletters).
  rewrite (endsWith_without_letters s "Mi" "i" "M" eq_refl eq_refl Hletters).
  rewrite (endsWith_without_letters s "Gi" "i" "G" eq_refl eq_refl Hletters).
  rewrite (endsWith_without_letters s "Ti" "i" "T" eq_refl eq_refl Hletters).
  rewrite Hparse, Hletters. cbn [of_parseInt isNaN negb andb].
  rewrite lt_num_integer by exact Hsmall.
  apply times_integer.
Qed.

Lemma is_integer_eq (x : JsNumber) (z : Z) :
  is_integer x z = true -> x = Num (inject_Z z).
Proof.
  destruct x as [| [a b]]; cbn [is_integer]; [discriminate |].
  intros H. apply andb_true_iff in H. destruct H as [Ha Hb].
  apply Z.eqb_eq in Ha. apply Pos.eqb_eq in Hb. subst. reflexivity.
Qed.

(** C9.  "500m" is 500 millicores, "512Mi" is 512 * 1024 * 1024 bytes, and
    a string of digits whose value is below 1000 (in particular the decimal
    rendering of any integer below 1000) is that many cores, returned as
    value * 1000 millicores; all results are exact integers. *)
Theorem parseResourceValue_quantities :
  parseResourceValue "500m" = Num (inject_Z 500)
  /\ parseResourceValue "512Mi" = Num (inject_Z (512 * 1024 * 1024))
  /\ (forall s,
        s <> "" -> string_forallb is_digit s = true -> (decimal_value s < 1000)%Z ->
        parseResourceValue s = Num (inject_Z (decimal_value s * 1000)))
  /\ (forall n, (n < 1000)%nat ->
        parseResourceValue (string_of_nat n) = Num (inject_Z (Z.of_nat n * 1000))).
Proof.
  split; [reflexivity |]. split; [reflexivity |]. split.
  - intros s Hne Hdigits Hsmall.
    apply parseResourceValue_unitless; auto using digits_have_no_letter, parseInt_digits.
  - intros n Hn. apply is_integer_eq.
    assert (Hall : forallb (fun k => is_integer (parseResourceValue (string_of_nat k))
                                       (Z.of_nat k * 1000))
                     (seq 0 1000) = true) by (vm_compute; reflexivity).
    rewrite forallb_forall in Hall. apply Hall. apply in_seq. lia.
Qed.

Lemma parseResourceValue_quantities_witness :
  "4" <> "" /\ string_forallb is_digit "4" = true /\ (decimal_value "4" < 1000)%Z
  /\ parseResourceValue "4" = Num (inject_Z 4000).
Proof.
  assert (Hne : "4" <> "") by discriminate.
  assert (Hd : string_forallb is_digit "4" = true) by reflexivity.
  assert (Hs : (decimal_value "4" < 1000)%Z) by (vm_compute; reflexivity).
  split; [exact Hne | split; [exact Hd | split; [exact Hs |]]].
  exact (proj1 (proj2 (proj2 parseResourceValue_quantities)) "4" Hne Hd Hs).
Defined.

(** ** The event parser *)

(** C8.  The parser is not total and does not test [repository.full_name]:
    a payload that has the three required fields and no [pusher] makes it
    throw, and a payload whose [repository] has no [full_name] is returned
    as an event instead of null. *)
Theorem parsePushEvent_throws_and_accepts_without_full_name :
  parsePushEvent Scenario.payload_without_pusher
    = Thrown (TypeError "Cannot read properties of undefined (reading 'name')")
  /\ parsePushEvent Scenario.payload_without_full_name
    = Returned (Some {| ref := J (JString "refs/heads/main");
                        after := J (JString "abc1234def");
                        repository_full_name := Undefined;
                        head_commit := None;
                        pusher := {| pusher_name := J (JString "alice");
                                     pusher_email := J (JString "alice@example.dev") |} |}).
Proof.
  split; reflexivity.
Qed.

(** What the parser does guarantee: null for anything that is not an
    object, and for an object in which [ref], [after] or [repository] is
    missing or falsy. *)
Lemma parsePushEvent_null (payload : JsVal) :
  (is_object payload = false -> parsePushEvent payload = Returned None)
  /\ (forall fields,
        payload = J (JObject fields) ->
        truthy (lookup "ref" fields) && truthy (lookup "after" fields)
          && truthy (lookup "repository" fields) = false ->
        parsePushEvent payload = Returned None).
Proof.
  split.
  - intros Hobj. unfold parsePushEvent. rewrite Hobj.
    now rewrite orb_true_r.
  - intros fields -> Hmissing. unfold parsePushEvent. cbn.
    destruct (truthy (lookup "ref" fields)); [| reflexivity].
    destruct (truthy (lookup "after" fields)); [| reflexivity].
    cbn in Hmissing. now rewrite Hmissing.
Qed.

Example extractBranchFromRef_examples :
  extractBranchFromRef (J (JString "refs/heads/main")) = Returned (Some "main")
  /\ extractBranchFromRef (J (JString "refs/tags/v1")) = Returned None
  /\ extractBranchFromRef (J (JString "garbage")) = Returned None.
Proof.
  repeat split.
Qed.

(** ** Tables *)

#[local] Arguments patch_rows : simpl never.
#[local] Arguments find_deployment : simpl never.
#[local] Arguments find_project : simpl never.
#[local] Arguments find_user : simpl never.

Ltac run :=
  unfold bind, ret, throw, lift, catch, finally, get, modify, emit,
    update_deployment, Builder.attempt, Builder.set_fs in *; cbn beta iota in *.

Lemma find_patch_rows (i j : string) (f : Deployment.row -> Deployment.row)
    (rows : list Deployment.row) :
  keeps_id f ->
  find (fun r => String.eqb (Deployment.id r) j) (patch_rows i f rows)
  = option_map (fun r => if String.eqb (Deployment.id r) i then f r else r)
      (find (fun r => String.eqb (Deployment.id r) j) rows).
Proof.
  intros Hf. unfold patch_rows.
  induction rows as [| r rows IH]; [reflexivity |].
  cbn [map find].
  destruct (String.eqb (Deployment.id r) i) eqn:Hi.
  - rewrite Hf. destruct (String.eqb (Deployment.id r) j); [cbn; now rewrite Hi |].
    exact IH.
  - destruct (String.eqb (Deployment.id r) j); [cbn; now rewrite Hi |].
    exact IH.
Qed.

Lemma patch_rows_twice (i : string) (f g : Deployment.row -> Deployment.row)
    (rows : list Deployment.row) :
  keeps_id g ->
  patch_rows i f (patch_rows i g rows) = patch_rows i (fun r => f (g r)) rows.
Proof.
  intros Hg. unfold patch_rows. rewrite map_map. apply map_ext. intros r.
  destruct (String.eqb (Deployment.id r) i) eqn:Hi.
  - now rewrite Hg, Hi.
  - now rewrite Hi.
Qed.

Lemma keeps_id_setters :
  (forall v, keeps_id (Deployment.set_status v))
  /\ (forall v, keeps_id (Deployment.set_buildLogs v))
  /\ (forall v, keeps_id (Deployment.set_imageTag v))
  /\ (forall v, keeps_id (Deployment.set_error v))
  /\ (forall v, keeps_id (Deployment.set_finishedAt v)).
Proof.
  repeat split.
Qed.

Lemma keeps_id_compose (f g : Deployment.row -> Deployment.row) :
  keeps_id f -> keeps_id g -> keeps_id (fun r => f (g r)).
Proof.
  intros Hf Hg r. now rewrite Hf, Hg.
Qed.

Create HintDb tables.
#[local] Hint Resolve keeps_id_compose : tables.
#[local] Hint Extern 1 (keeps_id (Deployment.set_status _)) =>
  apply (proj1 keeps_id_setters) : tables.
#[local] Hint Extern 1 (keeps_id (Deployment.set_buildLogs _)) =>
  apply (proj1 (proj2 keeps_id_setters)) : tables.
#[local] Hint Extern 1 (keeps_id (Deployment.set_imageTag _)) =>
  apply (proj1 (proj2 (proj2 keeps_id_setters))) : tables.
#[local] Hint Extern 1 (keeps_id (Deployment.set_error _)) =>
  apply (proj1 (proj2 (proj2 (proj2 keeps_id_setters)))) : tables.
#[local] Hint Extern 1 (keeps_id (Deployment.set_finishedAt _)) =>
  apply (proj2 (proj2 (proj2 (proj2 keeps_id_setters)))) : tables.

Lemma find_id (i : string) (rows : list Deployment.row) (d : Deployment.row) :
  find (fun r => String.eqb (Deployment.id r) i) rows = Some d ->
  Deployment.id d = i /\ In d rows.
Proof.
  intros H. apply find_some in H. destruct H as [Hin Heq].
  apply String.eqb_eq in Heq. now split.
Qed.

(** ** Cancellation *)

(** C3.  For a Deployment of the caller: from pending or building, cancel
    writes status failed and the error text "Cancelled by user" (and stamps
    [finishedAt]) and returns the row; from deploying, live or failed it is
    rejected with BAD_REQUEST and the state is left as it was. *)
Theorem cancel_pending_or_building_only (w : World) (user i : string) (s : State)
    (d : Deployment.row) (p : Project.row) :
  find_deployment i (db s) = Some d ->
  find_project (Deployment.projectId d) (db s) = Some p ->
  Project.userId p = user ->
  (Deployment.status d = pending \/ Deployment.status d = building ->
     Routers.cancel w user i s
     = (Settled (Returned (Some (cancelled w d))),
        {| db := {| users := users (db s); projects := projects (db s);
                    deployments := patch_rows i (cancelled w) (deployments (db s)) |};
           fs := fs s; journal := journal s |})
     /\ Deployment.status (cancelled w d) = failed
     /\ Deployment.error (cancelled w d) = Some "Cancelled by user")
  /\ (Deployment.status d = deploying \/ Deployment.status d = live
      \/ Deployment.status d = failed ->
     Routers.cancel w user i s
     = (Settled (Thrown (TRPCError BAD_REQUEST
                           (Some "Cannot cancel deployment in current state"))),
        s)).
Proof.
  intros Hd Hp Hu. unfold Routers.cancel, Routers.owned, Routers.find_with_project.
  run. rewrite Hd, Hp, Hu, String.eqb_refl. cbn.
  split.
  - intros Hst.
    assert (Hguard : negb (status_eqb (Deployment.status d) pending)
                     && negb (status_eqb (Deployment.status d) building) = false)
      by (destruct Hst as [-> | ->]; reflexivity).
    rewrite Hguard. cbn. split; [| split; reflexivity].
    f_equal. f_equal. unfold find_deployment in *. cbn.
    rewrite find_patch_rows by (unfold cancelled; auto with tables).
    rewrite Hd. cbn. destruct (find_id _ _ _ Hd) as [-> _].
    now rewrite String.eqb_refl.
  - intros Hst.
    assert (Hguard : negb (status_eqb (Deployment.status d) pending)
                     && negb (status_eqb (Deployment.status d) building) = true)
      by (destruct Hst as [-> | [-> | ->]]; reflexivity).
    rewrite Hguard. reflexivity.
Qed.

Lemma cancel_pending_or_building_only_witness :
  find_deployment "d-1" (db Scenario.triggered)
    = Some (new_deployment (Scenario.fine "d-1") "p-app" "abc1234def"
              (Some "Fix the build") None)
  /\ find_deployment "d-1"
       (db (snd (Routers.cancel (Scenario.fine "x") "u-alice" "d-1" Scenario.triggered)))
     = Some (cancelled (Scenario.fine "x")
               (new_deployment (Scenario.fine "d-1") "p-app" "abc1234def"
                  (Some "Fix the build") None)).
Proof.
  assert (Hd : find_deployment "d-1" (db Scenario.triggered)
               = Some (new_deployment (Scenario.fine "d-1") "p-app" "abc1234def"
                         (Some "Fix the build") None)) by reflexivity.
  assert (Hp : find_project "p-app" (db Scenario.triggered) = Some Scenario.app)
    by reflexivity.
  split; [exact Hd |].
  destruct (cancel_pending_or_building_only (Scenario.fine "x") "u-alice" "d-1"
              Scenario.triggered _ _ Hd Hp eq_refl) as [Hok _].
  destruct (Hok (or_introl eq_refl)) as [Hrun _].
  rewrite Hrun. reflexivity.
Defined.

(** ** The image builder *)

Ltac builder_cases w :=
  unfold Builder.buildProject, Builder.extractTarball, Builder.do_mkdir,
    Builder.do_writeFile, Builder.do_rm; run;
  destruct (mkdir w (Builder.workDir_of w)) as [[] |];
  [ destruct (downloadRepository w _ _ _ _);
    [ destruct (writeFile w _) as [[] |];
      [ destruct (spawn w "tar" _ _) as [[| |] |];
        [ destruct (hasDockerfile w _ _ _ _) | | | ]
      | ]
    | ]
  | ].

(** How a build ends is the same in every state, and it touches nothing
    but the file system: it returns a result, or its promise never settles
    because tar could not be started. *)
Lemma buildProject_returns (w : World) (o : Builder.BuildOptions) :
  (exists e,
      ~ started (tar_of_build w)
      /\ forall s, exists paths,
           Builder.buildProject w o s
           = (Uncaught e, {| db := db s; fs := paths; journal := journal s |}))
  \/ exists r,
       Builder.imageTag r = Builder.imageTag_of o
       /\ forall s, exists paths,
            Builder.buildProject w o s
            = (Settled (Returned r),
               {| db := db s; fs := paths; journal := journal s |}).
Proof.
  unfold started, tar_of_build. cbv zeta.
  builder_cases w.
  5: { left. eexists. split; [intros (code & out & H); discriminate H |].
       intros [d paths h]; eexists; cbn; reflexivity. }
  all: right; destruct (rm w (Builder.workDir_of w)) as [[] |];
    eexists; (split; [| intros [d paths h]; eexists; cbn; reflexivity]); reflexivity.
Qed.

Lemma remove_tree_clears (dir : string) (paths : list string) (p : string) :
  In p (Builder.remove_tree dir paths) -> Builder.under dir p = false.
Proof.
  unfold Builder.remove_tree. intros H. apply filter_In in H.
  destruct H as [_ H]. now apply negb_true_iff in H.
Qed.

(** C7, as the code does it.  When the tar child can be started, the
    builder returns a result and does not throw, and on every exit path
    (success, a failed download, extraction or build, an exception) the
    removal of the work directory has run before it returns: whenever that
    removal succeeds, neither the directory nor anything below it exists
    afterwards.  A removal that fails is ignored. *)
Theorem buildProject_removes_workdir_when_rm_succeeds
    (w : World) (o : Builder.BuildOptions) (s : State) :
  started (tar_of_build w) ->
  (exists r, fst (Builder.buildProject w o s) = Returned r)
  /\ (rm w (Builder.workDir_of w) = Returned tt ->
      forall p, In p (fs (snd (Builder.buildProject w o s))) ->
                Builder.under (Builder.workDir_of w) p = false).
Proof.
  unfold started, tar_of_build. cbv zeta. intros (code & out & Htar). split.
  - destruct (buildProject_returns w o) as [(e & Hnot & _) | (r & _ & Hrun)].
    + elim Hnot. now exists code, out.
    + destruct (Hrun s) as (paths & ->). now exists r.
  - intros Hrm p. revert Htar Hrm. builder_cases w;
      intros Htar; try discriminate Htar; intros ->; cbn;
      apply remove_tree_clears.
Qed.

Lemma buildProject_removes_workdir_when_rm_succeeds_witness :
  started (tar_of_build (Scenario.fine "b-1"))
  /\ rm (Scenario.fine "b-1") (Builder.workDir_of (Scenario.fine "b-1")) = Returned tt
  /\ forall p,
       In p (fs (snd (Builder.buildProject (Scenario.fine "b-1") Scenario.options
                        Scenario.start))) ->
       Builder.under "/tmp/autotunchi-builds/b-1" p = false.
Proof.
  assert (Htar : started (tar_of_build (Scenario.fine "b-1"))).
  { exists 0%Z, "ok". reflexivity. }
  split; [exact Htar |]. split; [reflexivity |].
  exact (proj2 (buildProject_removes_workdir_when_rm_succeeds
                  (Scenario.fine "b-1") Scenario.options Scenario.start Htar) eq_refl).
Defined.

(** When the removal throws, the build still returns its result and the
    work directory is still there. *)
Lemma buildProject_workdir_survives_failed_rm :
  let run := Builder.buildProject Scenario.rm_denied Scenario.options Scenario.start in
  started (tar_of_build Scenario.rm_denied)
  /\ (exists r, fst run = Returned r /\ Builder.success r = true)
  /\ Builder.exists_path (Builder.workDir_of Scenario.rm_denied) (fs (snd run)) = true.
Proof.
  split; [exists 0%Z, "ok"; reflexivity |].
  split; [eexists; split; reflexivity | reflexivity].
Qed.

(** The case the statement above leaves out.  [extractTarball] listens to
    no [error] event of its child, as [runCommand] does: when tar cannot be
    started after the archive was written, the build neither returns nor
    throws, its [finally] block does not run, and the work directory with
    the archive in it stays, also where a removal would have succeeded. *)
Lemma buildProject_unsettled_when_tar_cannot_start
    (w : World) (o : Builder.BuildOptions) (s : State) (n : nat)
    (output message : string) :
  mkdir w (Builder.workDir_of w) = Returned tt ->
  downloadRepository w (Builder.accessToken o) (Builder.owner o) (Builder.repo o)
    (Builder.commitSha o) = Returned n ->
  writeFile w (Builder.workDir_of w ++ "/repo.tar.gz") = Returned tt ->
  tar_of_build w = SpawnFailed output message ->
  fst (Builder.buildProject w o s) = Uncaught (Error message)
  /\ Builder.exists_path (Builder.workDir_of w)
       (fs (snd (Builder.buildProject w o s))) = true
  /\ Builder.exists_path (Builder.workDir_of w ++ "/repo.tar.gz")
       (fs (snd (Builder.buildProject w o s))) = true.
Proof.
  unfold tar_of_build. cbv zeta. intros Hmkdir Hdownload Hwrite Htar.
  unfold Builder.buildProject, Builder.extractTarball, Builder.do_mkdir,
    Builder.do_writeFile, Builder.do_rm. run.
  rewrite Hmkdir, Hdownload, Hwrite, Htar. cbn [fst snd fs].
  split; [reflexivity |].
  assert (Hadd : forall p paths,
            Builder.exists_path p (Builder.add_path p paths) = true).
  { intros p paths. unfold Builder.add_path.
    destruct (Builder.exists_path p paths) eqn:Hp; [exact Hp |].
    unfold Builder.exists_path. cbn. now rewrite String.eqb_refl. }
  assert (Hkeep : forall p q paths,
            Builder.exists_path p paths = true ->
            Builder.exists_path p (Builder.add_path q paths) = true).
  { intros p q paths Hp. unfold Builder.add_path.
    destruct (Builder.exists_path q paths); [exact Hp |].
    unfold Builder.exists_path in *. cbn. rewrite Hp. apply orb_true_r. }
  split; [apply Hkeep, Hadd | apply Hadd].
Qed.

Example buildProject_tar_missing :
  let run := Builder.buildProject Scenario.tar_missing Scenario.options Scenario.start in
  rm Scenario.tar_missing (Builder.workDir_of Scenario.tar_missing) = Returned tt
  /\ fst run = Uncaught (Error "spawn tar ENOENT")
  /\ fs (snd run)
     = ["/tmp/autotunchi-builds/b-7/repo.tar.gz"; "/tmp/autotunchi-builds/b-7"].
Proof.
  split; [reflexivity |]. split; reflexivity.
Qed.

(** ** The worker *)

Lemma present_some (t : string) : t <> "" -> present (Some t) = true.
Proof.
  intros Ht. cbn. now destruct (String.eqb_spec t "").
Qed.

(** Two cases: the build does not settle, or it returns [r]. *)
Ltac use_build w :=
  match goal with
  | |- context [Builder.buildProject w ?o ?st] =>
      let e := fresh "e" in
      let r := fresh "r" in
      let Htag := fresh "Htag" in
      let Hrun := fresh "Hrun" in
      let paths := fresh "paths" in
      let Hst := fresh "Hst" in
      destruct (buildProject_returns w o) as [(e & _ & Hrun) | (r & Htag & Hrun)];
      destruct (Hrun st) as (paths & Hst); rewrite Hst; cbn [db fs journal]
  end.

(** C5.  When the record, its project and its owner are there, the token
    is found, the build succeeds, the environment decrypts and provisioning
    succeeds, the run ends with the record live and [finishedAt] stamped,
    and its error field is what it was: [setupProjectDns] is not
    constrained, so this holds for every outcome of the DNS calls. *)
Theorem processDeployment_live_despite_dns
    (w : World) (i : string) (s : State) (d : Deployment.row) (p : Project.row)
    (u : User.row) (token : string) (r : Builder.BuildResult)
    (vars : list (string * string)) :
  find_deployment i (db s) = Some d ->
  find_project (Deployment.projectId d) (db s) = Some p ->
  find_user (Project.userId p) (db s) = Some u ->
  getGitHubAccessToken w (Project.userId p) = Returned (Some token) ->
  token <> "" ->
  fst (Builder.buildProject w (Worker.build_options p d w token) s) = Returned r ->
  Builder.success r = true ->
  decryptJson w (Project.envVars p) = Returned vars ->
  deploy_success
    (deployProject w (Worker.deployment_config p w (Builder.imageTag r) vars)) = true ->
  fst (Worker.processDeployment w i s) = Returned tt
  /\ deployments (db (snd (Worker.processDeployment w i s)))
     = patch_rows i (gone_live w r) (deployments (db s))
  /\ find_deployment i (db (snd (Worker.processDeployment w i s)))
     = Some (gone_live w r d)
  /\ Deployment.status (gone_live w r d) = live
  /\ Deployment.finishedAt (gone_live w r d) = Some (now w)
  /\ Deployment.error (gone_live w r d) = Deployment.error d.
Proof.
  intros Hd Hp Hu Htok Hne Hbuild Hok Hvars Hdeploy.
  assert (Hrows :
    fst (Worker.processDeployment w i s) = Returned tt
    /\ deployments (db (snd (Worker.processDeployment w i s)))
       = patch_rows i (gone_live w r) (deployments (db s))).
  { unfold Worker.processDeployment, Worker.find_with_project_user,
      Worker.publish_dns.
    run. rewrite Hd, Hp, Hu. cbn. rewrite Htok. cbn [render].
    rewrite present_some by exact Hne. cbn [negb].
    destruct (buildProject_returns w (Worker.build_options p d w token))
      as [(e & _ & Hrun) | (r' & _ & Hrun)];
      destruct (Hrun s) as (paths0 & Hs); rewrite Hs in Hbuild;
      cbn in Hbuild; [discriminate Hbuild |].
    injection Hbuild as ->.
    match goal with
    | |- context [Builder.buildProject w ?o ?st] =>
        destruct (Hrun st) as (paths & Hst); rewrite Hst
    end.
    cbn. rewrite Hok. cbn. rewrite Hvars. cbn. rewrite Hdeploy. cbn.
    assert (Hpatch : forall rows,
      patch_rows i
        (fun x => Deployment.set_finishedAt (now w) (Deployment.set_status live x))
        (patch_rows i
           (fun x => Deployment.set_imageTag (Builder.imageTag r)
                       (Deployment.set_status deploying x))
           (patch_rows i (Deployment.set_buildLogs (Builder.logs r))
              (patch_rows i (Deployment.set_status building) rows)))
      = patch_rows i (gone_live w r) rows).
    { intros rows. rewrite !patch_rows_twice by (intros x; reflexivity).
      reflexivity. }
    destruct (present (User.cloudflareToken u) && present (User.cloudflareZone u));
      [| cbn; split; [reflexivity | apply Hpatch]].
    destruct (setupProjectDns w _ _ _ _) as [[] |];
      [| cbn; split; [reflexivity | apply Hpatch]].
    destruct (present (Project.customDomain p));
      [| cbn; split; [reflexivity | apply Hpatch]].
    destruct (setupProjectDns w _ _ _ _) as [[] |];
      cbn; (split; [reflexivity | apply Hpatch]). }
  destruct Hrows as [Hret Hrows].
  split; [exact Hret |]. split; [exact Hrows |].
  split; [| repeat split].
  unfold find_deployment in *. rewrite Hrows.
  rewrite find_patch_rows by (intros x; reflexivity).
  rewrite Hd. cbn. destruct (find_id _ _ _ Hd) as [-> _].
  now rewrite String.eqb_refl.
Qed.

Lemma processDeployment_live_despite_dns_witness :
  setupProjectDns Scenario.dns_down "cf-token" "zone-1" "app.example.dev" "127.0.0.1"
    = Thrown (Error "Cloudflare API error: Authentication error")
  /\ exists row,
       find_deployment "d-1"
         (db (snd (Worker.processDeployment Scenario.dns_down "d-1" Scenario.triggered)))
       = Some row
       /\ Deployment.status row = live
       /\ Deployment.finishedAt row = Some 1700000000%Z
       /\ Deployment.error row = None.
Proof.
  split; [reflexivity |].
  edestruct (processDeployment_live_despite_dns Scenario.dns_down "d-1"
               Scenario.triggered)
    as (_ & _ & Hrow & Hlive & Hfinished & Herror);
    [ reflexivity | reflexivity | reflexivity | reflexivity | discriminate
    | reflexivity | reflexivity | reflexivity | reflexivity | ].
  eexists. split; [exact Hrow |].
  split; [exact Hlive |]. split; [exact Hfinished | exact Herror].
Defined.

Lemma patch_rows_id (i : string) (rows : list Deployment.row) :
  patch_rows i (fun r => r) rows = rows.
Proof.
  unfold patch_rows. rewrite <- (map_id rows) at 2. apply map_ext.
  intros r. now destruct (String.eqb (Deployment.id r) i).
Qed.

Ltac unchanged :=
  eexists (fun r => r), [], _;
  rewrite patch_rows_id, app_nil_r;
  split; [reflexivity |];
  split; [intros ?; reflexivity |];
  split; [intros ?; reflexivity |];
  split; [intros ? [] |];
  split; [right; split; [intros [] | intros ?; reflexivity] |];
  intros Habs; now elim Habs.

Ltac patched Hd :=
  rewrite ?patch_rows_twice by (intros ?; reflexivity);
  rewrite <- ?app_assoc; cbn [app];
  eexists _, _, _;
  split; [first [reflexivity | rewrite app_nil_r; reflexivity] |];
  split; [intros ?; reflexivity |];
  split; [intros ?; reflexivity |];
  split; [unfold pipeline_event; cbn [In]; intuition (subst; eauto) |];
  split;
    [ first [ left; split; [cbn [In]; tauto | intros ?; cbn; discriminate]
            | right; split; [cbn [In]; intuition congruence | intros ?; reflexivity] ]
    | intros _; cbn [db]; try rewrite Hd; discriminate ].

(** What one run of the worker does to a system: it patches the rows of
    its Deployment without touching key or commit message, adds pipeline
    events of that Deployment to the history, and writes the image tag
    exactly in the runs whose build succeeded. *)
Lemma processDeployment_effect (w : World) (i : string) (s : State) :
  exists f evs paths,
    snd (Worker.processDeployment w i s)
    = {| db := {| users := users (db s); projects := projects (db s);
                  deployments := patch_rows i f (deployments (db s)) |};
         fs := paths; journal := (journal s ++ evs)%list |}
    /\ keeps_id f
    /\ (forall r, Deployment.commitMsg (f r) = Deployment.commitMsg r)
    /\ (forall e, In e evs -> pipeline_event i e)
    /\ ((In (EvBuild i true) evs /\ forall r, Deployment.imageTag (f r) <> None)
        \/ (~ In (EvBuild i true) evs
            /\ forall r, Deployment.imageTag (f r) = Deployment.imageTag r))
    /\ (evs <> [] -> find_deployment i (db s) <> None).
Proof.
  destruct s as [[us ps rows] paths0 h].
  unfold Worker.processDeployment, Worker.find_with_project_user,
    Worker.publish_dns.
  run. cbn [db users projects deployments fs journal].
  destruct (find_deployment i _) as [d |] eqn:Hd; [| cbn; unchanged].
  destruct (find_project _ _) as [p |]; [| cbn; unchanged].
  cbn.
  destruct (getGitHubAccessToken w _) as [token |]; cbn; [| patched Hd].
  destruct (present token); cbn; [| patched Hd].
  use_build w; cbn; [patched Hd |].
  destruct (Builder.success r) eqn:Hsuccess; cbn; [| patched Hd].
  destruct (decryptJson w _); cbn; [| patched Hd].
  destruct (deploy_success _); cbn; [| patched Hd].
  destruct (find_user _ _) as [u |]; cbn; [| patched Hd].
  destruct (present (User.cloudflareToken u) && present (User.cloudflareZone u));
    cbn; [| patched Hd].
  destruct (setupProjectDns w _ _ _ _) as [[] |]; cbn; [| patched Hd].
  destruct (present (Project.customDomain p)); cbn; [| patched Hd].
  destruct (setupProjectDns w _ _ _ _) as [[] |]; cbn; patched Hd.
Qed.

(** ** Truncation *)

Lemma code_units_cases (c : ascii) :
  code_units c = 0 \/ code_units c = 1 \/ code_units c = 2.
Proof.
  unfold code_units.
  destruct (nat_of_ascii c <? 128)%nat; [auto |].
  destruct (nat_of_ascii c <? 192)%nat; [auto |].
  destruct (nat_of_ascii c <? 240)%nat; auto.
Qed.

Lemma utf16_length_append (a b : string) :
  utf16_length (a ++ b) = utf16_length a + utf16_length b.
Proof.
  induction a as [| c a IH]; [reflexivity |].
  cbn [append utf16_length]. rewrite IH. apply Nat.add_assoc.
Qed.

(** [substring(0, n)] keeps the first [n] code units: the result has [n]
    of them, or as many as the string has when these are fewer. *)
Lemma substring0_units (n : nat) (s : string) :
  utf16_length (substring0 n s) = Nat.min n (utf16_length s).
Proof.
  revert n. induction s as [| c s IH]; intros n.
  - cbn. now rewrite Nat.min_0_r.
  - cbn [substring0 utf16_length].
    destruct (code_units_cases c) as [Hc | [Hc | Hc]]; rewrite Hc.
    + cbn [utf16_length]. rewrite Hc, IH. reflexivity.
    + destruct n as [| n]; [reflexivity |].
      cbn [utf16_length]. rewrite Hc, IH. reflexivity.
    + destruct n as [| [| n]]; [reflexivity | reflexivity |].
      cbn [utf16_length]. rewrite Hc, IH. reflexivity.
Qed.

Lemma substring0_length (n : nat) (s : string) : utf16_length (substring0 n s) <= n.
Proof.
  rewrite substring0_units. apply Nat.le_min_l.
Qed.

(** A string that has no more than [n] code units is kept whole. *)
Lemma substring0_whole (n : nat) (s : string) :
  utf16_length s <= n -> substring0 n s = s.
Proof.
  revert n. induction s as [| c s IH]; intros n Hn; [reflexivity |].
  cbn [substring0 utf16_length] in *.
  destruct (code_units_cases c) as [Hc | [Hc | Hc]]; rewrite Hc in *.
  - now rewrite IH.
  - destruct n as [| n]; [inversion Hn |].
    rewrite IH; [reflexivity | now apply le_S_n].
  - destruct n as [| [| n]]; [inversion Hn | apply le_S_n in Hn; inversion Hn |].
    rewrite IH; [reflexivity | now apply le_S_n, le_S_n].
Qed.

(** What is kept is the front of the string, byte for byte; only where
    the cut falls inside a surrogate pair, U+FFFD follows it. *)
Lemma substring0_front (n : nat) (s : string) :
  exists kept rest,
    s = kept ++ rest
    /\ (substring0 n s = kept \/ substring0 n s = kept ++ replacement_character).
Proof.
  revert n. induction s as [| c s IH]; intros n.
  - exists "", "". split; [reflexivity | now left].
  - cbn [substring0].
    assert (Hgo : forall m,
      exists kept rest,
        String c s = kept ++ rest
        /\ (String c (substring0 m s) = kept
            \/ String c (substring0 m s) = kept ++ replacement_character)).
    { intros m. destruct (IH m) as (kept & rest & Hs & Hk).
      exists (String c kept), rest. split; [cbn; now rewrite <- Hs |].
      destruct Hk as [-> | ->]; [now left | now right]. }
    assert (Hstop : exists kept rest,
      String c s = kept ++ rest
      /\ ("" = kept \/ "" = kept ++ replacement_character)).
    { exists "", (String c s). split; [reflexivity | now left]. }
    destruct (code_units c) as [| [| k]]; [apply Hgo | |].
    + destruct n as [| n]; [exact Hstop | apply Hgo].
    + destruct n as [| [| n]]; [exact Hstop | | apply Hgo].
      exists "", (String c s). split; [reflexivity | now right].
Qed.

(** With room for one code unit at least, only the empty string gives the
    empty string. *)
Lemma substring0_empty (n : nat) (s : string) :
  substring0 (S n) s = "" -> s = "".
Proof.
  destruct s as [| c s]; [reflexivity |]. cbn [substring0].
  destruct (code_units c) as [| [| k]]; [discriminate | discriminate |].
  destruct n; discriminate.
Qed.

Example substring0_examples :
  substring0 7 "abc1234def" = "abc1234"
  /\ substring0 500 "Fix the build" = "Fix the build"
  /\ utf16_length (Scenario.e_acute ++ Scenario.grinning_face ++ "!") = 4
  /\ substring0 1 (Scenario.e_acute ++ Scenario.grinning_face ++ "!")
     = Scenario.e_acute
  /\ substring0 2 (Scenario.e_acute ++ Scenario.grinning_face ++ "!")
     = Scenario.e_acute ++ replacement_character
  /\ substring0 3 (Scenario.e_acute ++ Scenario.grinning_face ++ "!")
     = Scenario.e_acute ++ Scenario.grinning_face.
Proof.
  repeat split.
Qed.

(** ** Insertions *)

(** What the webhook stores for the message of a push. *)
Lemma commit_message_shape (e : PushEvent) (stored : option string) :
  Route.commit_message e = Returned stored ->
  (head_commit e = None -> stored = None)
  /\ forall hc, head_commit e = Some hc ->
       (exists original,
           hc_message hc = J (JString original)
           /\ stored = if String.eqb original "" then None
                       else Some (substring0 500 original))
       \/ ((hc_message hc = Undefined \/ hc_message hc = J JNull) /\ stored = None).
Proof.
  unfold Route.commit_message.
  destruct (head_commit e) as [hc |]; [| intros [= <-]; split; [reflexivity | discriminate]].
  intros Hstored. split; [discriminate |]. intros hc' [= <-].
  destruct (hc_message hc) as [| [| | | original | |]] eqn:Hm; try discriminate Hstored.
  - right. injection Hstored as <-. auto.
  - right. injection Hstored as <-. auto.
  - left. exists original. split; [reflexivity |].
    destruct (String.eqb (substring0 500 original) "") eqn:Hempty;
      injection Hstored as <-.
    + apply String.eqb_eq, substring0_empty in Hempty. now subst.
    + destruct (String.eqb_spec original "") as [-> |]; [discriminate Hempty | reflexivity].
Qed.

Lemma commit_message_bounded (e : PushEvent) (stored : option string) (m : string) :
  Route.commit_message e = Returned stored -> stored = Some m ->
  utf16_length m <= 500.
Proof.
  intros Hmsg ->. unfold Route.commit_message in Hmsg.
  destruct (head_commit e) as [hc |]; [| discriminate Hmsg].
  destruct (hc_message hc) as [| [| | | original | |]]; try discriminate Hmsg.
  destruct (String.eqb (substring0 500 original) ""); [discriminate Hmsg |].
  injection Hmsg as <-. apply substring0_length.
Qed.

Lemma told_nothing (s : State) : told s s [].
Proof.
  destruct s as [d paths h]. unfold told. cbn. now rewrite app_nil_r.
Qed.

Lemma told_signature (s : State) (ok : bool) :
  told s {| db := db s; fs := fs s;
            journal := ((journal s ++ [EvParsed]) ++ [EvSignature ok])%list |}
    [EvParsed; EvSignature ok].
Proof.
  unfold told. now rewrite <- app_assoc.
Qed.

(** What one webhook request does, case by case. *)
Lemma POST_effect (w : World) (req : Route.Request) (s : State) :
  let run := Route.POST w req s in
  (exists resp, fst run = Returned resp)
  /\ ((* nothing happened before the event was parsed *)
      (told s (snd run) []
       /\ fst run <> Returned unauthorized
       /\ forall event branch project, ~ push_for w req s event branch project)
      \/ (* parsed, and stopped before the signature was looked at *)
      (told s (snd run) [EvParsed]
       /\ fst run <> Returned unauthorized
       /\ forall event branch project, ~ push_for w req s event branch project)
      \/ (* a project matched, and its secret does not verify the request *)
      (told s (snd run) [EvParsed; EvSignature false]
       /\ fst run = Returned unauthorized
       /\ exists event branch project,
            push_for w req s event branch project
            /\ verifyWebhookSignature (Route.body req) (Route.x_hub_signature_256 req)
                 (Project.webhookSecret project) = Returned false)
      \/ (* verified, and the insertion failed *)
      (told s (snd run) [EvParsed; EvSignature true]
       /\ fst run = Returned {| Route.status_code := 500;
                                Route.json := Route.ErrorBody "Internal server error" |}
       /\ exists event branch project,
            push_for w req s event branch project
            /\ verifyWebhookSignature (Route.body req) (Route.x_hub_signature_256 req)
                 (Project.webhookSecret project) = Returned true)
      \/ (* verified, and the record created *)
      (exists event branch project row,
         push_for w req s event branch project
         /\ verifyWebhookSignature (Route.body req) (Route.x_hub_signature_256 req)
              (Project.webhookSecret project) = Returned true
         /\ Route.commit_message event = Returned (Deployment.commitMsg row)
         /\ sql_text w (after event) = Some (Deployment.commitSha row)
         /\ row = new_deployment w (Project.id project) (Deployment.commitSha row)
                    (Deployment.commitMsg row) None
         /\ grown s (snd run) row
              [EvParsed; EvSignature true; EvInserted (Deployment.id row) ByPush]
         /\ ((exists sha, after event = J (JString sha))
             /\ fst run = Returned {| Route.status_code := 200;
                                      Route.json := Route.Triggered "Deployment triggered"
                                                      (Deployment.id row) |}
             \/ (forall sha, after event <> J (JString sha))
                /\ fst run = Returned {| Route.status_code := 500;
                                         Route.json :=
                                           Route.ErrorBody "Internal server error" |}))).
Proof.
  destruct s as [[us ps rows] paths h].
  unfold Route.POST, Route.respond, Route.find_project_for, insert_deployment, push_for.
  run. cbn [db users projects deployments fs journal].
  destruct (match Route.x_github_event req with
            | Some e => (e =? "push")%string
            | None => false
            end) eqn:Hevent; cbn.
  2: { split; [eauto |]. left. split; [apply told_nothing |].
       split; [discriminate |]. intros event branch project (Hpush & _).
       rewrite Hpush in Hevent. discriminate Hevent. }
  assert (Hpush : Route.x_github_event req = Some "push").
  { destruct (Route.x_github_event req) as [e |]; [| discriminate].
    apply String.eqb_eq in Hevent. now subst. }
  destruct (JSON_parse w (Route.body req)) as [decoded |] eqn:Hjson; cbn.
  2: { split; [eauto |]. left. split; [apply told_nothing |].
       split; [discriminate |].
       intros event branch project (_ & (decoded & Hd & _) & _). discriminate Hd. }
  destruct (parsePushEvent (J decoded)) as [[event |] |] eqn:Hparse; cbn.
  2, 3: split; [eauto |]; left; (split; [apply told_nothing |]);
        (split; [discriminate |]);
        intros event branch project (_ & (decoded' & Hd & Hp) & _);
        injection Hd as <-; rewrite Hparse in Hp; discriminate Hp.
  destruct (extractBranchFromRef (ref event)) as [[branch |] |] eqn:Hbranch; cbn.
  2, 3: split; [eauto |]; right; left; (split; [reflexivity |]);
        (split; [discriminate |]);
        intros event' branch' project' (_ & (decoded' & Hd & Hp) & Hb & _);
        injection Hd as <-; rewrite Hparse in Hp; injection Hp as <-;
        rewrite Hbranch in Hb; discriminate Hb.
  destruct (sql_text w (repository_full_name event)) as [name |] eqn:Hname; cbn.
  2: { split; [eauto |]. right. left. split; [reflexivity |].
       split; [discriminate |].
       intros event' branch' project' (_ & (decoded' & Hd & Hp) & _ & (name & Hn & _)).
       injection Hd as <-. rewrite Hparse in Hp. injection Hp as <-.
       rewrite Hname in Hn. discriminate Hn. }
  destruct (find _ ps) as [project |] eqn:Hproject; cbn.
  2: { split; [eauto |]. right. left. split; [reflexivity |].
       split; [discriminate |].
       intros event' branch' project'
         (_ & (decoded' & Hd & Hp) & Hb & (name' & Hn & Hfind)).
       injection Hd as <-. rewrite Hparse in Hp. injection Hp as <-.
       rewrite Hbranch in Hb. injection Hb as <-.
       rewrite Hname in Hn. injection Hn as <-.
       unfold pushed_to in Hfind. rewrite Hproject in Hfind. discriminate Hfind. }
  assert (Hfor :
    Route.x_github_event req = Some "push"
    /\ (exists decoded0,
          Returned decoded = Returned decoded0
          /\ parsePushEvent (J decoded0) = Returned (Some event))
    /\ extractBranchFromRef (ref event) = Returned (Some branch)
    /\ exists name0,
         sql_text w (repository_full_name event) = Some name0
         /\ find (pushed_to name0 branch) ps = Some project).
  { split; [exact Hpush |]. split; [now exists decoded |]. split; [exact Hbranch |].
    now exists name. }
  destruct (verifyWebhookSignature_returns (Route.body req)
              (Route.x_hub_signature_256 req) (Project.webhookSecret project))
    as [ok Hverify].
  rewrite Hverify. cbn. destruct ok; cbn.
  2: { split; [eauto |]. right. right. left.
       split; [rewrite <- app_assoc; reflexivity |]. split; [reflexivity |].
       exists event, branch, project.
       split; [exact Hfor | first [reflexivity | exact Hverify]]. }
  assert (Hfailed :
    forall st : State,
      st = {| db := {| users := us; projects := ps; deployments := rows |};
              fs := paths; journal := ((h ++ [EvParsed]) ++ [EvSignature true])%list |} ->
      told {| db := {| users := us; projects := ps; deployments := rows |};
              fs := paths; journal := h |} st [EvParsed; EvSignature true]).
  { intros st ->. unfold told. cbn. now rewrite <- app_assoc. }
  destruct (Route.commit_message event) as [commitMsg |] eqn:Hmsg; cbn.
  2: { split; [eauto |]. right. right. right. left.
       split; [now apply Hfailed |]. split; [reflexivity |].
       exists event, branch, project.
       split; [exact Hfor | first [reflexivity | exact Hverify]]. }
  destruct (sql_text w (after event)) as [commitSha |] eqn:Hsha; cbn.
  2: { split; [eauto |]. right. right. right. left.
       split; [now apply Hfailed |]. split; [reflexivity |].
       exists event, branch, project.
       split; [exact Hfor | first [reflexivity | exact Hverify]]. }
  destruct (find_deployment _ _) eqn:Hfresh; cbn.
  1: { split; [eauto |]. right. right. right. left.
       split; [now apply Hfailed |]. split; [reflexivity |].
       exists event, branch, project.
       split; [exact Hfor | first [reflexivity | exact Hverify]]. }
  destruct (find_project _ _); cbn.
  2: { split; [eauto |]. right. right. right. left.
       split; [now apply Hfailed |]. split; [reflexivity |].
       exists event, branch, project.
       split; [exact Hfor | first [reflexivity | exact Hverify]]. }
  assert (Hgrown :
    grown {| db := {| users := us; projects := ps; deployments := rows |};
             fs := paths; journal := h |}
      {| db := {| users := us; projects := ps;
                  deployments :=
                    (rows ++ [new_deployment w (Project.id project) commitSha
                                commitMsg None])%list |};
         fs := paths;
         journal := (((h ++ [EvParsed]) ++ [EvSignature true])
                       ++ [EvInserted (randomUUID w) ByPush])%list |}
      (new_deployment w (Project.id project) commitSha commitMsg None)
      [EvParsed; EvSignature true; EvInserted (randomUUID w) ByPush]).
  { split; [exact Hfresh |]. cbn. now rewrite <- !app_assoc. }
  destruct (Route.short_sha (after event)) as [short |] eqn:Hshort; cbn;
    (split; [eauto |]); right; right; right; right;
    exists event, branch, project,
      (new_deployment w (Project.id project) commitSha commitMsg None);
    (split; [exact Hfor |]); (split; [exact Hverify |]);
    (split; [exact Hmsg |]); (split; [exact Hsha |]);
    (split; [reflexivity |]); (split; [exact Hgrown |]).
  - left. split; [| reflexivity].
    destruct (after event) as [| [| | | sha | |]]; try discriminate Hshort.
    now exists sha.
  - right. split; [| reflexivity].
    intros sha Hafter. rewrite Hafter in Hshort. discriminate Hshort.
Qed.

(** What a cancellation does to a system. *)
Lemma cancel_effect (w : World) (user i : string) (s : State) :
  snd (Routers.cancel w user i s) = s
  \/ (find_deployment i (db s) <> None
      /\ snd (Routers.cancel w user i s)
         = {| db := {| users := users (db s); projects := projects (db s);
                       deployments := patch_rows i (cancelled w) (deployments (db s)) |};
              fs := fs s; journal := journal s |}).
Proof.
  destruct s as [[us ps rows] paths h].
  unfold Routers.cancel, Routers.owned, Routers.find_with_project. run.
  cbn [db users projects deployments fs journal].
  destruct (find_deployment i _) as [d |]; [| now left].
  destruct (find_project _ _) as [p |]; [| now left].
  cbn. destruct (negb (Project.userId p =? user)); [now left |].
  cbn. destruct (_ && _); [now left |].
  right. split; [discriminate | reflexivity].
Qed.

Ltac now_rejected := left; split; [reflexivity | eexists; reflexivity].

(** What a rollback request does to a system. *)
Lemma rollback_effect (w : World) (user i : string) (s : State) :
  let run := Routers.rollback w user i s in
  (snd run = s /\ exists e, fst run = Thrown e)
  \/ exists source row,
       find_deployment i (db s) = Some source
       /\ Deployment.status source = live
       /\ present (Deployment.imageTag source) = true
       /\ row = new_deployment w (Deployment.projectId source)
                  (Deployment.commitSha source)
                  (Some ("Rollback to " ++ substring0 7 (Deployment.commitSha source)))
                  (Deployment.imageTag source)
       /\ grown s (snd run) row
            [EvInserted (Deployment.id row) (ByRollback (Deployment.id source))]
       /\ fst run = Returned row.
Proof.
  destruct s as [[us ps rows] paths h].
  unfold Routers.rollback, Routers.owned, Routers.find_with_project, insert_deployment.
  cbv zeta. run. cbn [db users projects deployments fs journal].
  destruct (find_deployment i _) as [d |] eqn:Hd; [| now_rejected].
  destruct (find_project _ _) as [p |]; [| now_rejected].
  cbn. destruct (negb (Project.userId p =? user)); [now_rejected |].
  cbn. destruct (status_eqb (Deployment.status d) live) eqn:Hlive; [| now_rejected].
  destruct (present (Deployment.imageTag d)) eqn:Htag; [| now_rejected].
  cbn. destruct (find_deployment (randomUUID w) _) eqn:Hfresh; [now_rejected |].
  cbn. destruct (find_project _ _); [| now_rejected].
  cbn. right. exists d, (new_deployment w (Deployment.projectId d)
                           (Deployment.commitSha d)
                           (Some ("Rollback to " ++ substring0 7 (Deployment.commitSha d)))
                           (Deployment.imageTag d)).
  split; [reflexivity |].
  split; [now destruct (Deployment.status d) |].
  split; [exact Htag |]. split; [reflexivity |].
  split; [| reflexivity]. split; [exact Hfresh | reflexivity].
Qed.

(** What a manual trigger does to a system. *)
Lemma triggerDeploy_effect (w : World) (user i : string) (s : State) :
  let run := Routers.triggerDeploy w user i s in
  (snd run = s /\ exists e, fst run = Thrown e)
  \/ exists project token commit row,
       In project (projects (db s))
       /\ Project.id project = i
       /\ getGitHubAccessToken w user = Returned token
       /\ getLatestCommit w (render token)
            (nth 0 (split "/" (Project.repoFullName project)) "")
            (nth_error (split "/" (Project.repoFullName project)) 1)
            (Project.branch project) = Returned commit
       /\ row = new_deployment w (Project.id project) (sha commit)
                  (Some (substring0 500 (message commit))) None
       /\ grown s (snd run) row [EvInserted (Deployment.id row) ByTrigger]
       /\ fst run = Returned row.
Proof.
  destruct s as [[us ps rows] paths h].
  unfold Routers.triggerDeploy, insert_deployment.
  cbv zeta. run. cbn [db users projects deployments fs journal].
  destruct (find _ ps) as [project |] eqn:Hproject; [| now_rejected].
  apply find_some in Hproject. destruct Hproject as [Hin Hid].
  apply andb_true_iff in Hid. destruct Hid as [Hid _].
  apply String.eqb_eq in Hid.
  destruct (getGitHubAccessToken w user) as [token |] eqn:Htoken; cbn; [| now_rejected].
  destruct (present token); cbn; [| now_rejected].
  destruct (getLatestCommit w _ _ _ _) as [commit |] eqn:Hcommit; cbn; [| now_rejected].
  destruct (find_deployment (randomUUID w) _) eqn:Hfresh; [now_rejected |].
  cbn. destruct (find_project _ _); [| now_rejected].
  cbn. right. exists project, token, commit,
    (new_deployment w (Project.id project) (sha commit)
       (Some (substring0 500 (message commit))) None).
  split; [exact Hin |]. split; [exact Hid |]. split; [reflexivity |].
  split; [exact Hcommit |].
  split; [reflexivity |]. split; [| reflexivity].
  split; [exact Hfresh | reflexivity].
Qed.

(** ** Invariants of the reachable systems *)

Lemma in_patch_rows (i : string) (f : Deployment.row -> Deployment.row)
    (rows : list Deployment.row) (row' : Deployment.row) :
  In row' (patch_rows i f rows) <->
  exists row, In row rows
              /\ row' = if String.eqb (Deployment.id row) i then f row else row.
Proof.
  unfold patch_rows. rewrite in_map_iff. split.
  - intros (row & Heq & Hin). now exists row.
  - intros (row & Hin & Heq). now exists row.
Qed.

Lemma find_deployment_none (i : string) (d : Database) :
  find_deployment i d = None <->
  forall row, In row (deployments d) -> Deployment.id row <> i.
Proof.
  unfold find_deployment. split.
  - intros Hnone row Hin Heq.
    pose proof (find_none _ _ Hnone row Hin) as H. cbn in H.
    rewrite Heq, String.eqb_refl in H. discriminate.
  - intros Hall. destruct (find _ _) as [row |] eqn:Hfind; [| reflexivity].
    destruct (find_id _ _ _ Hfind) as [Hid Hin]. now elim (Hall row Hin).
Qed.

Lemma find_deployment_some (i : string) (d : Database) :
  find_deployment i d <> None ->
  exists row, In row (deployments d) /\ Deployment.id row = i.
Proof.
  unfold find_deployment. destruct (find _ _) as [row |] eqn:Hfind; [| congruence].
  intros _. destruct (find_id _ _ _ Hfind). now exists row.
Qed.

Lemma image_known_app (i : string) (h evs : list Event) :
  image_known i (h ++ evs) <-> image_known i h \/ image_known i evs.
Proof.
  unfold image_known, build_succeeded, rolled_back. split.
  - intros [H | [src H]]; apply in_app_iff in H; destruct H; eauto.
  - intros [[H | [src H]] | [H | [src H]]];
      [left | right; exists src | left | right; exists src];
      apply in_app_iff; auto.
Qed.

Lemma pipeline_image_known (i j : string) (evs : list Event) :
  (forall e, In e evs -> pipeline_event i e) ->
  image_known j evs -> j = i /\ In (EvBuild i true) evs.
Proof.
  intros Hevs [H | [src H]]; unfold build_succeeded in *.
  - destruct (Hevs _ H) as [[b Hb] | [[b Hb] | Hb]]; try discriminate.
    injection Hb as -> _. now split.
  - destruct (Hevs _ H) as [[b Hb] | [[b Hb] | Hb]]; discriminate.
Qed.

Section Preservation.

Variables (s s' : State).

Hypothesis keeps : imageTag_iff_build_or_rollback s /\ history_has_rows s.

(** A patch by the worker or by a cancellation. *)
Lemma patch_preserves (i : string) (f : Deployment.row -> Deployment.row)
    (evs : list Event) :
  deployments (db s') = patch_rows i f (deployments (db s)) ->
  journal s' = (journal s ++ evs)%list ->
  keeps_id f ->
  (forall e, In e evs -> pipeline_event i e) ->
  ((In (EvBuild i true) evs /\ forall r, Deployment.imageTag (f r) <> None)
   \/ (~ In (EvBuild i true) evs
       /\ forall r, Deployment.imageTag (f r) = Deployment.imageTag r)) ->
  (evs <> [] -> find_deployment i (db s) <> None) ->
  imageTag_iff_build_or_rollback s' /\ history_has_rows s'.
Proof.
  intros Hrows Hjournal Hid Hevs Htag Hfound. destruct keeps as [Himage Hhistory].
  unfold imageTag_iff_build_or_rollback, history_has_rows.
  rewrite Hrows, Hjournal. split.
  - intros row' Hin. apply in_patch_rows in Hin. destruct Hin as (row & Hin & ->).
    specialize (Himage row Hin). rewrite image_known_app.
    destruct (String.eqb_spec (Deployment.id row) i) as [Heq | Hneq].
    + rewrite Hid, Heq in *. destruct Htag as [[Hbuilt Hset] | [Hnot Hsame]].
      * split; [intros _ | intros _; apply Hset].
        right. now left.
      * rewrite Hsame, Himage. split; [tauto |].
        intros [H | H]; [exact H |].
        now destruct (pipeline_image_known _ _ _ Hevs H).
    + rewrite Himage. split; [tauto |].
      intros [H | H]; [exact H |].
      destruct (pipeline_image_known _ _ _ Hevs H) as [Heq _]. congruence.
  - intros j Hknown. apply image_known_app in Hknown.
    assert (Hold : exists row, In row (deployments (db s)) /\ Deployment.id row = j).
    { destruct Hknown as [H | H]; [now apply Hhistory |].
      destruct (pipeline_image_known _ _ _ Hevs H) as [-> Hin].
      apply find_deployment_some, Hfound. intros ->. exact Hin. }
    destruct Hold as (row & Hin & Hj).
    exists (if String.eqb (Deployment.id row) i then f row else row). split.
    + apply in_patch_rows. now exists row.
    + destruct (String.eqb (Deployment.id row) i); [now rewrite Hid | exact Hj].
Qed.

(** A new row. *)
Lemma growth_preserves (row : Deployment.row) (pre : list Event) (o : Origin) :
  grown s s' row (pre ++ [EvInserted (Deployment.id row) o]) ->
  (forall e, In e pre -> boundary_event e) ->
  (Deployment.imageTag row <> None <-> exists source, o = ByRollback source) ->
  imageTag_iff_build_or_rollback s' /\ history_has_rows s'.
Proof.
  intros [Hfresh Hs'] Hpre Htag. destruct keeps as [Himage Hhistory]. rewrite Hs'.
  rewrite find_deployment_none in Hfresh.
  assert (Hnew : forall j,
    image_known j (pre ++ [EvInserted (Deployment.id row) o])
    <-> j = Deployment.id row /\ exists source, o = ByRollback source).
  { intros j. unfold image_known, build_succeeded, rolled_back. split.
    - intros [H | [src H]]; apply in_app_iff in H; destruct H as [H | [H | []]];
        try discriminate;
        try (destruct (Hpre _ H) as [Hb | [ok Hb]]; discriminate).
      injection H as -> ->. eauto.
    - intros [-> [src ->]]. right. exists src. apply in_app_iff. right. now left. }
  unfold imageTag_iff_build_or_rollback, history_has_rows. cbn. split.
  - intros r Hin. rewrite image_known_app, Hnew.
    apply in_app_iff in Hin. destruct Hin as [Hin | [<- | []]].
    + rewrite (Himage r Hin). split; [tauto |].
      intros [H | [Heq _]]; [exact H |]. now elim (Hfresh r Hin).
    + rewrite Htag. split; [tauto |].
      intros [H | [_ H]]; [| exact H].
      destruct (Hhistory _ H) as (old & Hin & Heq). now elim (Hfresh old Hin).
  - intros j Hknown. apply image_known_app in Hknown.
    destruct Hknown as [H | H].
    + destruct (Hhistory _ H) as (old & Hin & Heq). exists old.
      split; [apply in_app_iff; now left | exact Heq].
    + apply Hnew in H. destruct H as [-> _]. exists row.
      split; [apply in_app_iff; right; now left | reflexivity].
Qed.

(** A longer history that speaks of the boundary only. *)
Lemma telling_preserves (evs : list Event) :
  told s s' evs ->
  (forall e, In e evs -> boundary_event e) ->
  imageTag_iff_build_or_rollback s' /\ history_has_rows s'.
Proof.
  intros Hs' Hevs. destruct keeps as [Himage Hhistory]. rewrite Hs'.
  assert (Hnone : forall j, image_known j evs -> False).
  { intros j [H | [src H]]; destruct (Hevs _ H) as [Hb | [ok Hb]]; discriminate. }
  unfold imageTag_iff_build_or_rollback, history_has_rows. cbn. split.
  - intros r Hin. rewrite image_known_app, (Himage r Hin).
    split; [tauto |]. intros [H | H]; [exact H | now elim (Hnone _ H)].
  - intros j Hknown. apply image_known_app in Hknown.
    destruct Hknown as [H | H]; [now apply Hhistory | now elim (Hnone _ H)].
Qed.

End Preservation.

Lemma present_not_none (o : option string) : present o = true -> o <> None.
Proof.
  destruct o; [discriminate | discriminate].
Qed.

Lemma boundary_pair (ok : bool) (e : Event) :
  In e [EvParsed; EvSignature ok] -> boundary_event e.
Proof.
  intros [<- | [<- | []]]; [now left | right; now exists ok].
Qed.

Lemma boundary_prefixes (e : Event) :
  (In e [] -> boundary_event e) /\ (In e [EvParsed] -> boundary_event e).
Proof.
  split; [intros [] | intros [<- | []]; now left].
Qed.

(** Every reachable system keeps the image-tag invariant, and its history
    speaks only of Deployments that have a row. *)
Lemma reachable_keeps_image_invariant (s : State) :
  reachable s -> imageTag_iff_build_or_rollback s /\ history_has_rows s.
Proof.
  induction 1 as [us ps | o s Hreach IH].
  - split.
    + intros row [].
    + intros i [[] | [src []]].
  - destruct o as [w req | w user project | w user i | w user i | w i];
      cbn [run_operation].
    + destruct (POST_effect w req s)
        as (_ & [(Ht & _) | [(Ht & _) | [(Ht & _) | [(Ht & _) | Hgrown]]]]).
      * eapply (telling_preserves s _ IH); eauto. intros e. apply boundary_prefixes.
      * eapply (telling_preserves s _ IH); eauto. intros e. apply boundary_prefixes.
      * eapply (telling_preserves s _ IH); eauto. apply boundary_pair.
      * eapply (telling_preserves s _ IH); eauto. apply boundary_pair.
      * destruct Hgrown
          as (event & branch & p & row & _ & _ & _ & _ & Hrow & Hgrown & _).
        eapply (growth_preserves s _ IH row [EvParsed; EvSignature true] ByPush);
          eauto using boundary_pair.
        rewrite Hrow. cbn. split; [congruence | intros [src Hsrc]; discriminate].
    + destruct (triggerDeploy_effect w user project s)
        as [[-> _] | (p & token & commit & row & _ & _ & _ & _ & Hrow & Hgrown & _)];
        [exact IH |].
      eapply (growth_preserves s _ IH row [] ByTrigger); eauto.
      * intros e [].
      * rewrite Hrow. cbn. split; [congruence | intros [src Hsrc]; discriminate].
    + destruct (cancel_effect w user i s) as [-> | [Hfound Hs]]; [exact IH |].
      eapply (patch_preserves s _ IH i (cancelled w) []);
        [ now rewrite Hs
        | rewrite Hs; cbn; now rewrite app_nil_r
        | intros r; reflexivity
        | intros e []
        | right; split; [intros [] | intros r; reflexivity]
        | intros Habs; now elim Habs ].
    + destruct (rollback_effect w user i s)
        as [[-> _] | (source & row & _ & _ & Htag & Hrow & Hgrown & _)];
        [exact IH |].
      eapply (growth_preserves s _ IH row [] (ByRollback (Deployment.id source))); eauto.
      * intros e [].
      * rewrite Hrow. cbn. split; [eauto |].
        intros _. now apply present_not_none.
    + destruct (processDeployment_effect w i s)
        as (f & evs & paths & Hs & Hid & _ & Hevs & Htag & Hfound).
      eapply (patch_preserves s _ IH i f evs); eauto; now rewrite Hs.
Qed.

(** C2, as the code keeps it.  In every reachable system, a Deployment has
    an image tag exactly when a build of that record succeeded (the worker
    then wrote the tag together with the status deploying) or the record
    was created by a rollback, which copies the tag of the live record it
    goes back to. *)
Theorem imageTag_set_by_build_or_rollback (s : State) :
  reachable s -> imageTag_iff_build_or_rollback s.
Proof.
  intros Hreach. exact (proj1 (reachable_keeps_image_invariant s Hreach)).
Qed.

Lemma rolled_is_reachable : reachable Scenario.rolled.
Proof.
  exact (reachable_step _ _
           (reachable_step _ _
              (reachable_step _ _ (reachable_initial [Scenario.alice] [Scenario.app])))).
Qed.

Lemma imageTag_set_by_build_or_rollback_witness :
  reachable Scenario.rolled /\ imageTag_iff_build_or_rollback Scenario.rolled.
Proof.
  split; [exact rolled_is_reachable |].
  exact (imageTag_set_by_build_or_rollback Scenario.rolled rolled_is_reachable).
Defined.

Lemma find_deployment_in (i : string) (d : Database) (row : Deployment.row) :
  find_deployment i d = Some row ->
  Deployment.id row = i /\ In row (deployments d).
Proof.
  apply find_id.
Qed.

Lemma has_build_success_spec (i : string) (h : list Event) :
  build_succeeded i h <-> has_build_success i h = true.
Proof.
  unfold build_succeeded, has_build_success. rewrite existsb_exists. split.
  - intros Hin. exists (EvBuild i true). split; [exact Hin | apply String.eqb_refl].
  - intros (e & Hin & He). destruct e as [| | | j [|] | |]; try discriminate.
    apply String.eqb_eq in He. now subst.
Qed.

Lemma rolled_facts :
  exists row,
    find_deployment "d-2" (db Scenario.rolled) = Some row
    /\ Deployment.imageTag row <> None
    /\ has_build_success "d-2" (journal Scenario.rolled) = false.
Proof.
  eexists. split; [vm_compute; reflexivity |].
  split; [discriminate | vm_compute; reflexivity].
Qed.

(** After a rollback, the new record carries an image tag although no
    build of it ever ran. *)
Lemma imageTag_without_build :
  reachable Scenario.rolled /\ ~ imageTag_iff_build Scenario.rolled.
Proof.
  split; [exact rolled_is_reachable |].
  intros Hclaim. destruct rolled_facts as (row & Hrow & Htag & Hnever).
  destruct (find_deployment_in _ _ _ Hrow) as [Hid Hin].
  destruct (Hclaim row Hin) as [Hbuilt _].
  specialize (Hbuilt Htag). rewrite Hid in Hbuilt.
  pose proof (proj1 (has_build_success_spec _ _) Hbuilt) as Hyes.
  rewrite Hnever in Hyes. discriminate Hyes.
Qed.

(** ** Commit messages *)

#[local] Arguments substring0 : simpl never.

Lemma rollback_message_length (commit : string) :
  utf16_length ("Rollback to " ++ substring0 7 commit) <= 500.
Proof.
  pose proof (substring0_length 7 commit) as H.
  rewrite utf16_length_append.
  change (utf16_length "Rollback to ") with 12. lia.
Qed.

Lemma grown_bounded (s s' : State) (row : Deployment.row) (evs : list Event) :
  grown s s' row evs ->
  (forall m, Deployment.commitMsg row = Some m -> utf16_length m <= 500) ->
  messages_bounded s -> messages_bounded s'.
Proof.
  intros [_ ->] Hrow Hs r m Hin Hm. cbn in Hin.
  apply in_app_iff in Hin. destruct Hin as [Hin | [<- | []]].
  - exact (Hs r m Hin Hm).
  - exact (Hrow m Hm).
Qed.

(** In every reachable system, no stored commit message is longer than
    500 characters. *)
Lemma reachable_messages_bounded (s : State) : reachable s -> messages_bounded s.
Proof.
  induction 1 as [us ps | o s Hreach IH].
  - intros row m [].
  - destruct o as [w req | w user project | w user i | w user i | w i];
      cbn [run_operation].
    + destruct (POST_effect w req s)
        as (_ & [(-> & _) | [(-> & _) | [(-> & _) | [(-> & _) | Hgrown]]]]);
        try exact IH.
      destruct Hgrown
        as (event & branch & p & row & _ & _ & Hmsg & _ & _ & Hgrown & _).
      apply (grown_bounded _ _ _ _ Hgrown); [| exact IH].
      intros m Hm. exact (commit_message_bounded _ _ _ Hmsg Hm).
    + destruct (triggerDeploy_effect w user project s)
        as [[-> _] | (p & token & commit & row & _ & _ & _ & _ & Hrow & Hgrown & _)];
        [exact IH |].
      apply (grown_bounded _ _ _ _ Hgrown); [| exact IH].
      rewrite Hrow. cbn. intros m [= <-]. apply substring0_length.
    + destruct (cancel_effect w user i s) as [-> | [_ ->]]; [exact IH |].
      intros row' m Hin Hm. cbn in Hin. apply in_patch_rows in Hin.
      destruct Hin as (row & Hin & ->). apply (IH row m Hin).
      now destruct (String.eqb (Deployment.id row) i).
    + destruct (rollback_effect w user i s)
        as [[-> _] | (source & row & _ & _ & _ & Hrow & Hgrown & _)];
        [exact IH |].
      apply (grown_bounded _ _ _ _ Hgrown); [| exact IH].
      rewrite Hrow. cbn [Deployment.commitMsg new_deployment]. intros m [= <-].
      apply rollback_message_length.
    + destruct (processDeployment_effect w i s)
        as (f & evs & paths & -> & _ & Hmsg & _).
      intros row' m Hin Hm. cbn in Hin. apply in_patch_rows in Hin.
      destruct Hin as (row & Hin & ->). apply (IH row m Hin).
      destruct (String.eqb (Deployment.id row) i); [now rewrite <- Hmsg | exact Hm].
Qed.

Lemma grown_last_row (s s' : State) (row row' : Deployment.row) (evs : list Event) :
  grown s s' row evs ->
  deployments (db s') = (deployments (db s) ++ [row'])%list ->
  row' = row.
Proof.
  intros [_ ->] H. cbn in H. apply app_inv_head in H. now injection H.
Qed.

Lemma unchanged_not_grown (s : State) (row : Deployment.row) :
  deployments (db s) <> (deployments (db s) ++ [row])%list.
Proof.
  intros H. apply (f_equal (@length _)) in H. rewrite length_app in H.
  cbn in H. lia.
Qed.

(** C10.  A record created by the webhook stores, of the head commit's
    message in the body it parsed, the first 500 characters, and stores no
    message when the push has no head commit, or its message is absent or
    empty; a record created by the manual trigger stores the first 500
    characters of the message of the commit that GitHub answered as the
    latest.  Taking the first 500 characters keeps a message of up to 500
    whole, and of a longer one exactly 500, which are its front (the last
    of them written U+FFFD where the cut falls inside a surrogate pair).
    In every reachable system no stored commit message is longer than 500
    characters.  Characters are UTF-16 code units, as [length] and
    [substring] count them. *)
Theorem commitMsg_truncated_to_500 :
  (forall w req s row,
      deployments (db (snd (Route.POST w req s)))
        = (deployments (db s) ++ [row])%list ->
      exists decoded event,
        JSON_parse w (Route.body req) = Returned decoded
        /\ parsePushEvent (J decoded) = Returned (Some event)
        /\ (head_commit event = None -> Deployment.commitMsg row = None)
        /\ forall hc, head_commit event = Some hc ->
             (exists original,
                 hc_message hc = J (JString original)
                 /\ Deployment.commitMsg row
                    = if String.eqb original "" then None
                      else Some (substring0 500 original))
             \/ ((hc_message hc = Undefined \/ hc_message hc = J JNull)
                 /\ Deployment.commitMsg row = None))
  /\ (forall w user project s row,
        deployments (db (snd (Routers.triggerDeploy w user project s)))
          = (deployments (db s) ++ [row])%list ->
        exists p token commit,
          In p (projects (db s))
          /\ Project.id p = project
          /\ getGitHubAccessToken w user = Returned token
          /\ getLatestCommit w (render token)
               (nth 0 (split "/" (Project.repoFullName p)) "")
               (nth_error (split "/" (Project.repoFullName p)) 1)
               (Project.branch p) = Returned commit
          /\ fst (Routers.triggerDeploy w user project s) = Returned row
          /\ Deployment.commitSha row = sha commit
          /\ Deployment.commitMsg row = Some (substring0 500 (message commit)))
  /\ (forall original,
        utf16_length (substring0 500 original) = Nat.min 500 (utf16_length original)
        /\ (utf16_length original <= 500 -> substring0 500 original = original)
        /\ exists kept rest,
             original = kept ++ rest
             /\ (substring0 500 original = kept
                 \/ substring0 500 original = kept ++ replacement_character))
  /\ (forall s, reachable s -> messages_bounded s).
Proof.
  split; [| split; [| split; [| exact reachable_messages_bounded]]].
  - intros w req s row Hrows.
    destruct (POST_effect w req s)
      as (_ & [(Ht & _) | [(Ht & _) | [(Ht & _) | [(Ht & _) | Hgrown]]]]);
      try (rewrite Ht in Hrows; cbn in Hrows; now elim (unchanged_not_grown s row)).
    destruct Hgrown
      as (event & branch & p & row' & (_ & (decoded & Hjson & Hparse) & _) & _
          & Hmsg & _ & _ & Hgrown & _).
    rewrite (grown_last_row _ _ _ _ _ Hgrown Hrows) in *.
    exists decoded, event. split; [exact Hjson |]. split; [exact Hparse |].
    exact (commit_message_shape _ _ Hmsg).
  - intros w user project s row Hrows.
    destruct (triggerDeploy_effect w user project s)
      as [[Hs _] | (p & token & commit & row' & Hin & Hid & Htoken & Hcommit & Hrow
                    & Hgrown & Hret)].
    + rewrite Hs in Hrows. now elim (unchanged_not_grown s row).
    + rewrite (grown_last_row _ _ _ _ _ Hgrown Hrows) in *.
      exists p, token, commit.
      split; [exact Hin |]. split; [exact Hid |]. split; [exact Htoken |].
      split; [exact Hcommit |]. split; [exact Hret |].
      rewrite Hrow. split; reflexivity.
  - intros original. split; [apply substring0_units |].
    split; [apply substring0_whole | apply substring0_front].
Qed.

Lemma triggered_is_reachable : reachable Scenario.triggered.
Proof.
  exact (reachable_step _ _ (reachable_initial [Scenario.alice] [Scenario.app])).
Qed.

Lemma commitMsg_truncated_to_500_witness :
  reachable Scenario.triggered /\ messages_bounded Scenario.triggered.
Proof.
  split; [exact triggered_is_reachable |].
  exact (proj2 (proj2 (proj2 commitMsg_truncated_to_500)) Scenario.triggered
           triggered_is_reachable).
Defined.

(** ** The webhook endpoint *)

Lemma told_parts (s s' : State) (evs : list Event) :
  told s s' evs -> db s' = db s /\ journal s' = (journal s ++ evs)%list.
Proof.
  intros ->. now split.
Qed.

Lemma push_for_unique (w : World) (req : Route.Request) (s : State)
    (event event' : PushEvent) (branch branch' : string)
    (project project' : Project.row) :
  push_for w req s event branch project ->
  push_for w req s event' branch' project' ->
  event' = event /\ branch' = branch /\ project' = project.
Proof.
  intros (_ & (decoded & Hjson & Hparse) & Hbranch & (name & Hname & Hfind))
         (_ & (decoded' & Hjson' & Hparse') & Hbranch' & (name' & Hname' & Hfind')).
  rewrite Hjson in Hjson'. injection Hjson' as <-.
  rewrite Hparse in Hparse'. injection Hparse' as <-.
  rewrite Hbranch in Hbranch'. injection Hbranch' as <-.
  rewrite Hname in Hname'. injection Hname' as <-.
  rewrite Hfind in Hfind'. injection Hfind' as <-.
  now repeat split.
Qed.

(** C6, as the code does it.  The endpoint filters on the event type,
    decodes and parses the body, extracts the branch, looks up the project
    that deploys this branch of the pushed repository, and only then
    verifies the signature of the raw body under the secret of that
    project; the Deployment record is created last, for that project.  So:
    the endpoint always answers; the history of a request is a prefix of
    parsed, signature checked, record inserted, and the response is 401
    exactly when it stops at a signature that failed; a record is created
    only for a push that parsed, matched a project and verified under the
    matched project's secret; a push that matched a project whose secret
    does not verify it is answered 401 and creates nothing, whatever the
    secrets of the other projects; and a 401 is only ever given to such a
    push. *)
Theorem webhook_parses_then_verifies_then_creates
    (w : World) (req : Route.Request) (s : State) :
  (exists resp, fst (Route.POST w req s) = Returned resp)
  /\ (exists evs,
        journal (snd (Route.POST w req s)) = (journal s ++ evs)%list
        /\ webhook_history evs
        /\ (fst (Route.POST w req s) = Returned unauthorized
            <-> evs = [EvParsed; EvSignature false]))
  /\ (deployments (db (snd (Route.POST w req s))) <> deployments (db s) ->
      exists event branch project row,
        push_for w req s event branch project
        /\ verifyWebhookSignature (Route.body req) (Route.x_hub_signature_256 req)
             (Project.webhookSecret project) = Returned true
        /\ deployments (db (snd (Route.POST w req s)))
           = (deployments (db s) ++ [row])%list
        /\ Deployment.projectId row = Project.id project
        /\ Deployment.status row = pending
        /\ sql_text w (after event) = Some (Deployment.commitSha row))
  /\ (forall event branch project,
        push_for w req s event branch project ->
        verifyWebhookSignature (Route.body req) (Route.x_hub_signature_256 req)
          (Project.webhookSecret project) = Returned false ->
        fst (Route.POST w req s) = Returned unauthorized
        /\ db (snd (Route.POST w req s)) = db s)
  /\ (fst (Route.POST w req s) = Returned unauthorized ->
      db (snd (Route.POST w req s)) = db s
      /\ exists event branch project,
           push_for w req s event branch project
           /\ verifyWebhookSignature (Route.body req) (Route.x_hub_signature_256 req)
                (Project.webhookSecret project) = Returned false).
Proof.
  destruct (POST_effect w req s)
    as (Hresp & [(Ht & Hr & Hno) | [(Ht & Hr & Hno) | [(Ht & Hr & Hp)
                | [(Ht & Hr & Hp) | Hgrown]]]]).
  - destruct (told_parts _ _ _ Ht) as [Hdb Hj].
    split; [exact Hresp |]. split.
    { exists []. split; [exact Hj |]. split; [now left |].
      split; [intros H; now elim Hr | discriminate]. }
    split; [intros H; rewrite Hdb in H; now elim H |].
    split; [intros event branch project Hfor; now elim (Hno event branch project) |].
    intros H. now elim Hr.
  - destruct (told_parts _ _ _ Ht) as [Hdb Hj].
    split; [exact Hresp |]. split.
    { exists [EvParsed]. split; [exact Hj |]. split; [right; now left |].
      split; [intros H; now elim Hr | discriminate]. }
    split; [intros H; rewrite Hdb in H; now elim H |].
    split; [intros event branch project Hfor; now elim (Hno event branch project) |].
    intros H. now elim Hr.
  - destruct (told_parts _ _ _ Ht) as [Hdb Hj].
    split; [exact Hresp |]. split.
    { exists [EvParsed; EvSignature false]. split; [exact Hj |].
      split; [right; right; now left |]. split; [reflexivity | intros _; exact Hr]. }
    split; [intros H; rewrite Hdb in H; now elim H |].
    split; [intros event branch project _ _; now split |].
    intros _. split; [exact Hdb | exact Hp].
  - destruct (told_parts _ _ _ Ht) as [Hdb Hj].
    destruct Hp as (event & branch & project & Hfor & Hok).
    split; [exact Hresp |]. split.
    { exists [EvParsed; EvSignature true]. split; [exact Hj |].
      split; [right; right; right; now left |].
      split; [rewrite Hr; discriminate | discriminate]. }
    split; [intros H; rewrite Hdb in H; now elim H |].
    split; [| rewrite Hr; discriminate].
    intros event' branch' project' Hfor' Hbad.
    destruct (push_for_unique _ _ _ _ _ _ _ _ _ Hfor Hfor') as (_ & _ & ->).
    rewrite Hok in Hbad. discriminate Hbad.
  - destruct Hgrown
      as (event & branch & project & row & Hfor & Hok & _ & Hsha & Hrow & [_ Hs] & Hr).
    assert (Hnot : fst (Route.POST w req s) <> Returned unauthorized).
    { destruct Hr as [[_ ->] | [_ ->]]; discriminate. }
    split; [exact Hresp |]. split.
    { exists [EvParsed; EvSignature true; EvInserted (Deployment.id row) ByPush].
      split; [now rewrite Hs |].
      split; [right; right; right; right; now exists (Deployment.id row) |].
      split; [intros H; now elim Hnot | discriminate]. }
    split.
    { intros _. exists event, branch, project, row.
      split; [exact Hfor |]. split; [exact Hok |].
      split; [now rewrite Hs |]. split; [now rewrite Hrow |].
      split; [now rewrite Hrow | exact Hsha]. }
    split; [| intros H; now elim Hnot].
    intros event' branch' project' Hfor' Hbad.
    destruct (push_for_unique _ _ _ _ _ _ _ _ _ Hfor Hfor') as (_ & _ & ->).
    rewrite Hok in Hbad. discriminate Hbad.
Qed.

Lemma webhook_parses_then_verifies_then_creates_witness :
  fst (Route.POST (Scenario.fine "d-3") Scenario.unsigned_push Scenario.start)
    = Returned unauthorized
  /\ db (snd (Route.POST (Scenario.fine "d-3") Scenario.unsigned_push Scenario.start))
     = db Scenario.start.
Proof.
  assert (Hanswer :
    fst (Route.POST (Scenario.fine "d-3") Scenario.unsigned_push Scenario.start)
    = Returned unauthorized) by (vm_compute; reflexivity).
  split; [exact Hanswer |].
  exact (proj1 (proj2 (proj2 (proj2 (proj2
           (webhook_parses_then_verifies_then_creates (Scenario.fine "d-3")
              Scenario.unsigned_push Scenario.start)))) Hanswer)).
Defined.

(** A push that nobody signed and that carries an empty object is answered
    400 "Invalid payload", not 401: the body is parsed before any signature
    is looked at, and a request the parser refuses never reaches the
    verifier. *)
Lemma unsigned_push_answered_invalid_payload :
  (forall project, In project (projects (db Scenario.start)) ->
     verifyWebhookSignature (Route.body Scenario.unsigned_empty)
       (Route.x_hub_signature_256 Scenario.unsigned_empty)
       (Project.webhookSecret project) = Returned false)
  /\ fst (Route.POST (Scenario.fine "d-3") Scenario.unsigned_empty Scenario.start)
     = Returned {| Route.status_code := 400;
                   Route.json := Route.ErrorBody "Invalid payload" |}
  /\ fst (Route.POST (Scenario.fine "d-3") Scenario.unsigned_empty Scenario.start)
     <> Returned unauthorized.
Proof.
  split; [| split].
  - intros project _. reflexivity.
  - vm_compute. reflexivity.
  - vm_compute. discriminate.
Qed.

(** ** Rollback records in the worker *)

(** C4.  The worker does not look at [imageTag]: the record that a rollback
    created with the image already resolved is set to building and built
    again; here GitHub cannot be reached, the build fails and the rollback
    ends failed, although the image it needed was there. *)
Theorem processDeployment_builds_rollback_record :
  (exists row,
     find_deployment "d-2" (db Scenario.rolled) = Some row
     /\ Deployment.status row = pending
     /\ Deployment.imageTag row = Some "registry/app:abc1234")
  /\ journal (run_operation (OpProcess Scenario.offline "d-2") Scenario.rolled)
     = (journal Scenario.rolled ++ [EvBuild "d-2" false])%list
  /\ (exists row,
        find_deployment "d-2"
          (db (run_operation (OpProcess Scenario.offline "d-2") Scenario.rolled))
        = Some row
        /\ Deployment.status row = failed
        /\ Deployment.error row = Some "getaddrinfo ENOTFOUND api.github.com").
Proof.
  split; [| split].
  - eexists. split; [vm_compute; reflexivity | split; reflexivity].
  - vm_compute. reflexivity.
  - eexists. split; [vm_compute; reflexivity | split; reflexivity].
Qed.

(** The part of the rollback contract the router does keep: from a live
    record with an image, a new pending record with the same commit and the
    same image tag and a message naming the source; otherwise a rejection
    that changes nothing. *)
Lemma rollback_creates_pending_copy (w : World) (user i : string) (s : State) :
  (snd (Routers.rollback w user i s) = s
   /\ exists e, fst (Routers.rollback w user i s) = Thrown e)
  \/ exists source row,
       find_deployment i (db s) = Some source
       /\ Deployment.status source = live
       /\ Deployment.imageTag source <> None
       /\ fst (Routers.rollback w user i s) = Returned row
       /\ deployments (db (snd (Routers.rollback w user i s)))
          = (deployments (db s) ++ [row])%list
       /\ Deployment.status row = pending
       /\ Deployment.commitSha row = Deployment.commitSha source
       /\ Deployment.imageTag row = Deployment.imageTag source
       /\ Deployment.commitMsg row
          = Some ("Rollback to " ++ substring0 7 (Deployment.commitSha source)).
Proof.
  destruct (rollback_effect w user i s)
    as [Hrejected | (source & row & Hsource & Hlive & Htag & Hrow & [_ Hs] & Hret)];
    [now left | right].
  exists source, row. split; [exact Hsource |]. split; [exact Hlive |].
  split; [now apply present_not_none |]. split; [exact Hret |].
  split; [now rewrite Hs |]. rewrite Hrow. repeat split.
Qed.

(** A rollback of a record that is not live, or has no image, is rejected
    with BAD_REQUEST and changes nothing. *)
Lemma rollback_rejected (w : World) (user i : string) (s : State)
    (d : Deployment.row) (p : Project.row) :
  find_deployment i (db s) = Some d ->
  find_project (Deployment.projectId d) (db s) = Some p ->
  Project.userId p = user ->
  Deployment.status d <> live \/ present (Deployment.imageTag d) = false ->
  Routers.rollback w user i s
  = (Settled (Thrown (TRPCError BAD_REQUEST
                        (Some "Can only rollback to successful deployments with an image"))),
     s).
Proof.
  intros Hd Hp Hu Hnot. unfold Routers.rollback, Routers.owned, Routers.find_with_project.
  run. rewrite Hd, Hp, Hu, String.eqb_refl. cbn.
  assert (Hguard : negb (status_eqb (Deployment.status d) live)
                   || negb (present (Deployment.imageTag d)) = true).
  { destruct Hnot as [Hstatus | ->]; [| apply orb_true_r].
    destruct (Deployment.status d); try reflexivity. now elim Hstatus. }
  now rewrite Hguard.
Qed.

Ltac event_found := rewrite ?in_app_iff; cbn [In]; tauto.

(** The worker builds whatever the record holds: whenever it finds the
    record, its project and a token, [buildProject] runs, also for a record
    whose image tag is already there: its result is in the history, or the
    build did not settle because tar could not be started. *)
Lemma processDeployment_always_builds (w : World) (i : string) (s : State)
    (d : Deployment.row) (p : Project.row) (token : string) :
  find_deployment i (db s) = Some d ->
  find_project (Deployment.projectId d) (db s) = Some p ->
  getGitHubAccessToken w (Project.userId p) = Returned (Some token) ->
  token <> "" ->
  (exists ok, In (EvBuild i ok) (journal (snd (Worker.processDeployment w i s))))
  \/ (~ started (tar_of_build w)
      /\ exists e, fst (Worker.processDeployment w i s) = Uncaught e).
Proof.
  intros Hd Hp Htoken Hne.
  destruct (buildProject_returns w (Worker.build_options p d w token))
    as [(e & Hnot & Hrun) | (r & _ & Hrun)].
  { right. split; [exact Hnot |]. exists e.
    unfold Worker.processDeployment, Worker.find_with_project_user.
    run. rewrite Hd, Hp. cbn. rewrite Htoken. cbn [render].
    rewrite present_some by exact Hne. cbn [negb].
    match goal with
    | |- context [Builder.buildProject w ?o ?st] =>
        destruct (Hrun st) as (paths & ->)
    end.
    reflexivity. }
  left.
  unfold Worker.processDeployment, Worker.find_with_project_user, Worker.publish_dns.
  run. rewrite Hd, Hp. cbn. rewrite Htoken. cbn [render].
  rewrite present_some by exact Hne. cbn [negb].
  match goal with
  | |- context [Builder.buildProject w ?o ?st] =>
      destruct (Hrun st) as (paths & ->)
  end.
  cbn.
  exists (Builder.success r).
  destruct (Builder.success r); cbn; [| event_found].
  destruct (decryptJson w _); cbn; [| event_found].
  destruct (deploy_success _); cbn; [| event_found].
  destruct (find_user _ _) as [u |]; cbn; [| event_found].
  destruct (present (User.cloudflareToken u) && present (User.cloudflareZone u));
    cbn; [| event_found].
  destruct (setupProjectDns w _ _ _ _) as [[] |]; cbn; [| event_found].
  destruct (present (Project.customDomain p)); cbn; [| event_found].
  destruct (setupProjectDns w _ _ _ _) as [[] |]; cbn; event_found.
Qed.

(** The end-to-end scenario of the specification: a signed push to the
    tracked branch creates one pending Deployment for the pushed commit. *)
Example signed_push_creates_pending_record :
  fst (Route.POST (Scenario.fine "d-1") Scenario.signed_push Scenario.start)
  = Returned {| Route.status_code := 200;
                Route.json := Route.Triggered "Deployment triggered" "d-1" |}
  /\ deployments
       (db (snd (Route.POST (Scenario.fine "d-1") Scenario.signed_push Scenario.start)))
     = [new_deployment (Scenario.fine "d-1") "p-app" "abc1234def"
          (Some "Fix the build") None].
Proof.
  split; vm_compute; reflexivity.
Qed.

(** A push that carries a number where the commit is expected: the number
    is stored as the text the driver writes for it, the record is created,
    and the message that is logged next fails on [substring]: the answer is
    500 although the Deployment exists. *)
Example numbered_push_creates_record_and_fails :
  fst (Route.POST (Scenario.fine "d-1") (Scenario.signed Scenario.numbered_body)
         Scenario.start)
  = Returned {| Route.status_code := 500;
                Route.json := Route.ErrorBody "Internal server error" |}
  /\ deployments
       (db (snd (Route.POST (Scenario.fine "d-1")
                   (Scenario.signed Scenario.numbered_body) Scenario.start)))
     = [new_deployment (Scenario.fine "d-1") "p-app" "1234567" None None].
Proof.
  split; vm_compute; reflexivity.
Qed.

(** A push whose repository has no name matches no project: the name is
    compared as NULL. *)
Example nameless_push_matches_no_project :
  fst (Route.POST (Scenario.fine "d-1") (Scenario.signed Scenario.nameless_body)
         Scenario.start)
  = Returned {| Route.status_code := 200;
                Route.json := Route.Message "No matching project found" |}
  /\ db (snd (Route.POST (Scenario.fine "d-1")
                (Scenario.signed Scenario.nameless_body) Scenario.start))
     = db Scenario.start.
Proof.
  split; vm_compute; reflexivity.
Qed.

(* ====================================================================== *)
(** * Further properties of the code                                      *)
(* ====================================================================== *)

(** ** Refs and payloads *)

Lemma strip_prefix_spec (p s t : string) :
  strip_prefix p s = Some t <-> s = p ++ t.
Proof.
  revert s. induction p as [| a p IH]; intros s; cbn.
  - split; [now intros [= ->] | now intros ->].
  - destruct s as [| b s]; [split; discriminate |].
    destruct (Ascii.eqb_spec a b) as [-> | Hne].
    + rewrite IH. split; [now intros -> | now intros [= ->]].
    + split; [discriminate | intros [= Hab _]; now elim Hne].
Qed.

(** X1.  On a string, the branch extractor never throws, and it answers
    with a branch exactly for the refs that are "refs/heads/" followed by a
    non-empty branch name without line terminator: the name it returns put
    after the prefix gives the ref back. *)
Theorem extractBranchFromRef_exact (r : string) :
  (exists answer, extractBranchFromRef (J (JString r)) = Returned answer)
  /\ forall b,
       extractBranchFromRef (J (JString r)) = Returned (Some b)
       <-> r = "refs/heads/" ++ b /\ b <> ""
           /\ has_line_terminator b = false.
Proof.
  unfold extractBranchFromRef. split.
  - destruct (strip_prefix "refs/heads/" r) as [t |]; [| eauto].
    destruct (_ && _); eauto.
  - intros b. destruct (strip_prefix "refs/heads/" r) as [t |] eqn:Hstrip.
    + apply strip_prefix_spec in Hstrip.
      destruct (String.eqb_spec t "") as [Hempty | Hfull]; cbn [negb andb].
      * split; [discriminate |]. intros (Hr & Hb & _). rewrite Hr in Hstrip.
        injection Hstrip as Heq. congruence.
      * destruct (has_line_terminator t) eqn:Hline; cbn [negb].
        -- split; [discriminate |]. intros (Hr & _ & Hno). rewrite Hr in Hstrip.
           injection Hstrip as Heq. congruence.
        -- split.
           ++ intros [= <-]. auto.
           ++ intros (Hr & _ & _). rewrite Hr in Hstrip.
              injection Hstrip as Heq. now subst.
    + split; [discriminate |]. intros (Hr & _ & _).
      assert (Hsome : strip_prefix "refs/heads/" r = Some b)
        by now apply strip_prefix_spec.
      congruence.
Qed.

(** X2.  What an event returned by the parser is known to be: the payload
    was an object (never an array or a scalar), [ref] and [after] are truthy
    and are the payload's own, and [full_name] is whatever the payload's
    [repository] holds under that key.  And the parser throws only for an
    object that has the three tested fields and whose [pusher] is missing
    or null. *)
Theorem parsePushEvent_guarantees (payload : JsVal) :
  (forall e,
      parsePushEvent payload = Returned (Some e) ->
      exists fields,
        payload = J (JObject fields)
        /\ ref e = lookup "ref" fields /\ truthy (ref e) = true
        /\ after e = lookup "after" fields /\ truthy (after e) = true
        /\ truthy (lookup "repository" fields) = true
        /\ prop (lookup "repository" fields) "full_name"
           = Returned (repository_full_name e)
        /\ (head_commit e = None <-> truthy (lookup "head_commit" fields) = false))
  /\ (forall x,
        parsePushEvent payload = Thrown x ->
        exists fields,
          payload = J (JObject fields)
          /\ truthy (lookup "ref" fields) = true
          /\ truthy (lookup "after" fields) = true
          /\ truthy (lookup "repository" fields) = true
          /\ (lookup "pusher" fields = Undefined \/ lookup "pusher" fields = J JNull)).
Proof.
  unfold parsePushEvent.
  destruct payload as [| [| b | q | s | items | fields]]; cbn;
    try (split; intros ?; discriminate).
  - destruct b; split; intros ?; discriminate.
  - destruct (negb (Qeq_bool q 0)); split; intros ?; discriminate.
  - destruct (negb (s =? "")); split; intros ?; discriminate.
  - destruct (truthy (lookup "ref" fields)) eqn:Href; cbn;
      [| split; intros ?; discriminate].
    destruct (truthy (lookup "after" fields)) eqn:Hafter; cbn;
      [| split; intros ?; discriminate].
    destruct (truthy (lookup "repository" fields)) eqn:Hrepo; cbn;
      [| split; intros ?; discriminate].
    destruct (prop (lookup "repository" fields) "full_name") as [full |] eqn:Hfull;
      [| destruct (lookup "repository" fields) as [| []]; discriminate].
    cbn.
    assert (Hhc : forall v k, truthy v = true -> exists x, prop v k = Returned x).
    { intros [| []] k Hv; try discriminate; cbn; eauto. }
    destruct (truthy (lookup "head_commit" fields)) eqn:Hhead.
    + destruct (Hhc _ "id" Hhead) as [i ->].
      destruct (Hhc _ "message" Hhead) as [m ->]. cbn.
      destruct (lookup "pusher" fields) as [| [| | | | |]] eqn:Hpusher; cbn.
      all: split; intros ? H.
      all: try discriminate H.
      all: try (exists fields; auto 10; fail).
      all: injection H as <-; exists fields; cbn.
      all: repeat (split; [first [reflexivity | assumption] |]).
      all: split; [discriminate | rewrite Hhead; discriminate].
    + cbn.
      destruct (lookup "pusher" fields) as [| [| | | | |]] eqn:Hpusher; cbn.
      all: split; intros ? H.
      all: try discriminate H.
      all: try (exists fields; auto 10; fail).
      all: injection H as <-; exists fields; cbn.
      all: repeat (split; [first [reflexivity | assumption] |]).
      all: split; [intros _; exact Hhead | reflexivity].
Qed.

(** ** Resource quantities with a unit *)















(** ** The builder: what it reports and what it touches *)








#[local] Arguments Builder.workDir_of : simpl never.
#[local] Arguments Builder.remove_tree : simpl never.
#[local] Arguments Builder.add_path : simpl never.



(** X7.  A build is reported successful only when every step before it
    went through: the work directory was made, the source downloaded,
    written and unpacked by a tar that exited with 0, the look for a
    Dockerfile answered, and the chosen strategy succeeded.  The result then
    carries no error and the tag computed from the options. *)
Theorem buildProject_success_needs_every_step
    (w : World) (o : Builder.BuildOptions) (s : State) (r : Builder.BuildResult) :
  fst (Builder.buildProject w o s) = Returned r ->
  Builder.success r = true ->
  mkdir w (Builder.workDir_of w) = Returned tt
  /\ (exists n, downloadRepository w (Builder.accessToken o) (Builder.owner o)
                  (Builder.repo o) (Builder.commitSha o) = Returned n)
  /\ writeFile w (Builder.workDir_of w ++ "/repo.tar.gz") = Returned tt
  /\ (exists out,
        spawn w "tar"
          ["-xzf"; Builder.workDir_of w ++ "/repo.tar.gz"; "-C";
           Builder.workDir_of w; "--strip-components=1"]
          (Builder.workDir_of w) = Exited 0 out)
  /\ (exists useDockerfile,
        hasDockerfile w (Builder.accessToken o) (Builder.owner o) (Builder.repo o)
          (Builder.branch o) = Returned useDockerfile
        /\ fst (if useDockerfile
                then Builder.buildWithDockerfile w (Builder.workDir_of w)
                       (Builder.imageTag_of o) (Builder.registryUrl o)
                       (Builder.registryUsername o) (Builder.registryPassword o)
                else Builder.buildWithBuildpacks w (Builder.workDir_of w)
                       (Builder.imageTag_of o) (Builder.registryUrl o)
                       (Builder.registryUsername o) (Builder.registryPassword o))
           = true)
  /\ Builder.error r = None
  /\ Builder.imageTag r = Builder.imageTag_of o.
Proof.
  destruct s as [d paths h]. revert r.
  unfold Builder.buildProject, Builder.extractTarball, Builder.do_mkdir,
    Builder.do_writeFile, Builder.do_rm. run.
  destruct (mkdir w (Builder.workDir_of w)) as [[] |].
  2: { intros r; try destruct (rm w _) as [[] |]; cbn [fst snd];
       intros H; first [discriminate H | injection H as <-; discriminate]. }
  destruct (downloadRepository w _ _ _ _) as [n |].
  2: { intros r; try destruct (rm w _) as [[] |]; cbn [fst snd];
       intros H; first [discriminate H | injection H as <-; discriminate]. }
  destruct (writeFile w _) as [[] |].
  2: { intros r; try destruct (rm w _) as [[] |]; cbn [fst snd];
       intros H; first [discriminate H | injection H as <-; discriminate]. }
  destruct (spawn w "tar" _ _) as [[| code | code] out |].
  2-4: intros r; try destruct (rm w _) as [[] |]; cbn [fst snd];
       intros H; first [discriminate H | injection H as <-; discriminate].
  destruct (hasDockerfile w _ _ _ _) as [useDockerfile |].
  2: { intros r; try destruct (rm w _) as [[] |]; cbn [fst snd];
       intros H; first [discriminate H | injection H as <-; discriminate]. }
  intros r Hrun Hok.
  assert (Hr : Builder.success r
               = fst (if useDockerfile
                      then Builder.buildWithDockerfile w (Builder.workDir_of w)
                             (Builder.imageTag_of o) (Builder.registryUrl o)
                             (Builder.registryUsername o) (Builder.registryPassword o)
                      else Builder.buildWithBuildpacks w (Builder.workDir_of w)
                             (Builder.imageTag_of o) (Builder.registryUrl o)
                             (Builder.registryUsername o) (Builder.registryPassword o))
               /\ Builder.error r
                  = (if Builder.success r then None else Some "Build failed")
               /\ Builder.imageTag r = Builder.imageTag_of o).
  { destruct (rm w _) as [[] |]; cbn [fst snd] in Hrun; injection Hrun as <-;
      repeat split. }
  destruct Hr as (Hsuccess & Herror & Htag).
  rewrite Hok in Herror. rewrite Hok in Hsuccess.
  repeat split; try assumption.
  - now exists n.
  - now exists out.
  - exists useDockerfile. split; [reflexivity | now symmetry].
Qed.

Lemma buildProject_success_needs_every_step_witness :
  exists out,
    spawn (Scenario.fine "b-1") "tar"
      ["-xzf"; "/tmp/autotunchi-builds/b-1/repo.tar.gz"; "-C";
       "/tmp/autotunchi-builds/b-1"; "--strip-components=1"]
      "/tmp/autotunchi-builds/b-1" = Exited 0 out.
Proof.
  assert (Hrun : exists r,
    fst (Builder.buildProject (Scenario.fine "b-1") Scenario.options Scenario.start)
    = Returned r /\ Builder.success r = true).
  { eexists. split; vm_compute; reflexivity. }
  destruct Hrun as (r & Hfst & Hok).
  exact (proj1 (proj2 (proj2 (proj2
           (buildProject_success_needs_every_step (Scenario.fine "b-1")
              Scenario.options Scenario.start r Hfst Hok))))).
Defined.

(** X8.  With a Dockerfile the image counts as built exactly when the
    login (made only when user name and password are both given), the
    build and the push each exited with 0. *)
Theorem buildWithDockerfile_success_iff
    (w : World) (sourceDir imageTag : string)
    (registryUrl registryUsername registryPassword : option string) :
  fst (Builder.buildWithDockerfile w sourceDir imageTag registryUrl
         registryUsername registryPassword) = true
  <-> (present registryUsername && present registryPassword = true ->
       exists out,
         spawn w "docker"
           ["login"; render registryUrl; "-u"; render registryUsername;
            "--password-stdin"] sourceDir = Exited 0 out)
      /\ (exists out,
            spawn w "docker" ["build"; "-t"; imageTag; "."] sourceDir = Exited 0 out)
      /\ (exists out, spawn w "docker" ["push"; imageTag] sourceDir = Exited 0 out).
Proof.
  unfold Builder.buildWithDockerfile, Builder.runCommand.
  destruct (present registryUsername && present registryPassword);
    cbv zeta; cbn [fst snd negb].
  - destruct (spawn w "docker" ("login" :: _) sourceDir) as [[| c | c] lo | lo lm];
      cbn [fst snd negb Z.eqb].
    2-4: split; [discriminate |];
         intros (Hlogin & _); destruct (Hlogin eq_refl) as (x & Hx); discriminate Hx.
    destruct (spawn w "docker" ("build" :: _) sourceDir) as [[| c | c] bo | bo bm];
      cbn [fst snd negb Z.eqb].
    2-4: split; [discriminate |];
         intros (_ & (x & Hx) & _); discriminate Hx.
    destruct (spawn w "docker" ("push" :: _) sourceDir) as [[| c | c] po | po pm];
      cbn [fst snd negb Z.eqb].
    2-4: split; [discriminate |];
         intros (_ & _ & (x & Hx)); discriminate Hx.
    split; [| reflexivity]. intros _.
    split; [intros _; now exists lo | split; [now exists bo | now exists po]].
  - destruct (spawn w "docker" ("build" :: _) sourceDir) as [[| c | c] bo | bo bm];
      cbn [fst snd negb Z.eqb].
    2-4: split; [discriminate |];
         intros (_ & (x & Hx) & _); discriminate Hx.
    destruct (spawn w "docker" ("push" :: _) sourceDir) as [[| c | c] po | po pm];
      cbn [fst snd negb Z.eqb].
    2-4: split; [discriminate |];
         intros (_ & _ & (x & Hx)); discriminate Hx.
    split; [| reflexivity]. intros _.
    split; [discriminate | split; [now exists bo | now exists po]].
Qed.

(** X9.  The result of a build is consistent: it has an error message
    exactly when it is not a success, and the message is either the fixed
    text of a failed build or the message of the exception that stopped the
    run, which then also closes the logs. *)
Theorem buildProject_error_iff_failure
    (w : World) (o : Builder.BuildOptions) (s : State) (r : Builder.BuildResult) :
  fst (Builder.buildProject w o s) = Returned r ->
  (Builder.success r = true <-> Builder.error r = None)
  /\ forall m, Builder.error r = Some m ->
       m = "Build failed"
       \/ exists before,
            Builder.logs r = before ++ nl ++ "=== Error ===" ++ nl ++ m ++ nl.
Proof.
  destruct s as [d paths h]. revert r.
  builder_cases w; intros r;
    try destruct (rm w (Builder.workDir_of w)) as [[] |];
    cbn [fst snd]; intros Hr;
    first [discriminate Hr | injection Hr as <-];
    cbn [Builder.success Builder.error Builder.logs].
  all: try (split; [split; discriminate |];
            intros m Hm; injection Hm as <-; right;
            first
              [ exists ""; reflexivity
              | exists ("=== Downloading source ===" ++ nl); reflexivity
              | match goal with
                | n : nat |- _ =>
                    first
                      [ exists ("=== Downloading source ===" ++ nl ++ "Downloaded "
                                  ++ string_of_nat n ++ " bytes" ++ nl); reflexivity
                      | exists (("=== Downloading source ===" ++ nl ++ "Downloaded "
                                   ++ string_of_nat n ++ " bytes" ++ nl)
                                  ++ "Extracted to " ++ Builder.workDir_of w ++ nl);
                        reflexivity ]
                end ]).
  all: match goal with
       | |- context [fst ?p] => destruct (fst p)
       end;
       (split; [first [now split | split; discriminate] |]);
       intros m Hm; first [discriminate Hm | injection Hm as <-; now left].
Qed.

Lemma buildProject_error_iff_failure_witness :
  exists r,
    fst (Builder.buildProject Scenario.offline Scenario.options Scenario.start)
    = Returned r
    /\ Builder.success r = false
    /\ Builder.error r = Some "getaddrinfo ENOTFOUND api.github.com".
Proof.
  assert (Hrun : exists r,
    fst (Builder.buildProject Scenario.offline Scenario.options Scenario.start)
    = Returned r
    /\ Builder.error r = Some "getaddrinfo ENOTFOUND api.github.com").
  { eexists. split; vm_compute; reflexivity. }
  destruct Hrun as (r & Hfst & Herror).
  destruct (buildProject_error_iff_failure Scenario.offline Scenario.options
              Scenario.start r Hfst) as [Hiff _].
  exists r. split; [exact Hfst |]. split; [| exact Herror].
  destruct (Builder.success r); [| reflexivity].
  rewrite (proj1 Hiff eq_refl) in Herror. discriminate Herror.
Defined.

(** ** The worker: runs that fail *)

Lemma find_patched (i : string) (f : Deployment.row -> Deployment.row)
    (d : Database) (row : Deployment.row) :
  keeps_id f ->
  find_deployment i d = Some row ->
  find (fun r => String.eqb (Deployment.id r) i) (patch_rows i f (deployments d))
  = Some (f row).
Proof.
  intros Hf Hrow. unfold find_deployment in Hrow.
  rewrite find_patch_rows by exact Hf. rewrite Hrow. cbn.
  destruct (find_id _ _ _ Hrow) as [-> _]. now rewrite String.eqb_refl.
Qed.

(** X10.  When the build returns a failure, the run ends with the record
    failed: the error is the builder's message, the build logs are kept,
    [finishedAt] is stamped, the image tag is what it was, and provisioning
    is never attempted: the history gains the failed build and nothing
    else. *)
Theorem processDeployment_failed_build
    (w : World) (i : string) (s : State) (d : Deployment.row) (p : Project.row)
    (token : string) (r : Builder.BuildResult) :
  find_deployment i (db s) = Some d ->
  find_project (Deployment.projectId d) (db s) = Some p ->
  getGitHubAccessToken w (Project.userId p) = Returned (Some token) ->
  token <> "" ->
  fst (Builder.buildProject w (Worker.build_options p d w token) s) = Returned r ->
  Builder.success r = false ->
  fst (Worker.processDeployment w i s) = Returned tt
  /\ journal (snd (Worker.processDeployment w i s))
     = (journal s ++ [EvBuild i false])%list
  /\ exists row,
       find_deployment i (db (snd (Worker.processDeployment w i s))) = Some row
       /\ Deployment.status row = failed
       /\ Deployment.error row = Some (or_else (Builder.error r) "Build failed")
       /\ Deployment.buildLogs row = Some (Builder.logs r)
       /\ Deployment.finishedAt row = Some (now w)
       /\ Deployment.imageTag row = Deployment.imageTag d
       /\ Deployment.commitSha row = Deployment.commitSha d
       /\ Deployment.commitMsg row = Deployment.commitMsg d.
Proof.
  intros Hd Hp Htok Hne Hbuild Hbad.
  destruct s as [[us ps rows] paths h].
  unfold Worker.processDeployment, Worker.find_with_project_user.
  run. cbn [db users projects deployments fs journal] in *.
  rewrite Hd, Hp. cbn. rewrite Htok. cbn [render].
  rewrite present_some by exact Hne. cbn [negb].
  destruct (buildProject_returns w (Worker.build_options p d w token))
    as [(e & _ & Hrun) | (r' & _ & Hrun)];
    match type of Hbuild with
    | fst (Builder.buildProject w ?o ?st) = _ =>
        destruct (Hrun st) as (paths0 & Hs); rewrite Hs in Hbuild;
        cbn [fst] in Hbuild
    end; [discriminate Hbuild |].
  injection Hbuild as ->.
  match goal with
  | |- context [Builder.buildProject w ?o ?st] =>
      destruct (Hrun st) as (paths1 & ->)
  end.
  cbn. rewrite Hbad. cbn.
  split; [reflexivity |]. split; [reflexivity |].
  rewrite !patch_rows_twice by (intros x; reflexivity).
  unfold find_deployment. cbn [deployments].
  eexists. split.
  - apply (find_patched i _ {| users := us; projects := ps; deployments := rows |} d);
      [intros x; reflexivity | exact Hd].
  - repeat split.
Qed.

Lemma processDeployment_failed_build_witness :
  exists row,
    find_deployment "d-1"
      (db (snd (Worker.processDeployment Scenario.offline "d-1" Scenario.triggered)))
    = Some row
    /\ Deployment.status row = failed
    /\ Deployment.error row = Some "getaddrinfo ENOTFOUND api.github.com".
Proof.
  assert (Hrun : exists r,
    fst (Builder.buildProject Scenario.offline
           (Worker.build_options Scenario.app
              (new_deployment (Scenario.fine "d-1") "p-app" "abc1234def"
                 (Some "Fix the build") None)
              Scenario.offline "gho_token")
           Scenario.triggered) = Returned r
    /\ Builder.success r = false
    /\ Builder.error r = Some "getaddrinfo ENOTFOUND api.github.com").
  { eexists. split; [vm_compute; reflexivity | split; reflexivity]. }
  destruct Hrun as (r & Hbuild & Hbad & Herror).
  assert (Hne : "gho_token" <> "") by discriminate.
  destruct (processDeployment_failed_build Scenario.offline "d-1" Scenario.triggered
              (new_deployment (Scenario.fine "d-1") "p-app" "abc1234def"
                 (Some "Fix the build") None)
              Scenario.app "gho_token" r eq_refl eq_refl eq_refl Hne Hbuild Hbad)
    as (_ & _ & row & Hrow & Hstatus & Hmessage & _).
  exists row. split; [exact Hrow |]. split; [exact Hstatus |].
  rewrite Hmessage, Herror. reflexivity.
Defined.

(** X11.  Without a GitHub token of the project's owner nothing is built:
    the run ends with the record failed, the error "GitHub access token not
    found", and neither the history nor the file system changed. *)
Theorem processDeployment_without_token
    (w : World) (i : string) (s : State) (d : Deployment.row) (p : Project.row)
    (token : option string) :
  find_deployment i (db s) = Some d ->
  find_project (Deployment.projectId d) (db s) = Some p ->
  getGitHubAccessToken w (Project.userId p) = Returned token ->
  present token = false ->
  fst (Worker.processDeployment w i s) = Returned tt
  /\ journal (snd (Worker.processDeployment w i s)) = journal s
  /\ fs (snd (Worker.processDeployment w i s)) = fs s
  /\ exists row,
       find_deployment i (db (snd (Worker.processDeployment w i s))) = Some row
       /\ Deployment.status row = failed
       /\ Deployment.error row = Some "GitHub access token not found"
       /\ Deployment.finishedAt row = Some (now w)
       /\ Deployment.buildLogs row = Deployment.buildLogs d
       /\ Deployment.imageTag row = Deployment.imageTag d.
Proof.
  intros Hd Hp Htok Hnone.
  destruct s as [[us ps rows] paths h].
  unfold Worker.processDeployment, Worker.find_with_project_user.
  run. cbn [db users projects deployments fs journal] in *.
  rewrite Hd, Hp. cbn. rewrite Htok. cbn. rewrite Hnone. cbn.
  split; [reflexivity |]. split; [reflexivity |]. split; [reflexivity |].
  rewrite !patch_rows_twice by (intros x; reflexivity).
  unfold find_deployment. cbn [deployments].
  eexists. split.
  - apply (find_patched i _ {| users := us; projects := ps; deployments := rows |} d);
      [intros x; reflexivity | exact Hd].
  - repeat split.
Qed.

Lemma processDeployment_without_token_witness :
  exists row,
    find_deployment "d-1"
      (db (snd (Worker.processDeployment
                  (Scenario.with_token (Scenario.fine "b-1") (Returned None))
                  "d-1" Scenario.triggered)))
    = Some row
    /\ Deployment.status row = failed
    /\ Deployment.error row = Some "GitHub access token not found".
Proof.
  destruct (processDeployment_without_token
              (Scenario.with_token (Scenario.fine "b-1") (Returned None))
              "d-1" Scenario.triggered
              (new_deployment (Scenario.fine "d-1") "p-app" "abc1234def"
                 (Some "Fix the build") None)
              Scenario.app None eq_refl eq_refl eq_refl eq_refl)
    as (_ & _ & _ & row & Hrow & Hstatus & Herror & _).
  exists row. split; [exact Hrow |]. split; [exact Hstatus | exact Herror].
Defined.

(** ** The routers: records of other users *)

(** X12.  A Deployment of somebody else's project is answered as one that
    does not exist: cancel and rollback throw NOT_FOUND and leave the state
    as it was, whatever the status of the record. *)
Theorem deployments_of_others_not_found
    (w : World) (user i : string) (s : State) (d : Deployment.row) (p : Project.row) :
  find_deployment i (db s) = Some d ->
  find_project (Deployment.projectId d) (db s) = Some p ->
  Project.userId p <> user ->
  Routers.cancel w user i s = (Settled (Thrown (TRPCError NOT_FOUND None)), s)
  /\ Routers.rollback w user i s = (Settled (Thrown (TRPCError NOT_FOUND None)), s)
  /\ forall j, find_deployment j (db s) = None ->
       Routers.cancel w user j s = Routers.cancel w user i s
       /\ Routers.rollback w user j s = Routers.rollback w user i s.
Proof.
  intros Hd Hp Hother.
  assert (Hne : negb (String.eqb (Project.userId p) user) = true).
  { destruct (String.eqb_spec (Project.userId p) user); [contradiction | reflexivity]. }
  assert (Hcancel :
    Routers.cancel w user i s = (Settled (Thrown (TRPCError NOT_FOUND None)), s)).
  { unfold Routers.cancel, Routers.owned, Routers.find_with_project.
    run. rewrite Hd, Hp. cbn. now rewrite Hne. }
  assert (Hrollback :
    Routers.rollback w user i s = (Settled (Thrown (TRPCError NOT_FOUND None)), s)).
  { unfold Routers.rollback, Routers.owned, Routers.find_with_project.
    run. rewrite Hd, Hp. cbn. now rewrite Hne. }
  split; [exact Hcancel |]. split; [exact Hrollback |].
  intros j Hj. rewrite Hcancel, Hrollback.
  unfold Routers.cancel, Routers.rollback, Routers.owned, Routers.find_with_project.
  run. rewrite Hj. split; reflexivity.
Qed.

Lemma deployments_of_others_not_found_witness :
  Routers.cancel (Scenario.fine "x") "u-mallory" "d-1" Scenario.triggered
  = (Settled (Thrown (TRPCError NOT_FOUND None)), Scenario.triggered).
Proof.
  assert (Hother : Project.userId Scenario.app <> "u-mallory") by discriminate.
  exact (proj1 (deployments_of_others_not_found (Scenario.fine "x") "u-mallory" "d-1"
                  Scenario.triggered
                  (new_deployment (Scenario.fine "d-1") "p-app" "abc1234def"
                     (Some "Fix the build") None)
                  Scenario.app eq_refl eq_refl Hother)).
Defined.

(** ** The tables *)

Lemma keeps_identity_same : keeps_identity (fun r => r).
Proof.
  intros r. repeat split.
Qed.

Ltac rows_patched i :=
  rewrite ?patch_rows_twice by (intros ?; reflexivity);
  (split; [reflexivity |]); (split; [reflexivity |]);
  first
    [ exists (fun r => r); split; [exact keeps_identity_same |];
      symmetry; apply map_id
    | eexists; split; [| unfold patch_rows; reflexivity];
      let x := fresh "x" in
      intros x; cbn beta; destruct (String.eqb (Deployment.id x) i); repeat split ].

(** A run of the worker patches the rows of the table, and what it
    patches is never the key, the project, the commit or its message. *)
Lemma processDeployment_tables (w : World) (i : string) (s : State) :
  users (db (snd (Worker.processDeployment w i s))) = users (db s)
  /\ projects (db (snd (Worker.processDeployment w i s))) = projects (db s)
  /\ exists f,
       keeps_identity f
       /\ deployments (db (snd (Worker.processDeployment w i s)))
          = map f (deployments (db s)).
Proof.
  destruct s as [[us ps rows] paths0 h].
  unfold Worker.processDeployment, Worker.find_with_project_user,
    Worker.publish_dns.
  run. cbn [db users projects deployments fs journal].
  destruct (find_deployment i _) as [d |] eqn:Hd; [| cbn; rows_patched i].
  destruct (find_project _ _) as [p |]; [| cbn; rows_patched i].
  cbn.
  destruct (getGitHubAccessToken w _) as [token |]; cbn; [| rows_patched i].
  destruct (present token); cbn; [| rows_patched i].
  use_build w; cbn; [rows_patched i |].
  destruct (Builder.success r) eqn:Hsuccess; cbn; [| rows_patched i].
  destruct (decryptJson w _); cbn; [| rows_patched i].
  destruct (deploy_success _); cbn; [| rows_patched i].
  destruct (find_user _ _) as [u |]; cbn; [| rows_patched i].
  destruct (present (User.cloudflareToken u) && present (User.cloudflareZone u));
    cbn; [| rows_patched i].
  destruct (setupProjectDns w _ _ _ _) as [[] |]; cbn; [| rows_patched i].
  destruct (present (Project.customDomain p)); cbn; [| rows_patched i].
  destruct (setupProjectDns w _ _ _ _) as [[] |]; cbn; rows_patched i.
Qed.

Lemma grown_tables (s s' : State) (row : Deployment.row) (evs : list Event) :
  grown s s' row evs ->
  users (db s') = users (db s) /\ projects (db s') = projects (db s)
  /\ deployments (db s') = (deployments (db s) ++ [row])%list
  /\ find_deployment (Deployment.id row) (db s) = None.
Proof.
  intros [Hfresh ->]. now repeat split.
Qed.

(** A rollback that goes through adds a row for the project of its
    source. *)
Lemma rollback_tables (w : World) (user i : string) (s : State) :
  snd (Routers.rollback w user i s) = s
  \/ exists source p row,
       find_project (Deployment.projectId source) (db s) = Some p
       /\ row = new_deployment w (Deployment.projectId source)
                  (Deployment.commitSha source)
                  (Some ("Rollback to " ++ substring0 7 (Deployment.commitSha source)))
                  (Deployment.imageTag source)
       /\ grown s (snd (Routers.rollback w user i s)) row
            [EvInserted (Deployment.id row) (ByRollback (Deployment.id source))].
Proof.
  destruct s as [[us ps rows] paths h].
  unfold Routers.rollback, Routers.owned, Routers.find_with_project, insert_deployment.
  cbv zeta. run. cbn [db users projects deployments fs journal].
  destruct (find_deployment i _) as [d |] eqn:Hd; [| now left].
  destruct (find_project (Deployment.projectId d) _) as [p |] eqn:Hp; [| now left].
  cbn. destruct (negb (Project.userId p =? user)); [now left |].
  cbn. destruct (status_eqb (Deployment.status d) live); [| now left].
  destruct (present (Deployment.imageTag d)); [| now left].
  cbn. destruct (find_deployment (randomUUID w) _) eqn:Hfresh; [now left |].
  cbn. rewrite Hp. cbn. right.
  exists d, p, (new_deployment w (Deployment.projectId d) (Deployment.commitSha d)
                  (Some ("Rollback to " ++ substring0 7 (Deployment.commitSha d)))
                  (Deployment.imageTag d)).
  split; [exact Hp |]. split; [reflexivity |].
  split; [exact Hfresh | reflexivity].
Qed.

(** What an operation does to the tables: no operation of the system
    deletes a Deployment or touches the users or the projects.  An operation either patches rows, and then
    never their key, project, commit, commit message or time of creation,
    or it adds one row at the end: a pending one, under a key that was not
    in use, for a project of the table. *)
Lemma run_operation_tables (o : Operation) (s : State) :
  users (db (run_operation o s)) = users (db s)
  /\ projects (db (run_operation o s)) = projects (db s)
  /\ ((exists f,
          keeps_identity f
          /\ deployments (db (run_operation o s)) = map f (deployments (db s)))
      \/ exists row p,
           deployments (db (run_operation o s)) = (deployments (db s) ++ [row])%list
           /\ find_deployment (Deployment.id row) (db s) = None
           /\ In p (projects (db s))
           /\ Project.id p = Deployment.projectId row
           /\ Deployment.status row = pending).
Proof.
  assert (Hsame : forall s' : State, db s' = db s ->
    users (db s') = users (db s)
    /\ projects (db s') = projects (db s)
    /\ ((exists f,
            keeps_identity f /\ deployments (db s') = map f (deployments (db s)))
        \/ exists row p,
             deployments (db s') = (deployments (db s) ++ [row])%list
             /\ find_deployment (Deployment.id row) (db s) = None
             /\ In p (projects (db s))
             /\ Project.id p = Deployment.projectId row
             /\ Deployment.status row = pending)).
  { intros s' ->. split; [reflexivity |]. split; [reflexivity |]. left.
    exists (fun r => r). split; [exact keeps_identity_same |].
    symmetry. apply map_id. }
  destruct o as [w req | w user project | w user i | w user i | w i];
    cbn [run_operation].
  - destruct (POST_effect w req s)
      as (_ & [(Ht & _) | [(Ht & _) | [(Ht & _) | [(Ht & _) | Hgrown]]]]);
      try (apply Hsame; now rewrite Ht).
    destruct Hgrown
      as (event & branch & p & row & (_ & _ & _ & name & _ & Hfind) & _ & _ & _
          & Hrow & Hgrown & _).
    destruct (grown_tables _ _ _ _ Hgrown) as (Hu & Hp & Hd & Hfresh).
    split; [exact Hu |]. split; [exact Hp |]. right. exists row, p.
    split; [exact Hd |]. split; [exact Hfresh |].
    apply find_some in Hfind. split; [exact (proj1 Hfind) |].
    rewrite Hrow. split; reflexivity.
  - destruct (triggerDeploy_effect w user project s)
      as [[Hs _] | (p & token & commit & row & Hin & _ & _ & _ & Hrow & Hgrown & _)];
      [apply Hsame; now rewrite Hs |].
    destruct (grown_tables _ _ _ _ Hgrown) as (Hu & Hp & Hd & Hfresh).
    split; [exact Hu |]. split; [exact Hp |]. right. exists row, p.
    split; [exact Hd |]. split; [exact Hfresh |]. split; [exact Hin |].
    rewrite Hrow. split; reflexivity.
  - destruct (cancel_effect w user i s) as [Hs | [_ Hs]];
      [apply Hsame; now rewrite Hs |].
    rewrite Hs. cbn [db users projects deployments].
    split; [reflexivity |]. split; [reflexivity |]. left.
    eexists. split; [| unfold patch_rows; reflexivity].
    intros r. cbn beta. destruct (String.eqb (Deployment.id r) i); repeat split.
  - destruct (rollback_tables w user i s)
      as [Hs | (source & p & row & Hproject & Hrow & Hgrown)];
      [apply Hsame; now rewrite Hs |].
    destruct (grown_tables _ _ _ _ Hgrown) as (Hu & Hp & Hd & Hfresh).
    split; [exact Hu |]. split; [exact Hp |]. right. exists row, p.
    split; [exact Hd |]. split; [exact Hfresh |].
    unfold find_project in Hproject. apply find_some in Hproject.
    destruct Hproject as [Hin Hid]. apply String.eqb_eq in Hid.
    split; [exact Hin |]. rewrite Hrow. split; [exact Hid | reflexivity].
  - destruct (processDeployment_tables w i s) as (Hu & Hp & f & Hf & Hd).
    split; [exact Hu |]. split; [exact Hp |]. left. now exists f.
Qed.

(** X13.  No operation of the system deletes a Deployment or touches the
    users or the projects.  An operation either patches rows, and then
    never their key, project, commit, commit message or time of creation,
    or it adds one row at the end: a pending one, under a key that was not
    in use, for a project of the table. *)
Theorem operations_patch_or_append (o : Operation) (s : State) :
  users (db (run_operation o s)) = users (db s)
  /\ projects (db (run_operation o s)) = projects (db s)
  /\ ((exists f,
          keeps_identity f
          /\ deployments (db (run_operation o s)) = map f (deployments (db s)))
      \/ exists row p,
           deployments (db (run_operation o s)) = (deployments (db s) ++ [row])%list
           /\ find_deployment (Deployment.id row) (db s) = None
           /\ In p (projects (db s))
           /\ Project.id p = Deployment.projectId row
           /\ Deployment.status row = pending).
Proof.
  exact (run_operation_tables o s).
Qed.

Lemma NoDup_snoc {A} (l : list A) (x : A) :
  NoDup l -> ~ In x l -> NoDup (l ++ [x]).
Proof.
  induction 1 as [| y l Hy Hl IH]; intros Hx; cbn.
  - constructor; [intros [] | constructor].
  - constructor.
    + rewrite in_app_iff. intros [Hin | [-> | []]]; [now elim Hy |].
      apply Hx. now left.
    + apply IH. intros Hin. apply Hx. now right.
Qed.

(** X14.  In every reachable system the keys of the Deployment table are
    distinct and every Deployment belongs to a project of the table. *)
Theorem reachable_tables_consistent (s : State) :
  reachable s -> tables_consistent s.
Proof.
  induction 1 as [us ps | o s Hreach [Hkeys Hparents]].
  - split; [constructor | intros row []].
  - destruct (run_operation_tables o s)
      as (_ & Hprojects & [(f & Hf & Hrows) | (row & p & Hrows & Hfresh & Hin & Hid & _)]);
      unfold tables_consistent; rewrite Hrows, Hprojects.
    + split.
      * rewrite map_map.
        rewrite (map_ext _ Deployment.id) by (intros r; apply (Hf r)).
        exact Hkeys.
      * intros row' Hrow. apply in_map_iff in Hrow. destruct Hrow as (row & <- & Hrow).
        destruct (Hparents row Hrow) as (p & Hp & Hid). exists p.
        split; [exact Hp |]. destruct (Hf row) as (_ & -> & _). exact Hid.
    + split.
      * rewrite map_app. cbn [map]. apply NoDup_snoc; [exact Hkeys |].
        intros Hused. apply in_map_iff in Hused.
        destruct Hused as (other & Hsame & Hother).
        exact (proj1 (find_deployment_none _ _) Hfresh other Hother Hsame).
      * intros row' Hin'. apply in_app_iff in Hin'.
        destruct Hin' as [Hin' | [<- | []]]; [exact (Hparents row' Hin') |].
        now exists p.
Qed.

Lemma reachable_tables_consistent_witness :
  reachable Scenario.rolled /\ tables_consistent Scenario.rolled.
Proof.
  split; [exact rolled_is_reachable |].
  exact (reachable_tables_consistent Scenario.rolled rolled_is_reachable).
Defined.

(** ** The webhook endpoint: other events *)

(** X15.  A request whose event header is not "push" (or is missing) is
    answered 200 "Event ignored" before anything else is looked at: the
    body is not decoded, no signature is checked, and the state is left as
    it was. *)
Theorem POST_ignores_other_events (w : World) (req : Route.Request) (s : State) :
  Route.x_github_event req <> Some "push" ->
  Route.POST w req s
  = (Settled (Returned {| Route.status_code := 200;
                          Route.json := Route.Message "Event ignored" |}), s).
Proof.
  intros Hevent. unfold Route.POST, Route.respond. run.
  destruct (Route.x_github_event req) as [e |]; [| reflexivity].
  destruct (String.eqb_spec e "push") as [-> | _]; [now elim Hevent | reflexivity].
Qed.

Lemma POST_ignores_other_events_witness :
  fst (Route.POST (Scenario.fine "d-1")
         {| Route.body := "not json";
            Route.x_github_event := Some "ping";
            Route.x_hub_signature_256 := None |}
         Scenario.start)
  = Returned {| Route.status_code := 200;
                Route.json := Route.Message "Event ignored" |}.
Proof.
  assert (Hevent : Some "ping" <> Some "push") by discriminate.
  exact (f_equal fst
           (POST_ignores_other_events (Scenario.fine "d-1")
              {| Route.body := "not json";
                 Route.x_github_event := Some "ping";
                 Route.x_hub_signature_256 := None |}
              Scenario.start Hevent)).
Defined.
